(** * Exxata directory and forum: the storage layer and the mutation handlers

    A shallow embedding of [app.py].  The script is a Streamlit page: every
    user interaction reruns it from the top, so one run is "load the three
    stores, then execute the handler of the widget that fired".  The parts
    embedded here are

    - the local file backend ([_local_read_json], [_local_write_json]) and the
      dispatch in [read_store] / [write_store];
    - the handlers that mutate the in-memory collections and write them back
      (create item, upvote, add link, create thread, reply);
    - the row masks of the search of the directory and of the forum, up to
      the sort;
    - the choice of the current user.

    Python values are JSON values; dictionaries are association lists in
    insertion order.  A text is the string of the bytes of its UTF-8
    encoding.  The methods of [str] whose result depends on the characters
    ([lower], [strip], [int]) are embedded for ASCII text, on which they
    agree with Python's; [PyStr.is_ascii] names that domain.  Numbers are
    integers: the script
    itself only ever stores integers, and floats are left out of the value
    type. *)

From Stdlib Require Import ZArith Ascii String List Bool Lia DecimalString.
From stdpp Require Import base option list strings gmap.

Set Warnings "-register-all".

Local Open Scope string_scope.
Local Open Scope Z_scope.

(** ** JSON values *)

Inductive json : Type :=
| JNull
| JBool (b : bool)
| JInt (n : Z)
| JStr (s : string)
| JList (l : list json)
| JObj (kvs : list (string * json)).

(** ** Python dictionaries, as ordered association lists *)

Module Dict.

Fixpoint get (k : string) (d : list (string * json)) : option json :=
  match d with
  | [] => None
  | (k', v) :: d' => if String.eqb k k' then Some v else get k d'
  end.

(** [d[k] = v]: an existing key keeps its position, a new key goes last. *)
Fixpoint set (k : string) (v : json) (d : list (string * json))
  : list (string * json) :=
  match d with
  | [] => [(k, v)]
  | (k', v') :: d' =>
      if String.eqb k k' then (k, v) :: d' else (k', v') :: set k v d'
  end.

End Dict.

(** ** Python string operations (ASCII range) *)

Module PyStr.

(** The texts on which [lower] and [strip] below are Python's: every
    character is below 128. *)
Fixpoint is_ascii (s : string) : bool :=
  match s with
  | EmptyString => true
  | String c s' => (nat_of_ascii c <? 128)%nat && is_ascii s'
  end.

(** [c.isspace()] for an ASCII character: the white space that [str.strip]
    removes from an ASCII text (tab to carriage return, the four separators
    28 to 31, and the space). *)
Definition is_space (c : ascii) : bool :=
  let n := nat_of_ascii c in
  ((9 <=? n) && (n <=? 13) || (28 <=? n) && (n <=? 32))%nat.

Definition lower_char (c : ascii) : ascii :=
  let n := nat_of_ascii c in
  if ((65 <=? n) && (n <=? 90))%nat then ascii_of_nat (n + 32) else c.

(** [s.lower()] for an ASCII text: the letters A to Z are folded.  On other
    texts Python also folds the letters beyond ASCII, which this function
    leaves as they are. *)
Fixpoint lower (s : string) : string :=
  match s with
  | EmptyString => EmptyString
  | String c s' => String (lower_char c) (lower s')
  end.

(** [s.lstrip()], [s.rstrip()] and [s.strip()] for an ASCII text.  On other
    texts Python also removes the white space beyond ASCII (the no-break
    space, for one), which these functions keep. *)
Fixpoint lstrip (s : string) : string :=
  match s with
  | EmptyString => EmptyString
  | String c s' => if is_space c then lstrip s' else s
  end.

(** [rstrip] drops the trailing run of white space. *)
Fixpoint rstrip (s : string) : string :=
  match s with
  | EmptyString => EmptyString
  | String c s' =>
      match rstrip s' with
      | EmptyString => if is_space c then EmptyString else String c EmptyString
      | r => String c r
      end
  end.

Definition strip (s : string) : string := rstrip (lstrip s).

(** Truth value of a string: [if s:] holds for the non-empty ones. *)
Definition truthy (s : string) : bool :=
  match s with EmptyString => false | _ => true end.

(** [needle in hay]. *)
Fixpoint contains (needle hay : string) : bool :=
  String.prefix needle hay ||
  match hay with
  | EmptyString => false
  | String _ hay' => contains needle hay'
  end.

(** [s.split(sep)] for a one-character separator. *)
Fixpoint split (sep : ascii) (s : string) : list string :=
  match s with
  | EmptyString => [EmptyString]
  | String c s' =>
      if Ascii.eqb c sep then EmptyString :: split sep s'
      else match split sep s' with
           | [] => [String c EmptyString]
           | w :: ws => String c w :: ws
           end
  end.

(** [s[:n]]. *)
Fixpoint take (n : nat) (s : string) : string :=
  match n, s with
  | O, _ => EmptyString
  | _, EmptyString => EmptyString
  | S n', String c s' => String c (take n' s')
  end.

(** [s.rfind("/") + 1]: the length of the part up to and including the
    last slash, 0 when there is none. *)
Fixpoint after_last_slash (s : string) : nat :=
  match s with
  | EmptyString => O
  | String c s' =>
      match after_last_slash s' with
      | O => if Ascii.eqb c "/" then 1%nat else O
      | S k => S (S k)
      end
  end.

Fixpoint all_slashes (s : string) : bool :=
  match s with
  | EmptyString => true
  | String c s' => Ascii.eqb c "/" && all_slashes s'
  end.

Fixpoint rstrip_slash (s : string) : string :=
  match s with
  | EmptyString => EmptyString
  | String c s' =>
      match rstrip_slash s' with
      | EmptyString => if Ascii.eqb c "/" then EmptyString else String c EmptyString
      | r => String c r
      end
  end.

(** [os.path.dirname] of [posixpath]. *)
Definition dirname (p : string) : string :=
  let head := take (after_last_slash p) p in
  if truthy head && negb (all_slashes head) then rstrip_slash head else head.

End PyStr.

(** ** The world the script runs in

    The file system, the clock behind [ts], the generator behind
    [uuid.uuid4] and the Streamlit page are outside the script.  They are
    gathered in one state:

    - [files] maps a path to the text of the file, [dirs] is the set of
      directories;
    - [faults] is the fate of the fallible file operations to come, one entry
      per operation, in order (an exhausted list means no more faults).
      [Fault n] makes the operation raise [OSError]; when the operation is the
      writing of a text to an open file, the first [n] bytes of the text have
      reached the file by then;
    - [clock k] is the text the [k]-th call of [ts] returns, [ticks] counts
      the calls made so far; [uuid_src] and [drawn] do the same for
      [str(uuid.uuid4())];
    - [ui] is what the page was asked to show, most recent last. *)

Inductive fault : Type :=
| NoFault
| Fault (written : nat).

Inductive ui_event : Type :=
| StError (msg : string)
| StWarning (msg : string)
| StSuccess (msg : string).

Record World : Type := mkWorld {
  files : gmap string string;
  dirs : gset string;
  faults : list fault;
  clock : nat → string;
  ticks : nat;
  uuid_src : nat → string;
  drawn : nat;
  ui : list ui_event;
}.

Definition set_files (f : gmap string string → gmap string string) (w : World) : World :=
  mkWorld (f (files w)) (dirs w) (faults w) (clock w) (ticks w) (uuid_src w) (drawn w) (ui w).

Definition set_dirs (f : gset string → gset string) (w : World) : World :=
  mkWorld (files w) (f (dirs w)) (faults w) (clock w) (ticks w) (uuid_src w) (drawn w) (ui w).

Definition set_faults (fs : list fault) (w : World) : World :=
  mkWorld (files w) (dirs w) fs (clock w) (ticks w) (uuid_src w) (drawn w) (ui w).

Definition set_ticks (n : nat) (w : World) : World :=
  mkWorld (files w) (dirs w) (faults w) (clock w) n (uuid_src w) (drawn w) (ui w).

Definition set_drawn (n : nat) (w : World) : World :=
  mkWorld (files w) (dirs w) (faults w) (clock w) (ticks w) (uuid_src w) n (ui w).

Definition add_ui (e : ui_event) (w : World) : World :=
  mkWorld (files w) (dirs w) (faults w) (clock w) (ticks w) (uuid_src w) (drawn w) (ui w ++ [e]).

(** ** Computations that may raise *)

Inductive exn : Type :=
| OSError
| KeyError (k : string)
| TypeError
| ValueError
| AttributeError
| ReError
| RerunException.

Inductive outcome (A : Type) : Type :=
| Ret (a : A)
| Raise (e : exn).
Arguments Ret {A} a.
Arguments Raise {A} e.

Definition M (A : Type) : Type := World → outcome A * World.

Definition ret {A} (a : A) : M A := fun w => (Ret a, w).

Definition raise {A} (e : exn) : M A := fun w => (Raise e, w).

Definition bind {A B} (m : M A) (k : A → M B) : M B :=
  fun w => match m w with
           | (Ret a, w') => k a w'
           | (Raise e, w') => (Raise e, w')
           end.

Declare Scope py_scope.
Delimit Scope py_scope with py.
Notation "x <- m ;; k" := (bind m (fun x => k))
  (at level 100, m at next level, right associativity) : py_scope.
Notation "m ;;; k" := (bind m (fun _ => k))
  (at level 100, right associativity) : py_scope.
Local Open Scope py_scope.

(** [RerunException] derives from [BaseException], so that [except Exception]
    does not intercept the rerun of the page. *)
Definition is_Exception (e : exn) : bool :=
  match e with RerunException => false | _ => true end.

(** [try: m  except Exception: h]. *)
Definition try_except {A} (m : M A) (h : exn → M A) : M A :=
  fun w => match m w with
           | (Ret a, w') => (Ret a, w')
           | (Raise e, w') => if is_Exception e then h e w' else (Raise e, w')
           end.

(** *** Clock, identifiers, page *)

Definition ts : M string :=
  fun w => (Ret (clock w (ticks w)), set_ticks (S (ticks w)) w).

Definition uuid4_str : M string :=
  fun w => (Ret (uuid_src w (drawn w)), set_drawn (S (drawn w)) w).

Definition st_error (msg : string) : M unit := fun w => (Ret tt, add_ui (StError msg) w).
Definition st_warning (msg : string) : M unit := fun w => (Ret tt, add_ui (StWarning msg) w).
Definition st_success (msg : string) : M unit := fun w => (Ret tt, add_ui (StSuccess msg) w).

(** [st.experimental_rerun()] stops the run by raising. *)
Definition st_experimental_rerun : M unit := raise RerunException.

(** *** File operations *)

Definition next_fault : M fault :=
  fun w => (Ret (hd NoFault (faults w)), set_faults (tl (faults w)) w).

Definition is_file (p : string) (w : World) : bool :=
  bool_decide (is_Some (files w !! p)).

Definition is_dir (p : string) (w : World) : bool :=
  bool_decide (p ∈ dirs w).

(** [os.path.exists(p)]. *)
Definition os_path_exists (p : string) : M bool :=
  fun w => (Ret (is_file p w || is_dir p w), w).

(** [os.makedirs(d, exist_ok=True)]: fails on the empty path and when [d]
    is a file. *)
Definition os_makedirs (d : string) : M unit :=
  f <- next_fault ;;
  match f with
  | Fault _ => raise OSError
  | NoFault =>
      fun w =>
        if negb (PyStr.truthy d) || is_file d w then (Raise OSError, w)
        else (Ret tt, set_dirs (fun ds => {[d]} ∪ ds) w)
  end.

(** [open(p, "w")]: needs the directory of [p]; creates the file or empties
    it. *)
Definition open_w (p : string) : M unit :=
  f <- next_fault ;;
  match f with
  | Fault _ => raise OSError
  | NoFault =>
      fun w =>
        if is_dir p w
           || (PyStr.truthy (PyStr.dirname p) && negb (is_dir (PyStr.dirname p) w))
        then (Raise OSError, w)
        else (Ret tt, set_files (insert p EmptyString) w)
  end.

(** Writing [text] to the file opened on [p] and closing it. *)
Definition write_close (p : string) (text : string) : M unit :=
  f <- next_fault ;;
  match f with
  | Fault n => fun w => (Raise OSError, set_files (insert p (PyStr.take n text)) w)
  | NoFault => fun w => (Ret tt, set_files (insert p text) w)
  end.

(** [open(p, "r")] and reading the whole file. *)
Definition open_read (p : string) : M string :=
  f <- next_fault ;;
  match f with
  | Fault _ => raise OSError
  | NoFault =>
      fun w => match files w !! p with
               | Some text => (Ret text, w)
               | None => (Raise OSError, w)
               end
  end.

(** ** Python values at run time *)

Module Py.

(** [v[k]] for a string key. *)
Definition getitem (v : json) (k : string) : M json :=
  match v with
  | JObj d =>
      match Dict.get k d with
      | Some x => ret x
      | None => raise (KeyError k)
      end
  | _ => raise TypeError
  end.

(** [v[k] = x]. *)
Definition setitem (v : json) (k : string) (x : json) : M json :=
  match v with
  | JObj d => ret (JObj (Dict.set k x d))
  | _ => raise TypeError
  end.

(** [v.get(k, dflt)]. *)
Definition get (v : json) (k : string) (dflt : json) : M json :=
  match v with
  | JObj d => ret (default dflt (Dict.get k d))
  | _ => raise AttributeError
  end.

(** [v == s] for a string [s]: only an equal string is equal to it. *)
Definition eq_str (v : json) (s : string) : bool :=
  match v with
  | JStr s' => String.eqb s' s
  | _ => false
  end.

Definition digit_val (c : ascii) : option Z :=
  let n := nat_of_ascii c in
  if ((48 <=? n) && (n <=? 57))%nat then Some (Z.of_nat n - 48) else None.

(** The white space that [int] skips around the number in an ASCII text:
    tab to carriage return, and the space (not the separators 28 to 31). *)
Definition c_space (c : ascii) : bool :=
  let n := nat_of_ascii c in
  ((9 <=? n) && (n <=? 13) || (n =? 32))%nat.

Fixpoint skip_space (s : string) : string :=
  match s with
  | EmptyString => EmptyString
  | String c s' => if c_space c then skip_space s' else s
  end.

Fixpoint all_space (s : string) : bool :=
  match s with
  | EmptyString => true
  | String c s' => c_space c && all_space s'
  end.

(** Digits, single underscores allowed between them, then white space to
    the end: the value and the number of digits read. *)
Fixpoint digits (acc : Z) (n : nat) (after_digit : bool) (s : string)
  : option (Z * nat) :=
  match s with
  | EmptyString => if after_digit then Some (acc, n) else None
  | String c s' =>
      match digit_val c with
      | Some d => digits (10 * acc + d) (S n) true s'
      | None =>
          if Ascii.eqb c "_" && after_digit then digits acc n false s'
          else if after_digit && all_space s then Some (acc, n)
          else None
      end
  end.

(** The most digits that [int] converts (the default of
    [sys.set_int_max_str_digits]); a longer number is a [ValueError]. *)
Definition max_str_digits : nat := 4300.

(** [int(s)] for an ASCII text [s], [None] standing for [ValueError]:
    white space, an optional sign, the digits, white space. *)
Definition parse_int (s : string) : option Z :=
  let s1 := skip_space s in
  let '(neg, body) :=
    match s1 with
    | String "-" s' => (true, s')
    | String "+" s' => (false, s')
    | _ => (false, s1)
    end in
  match digits 0 0 false body with
  | Some (v, n) =>
      if (n <=? max_str_digits)%nat then Some (if neg then Z.opp v else v)
      else None
  | None => None
  end.

(** [int(v)]. *)
Definition int (v : json) : M Z :=
  match v with
  | JInt n => ret n
  | JBool b => ret (if b then 1 else 0)
  | JStr s =>
      match parse_int s with
      | Some n => ret n
      | None => raise ValueError
      end
  | _ => raise TypeError
  end.

(** [[t.strip() for t in (raw.split(",") if raw else []) if t.strip()]]. *)
Definition split_tags (raw : string) : list json :=
  let parts := if PyStr.truthy raw then PyStr.split "," raw else [] in
  JStr <$> filter (fun t => Is_true (PyStr.truthy t)) (PyStr.strip <$> parts).

(** [{"url": url.strip(), "by": user, "at": at, "note": note.strip() if note else ""}]. *)
Definition link (url user at_ note : string) : json :=
  JObj [("url", JStr (PyStr.strip url));
        ("by", JStr user);
        ("at", JStr at_);
        ("note", JStr (if PyStr.truthy note then PyStr.strip note else ""))].

(** [{"id": pid, "by": user, "at": at, "text": text.strip()}]. *)
Definition post (pid user at_ text : string) : json :=
  JObj [("id", JStr pid);
        ("by", JStr user);
        ("at", JStr at_);
        ("text", JStr (PyStr.strip text))].

(** [v.setdefault(k, []).append(x)]: the list under [k], created empty when
    the key is missing, grows by [x] at its end. *)
Definition setdefault_append (v : json) (k : string) (x : M json) : M json :=
  match v with
  | JObj d =>
      match default (JList []) (Dict.get k d) with
      | JList l => e <- x ;; ret (JObj (Dict.set k (JList (l ++ [e])) d))
      | _ => raise AttributeError
      end
  | _ => raise AttributeError
  end.

(** [v[k].append(x)]. *)
Definition getitem_append (v : json) (k : string) (x : M json) : M json :=
  cur <- getitem v k ;;
  match v, cur with
  | JObj d, JList l => e <- x ;; ret (JObj (Dict.set k (JList (l ++ [e])) d))
  | _, _ => raise AttributeError
  end.

End Py.

(** ** JSON texts

    A printer and a reader of JSON texts, on which the script can be run on
    concrete documents.  The printer lays a value out the way [json.dump]
    does, on one line or indented by two spaces; the reader accepts both
    layouts.  Bytes above the ASCII range pass through unchanged. *)

Module JsonText.

Definition dquote : ascii := ascii_of_nat 34.
Definition backslash : ascii := ascii_of_nat 92.
Definition newline : ascii := ascii_of_nat 10.

Definition hex_digit (n : nat) : ascii :=
  if (n <? 10)%nat then ascii_of_nat (48 + n) else ascii_of_nat (87 + n).

Definition escape_char (c : ascii) : string :=
  let n := nat_of_ascii c in
  if (n =? 34)%nat then String backslash (String dquote EmptyString)
  else if (n =? 92)%nat then String backslash (String backslash EmptyString)
  else if (n =? 10)%nat then "\n"
  else if (n =? 13)%nat then "\r"
  else if (n =? 9)%nat then "\t"
  else if (n =? 8)%nat then "\b"
  else if (n =? 12)%nat then "\f"
  else if (n <? 32)%nat then
    "\u00" ++ String (hex_digit (n / 16)) (String (hex_digit (n mod 16)) EmptyString)
  else String c EmptyString.

Fixpoint escape (s : string) : string :=
  match s with
  | EmptyString => EmptyString
  | String c s' => escape_char c ++ escape s'
  end.

Definition quoted (s : string) : string :=
  String dquote (escape s ++ String dquote EmptyString).

Fixpoint spaces (n : nat) : string :=
  match n with
  | O => EmptyString
  | S n' => String " " (spaces n')
  end.

Fixpoint join (sep : string) (parts : list string) : string :=
  match parts with
  | [] => EmptyString
  | [x] => x
  | x :: rest => x ++ sep ++ join sep rest
  end.

(** The line break before an entry at depth [level], when indenting. *)
Definition break (pretty : bool) (level : nat) : string :=
  if pretty then String newline (spaces (2 * level)) else EmptyString.

Definition item_sep (pretty : bool) (level : nat) : string :=
  if pretty then "," ++ break pretty level else ", ".

Fixpoint dumps_at (pretty : bool) (level : nat) (v : json) : string :=
  match v with
  | JNull => "null"
  | JBool b => if b then "true" else "false"
  | JInt n => NilZero.string_of_int (Z.to_int n)
  | JStr s => quoted s
  | JList [] => "[]"
  | JList l =>
      "[" ++ break pretty (S level)
          ++ join (item_sep pretty (S level)) (map (dumps_at pretty (S level)) l)
          ++ break pretty level ++ "]"
  | JObj [] => "{}"
  | JObj kvs =>
      "{" ++ break pretty (S level)
          ++ join (item_sep pretty (S level))
               (map (fun kv => match kv with
                               | (k, x) => quoted k ++ ": " ++ dumps_at pretty (S level) x
                               end) kvs)
          ++ break pretty level ++ "}"
  end.

(** [json.dump(v, f)]. *)
Definition dump (v : json) : string := dumps_at false 0 v.

(** [json.dump(v, f, ensure_ascii=False, indent=2)]. *)
Definition dump_indent (v : json) : string := dumps_at true 0 v.

(** *** Reading *)

Definition is_ws (c : ascii) : bool :=
  let n := nat_of_ascii c in
  ((n =? 32) || (n =? 10) || (n =? 13) || (n =? 9))%nat.

Fixpoint skip_ws (s : string) : string :=
  match s with
  | String c s' => if is_ws c then skip_ws s' else s
  | EmptyString => EmptyString
  end.

Definition hex_val (c : ascii) : option nat :=
  let n := nat_of_ascii c in
  if ((48 <=? n) && (n <=? 57))%nat then Some (n - 48)%nat
  else if ((97 <=? n) && (n <=? 102))%nat then Some (n - 87)%nat
  else if ((65 <=? n) && (n <=? 70))%nat then Some (n - 55)%nat
  else None.

(** The characters of a string literal after its opening quote, and the
    rest of the text after its closing quote.  Of the [\u] escapes, those
    of one byte are read. *)
Fixpoint read_string (s : string) : option (string * string) :=
  match s with
  | EmptyString => None
  | String c s' =>
      if Ascii.eqb c dquote then Some (EmptyString, s')
      else if Ascii.eqb c backslash then
        match s' with
        | String e s'' =>
            let cont (ch : ascii) :=
              match read_string s'' with
              | Some (str, rest) => Some (String ch str, rest)
              | None => None
              end in
            if Ascii.eqb e dquote then cont dquote
            else if Ascii.eqb e backslash then cont backslash
            else if Ascii.eqb e "/" then cont "/"%char
            else if Ascii.eqb e "n" then cont newline
            else if Ascii.eqb e "r" then cont (ascii_of_nat 13)
            else if Ascii.eqb e "t" then cont (ascii_of_nat 9)
            else if Ascii.eqb e "b" then cont (ascii_of_nat 8)
            else if Ascii.eqb e "f" then cont (ascii_of_nat 12)
            else if Ascii.eqb e "u" then
              match s'' with
              | String "0" (String "0" (String h1 (String h2 s3))) =>
                  match hex_val h1, hex_val h2, read_string s3 with
                  | Some a, Some b, Some (str, rest) =>
                      Some (String (ascii_of_nat (16 * a + b)) str, rest)
                  | _, _, _ => None
                  end
              | _ => None
              end
            else None
        | EmptyString => None
        end
      else if (nat_of_ascii c <? 32)%nat then None
      else match read_string s' with
           | Some (str, rest) => Some (String c str, rest)
           | None => None
           end
  end.

(** The leading digits of a text, as a number, and what follows them. *)
Fixpoint read_digits (acc : Z) (seen : bool) (s : string) : option (Z * string) :=
  match s with
  | String c s' =>
      match Py.digit_val c with
      | Some d => read_digits (10 * acc + d) true s'
      | None =>
          if seen && negb (Ascii.eqb c "." || Ascii.eqb c "e" || Ascii.eqb c "E")
          then Some (acc, s) else None
      end
  | EmptyString => if seen then Some (acc, EmptyString) else None
  end.

Fixpoint read_value (fuel : nat) (s : string) : option (json * string) :=
  match fuel with
  | O => None
  | S fuel' =>
      match skip_ws s with
      | String "n" (String "u" (String "l" (String "l" rest))) => Some (JNull, rest)
      | String "t" (String "r" (String "u" (String "e" rest))) => Some (JBool true, rest)
      | String "f" (String "a" (String "l" (String "s" (String "e" rest)))) =>
          Some (JBool false, rest)
      | String "-" rest =>
          match read_digits 0 false rest with
          | Some (n, rest') => Some (JInt (- n), rest')
          | None => None
          end
      | String "[" rest =>
          match skip_ws rest with
          | String "]" rest' => Some (JList [], rest')
          | _ =>
              match read_elems fuel' rest with
              | Some (l, rest') => Some (JList l, rest')
              | None => None
              end
          end
      | String "{" rest =>
          match skip_ws rest with
          | String "}" rest' => Some (JObj [], rest')
          | _ =>
              match read_members fuel' rest with
              | Some (kvs, rest') => Some (JObj kvs, rest')
              | None => None
              end
          end
      | String c rest =>
          if Ascii.eqb c dquote then
            match read_string rest with
            | Some (str, rest') => Some (JStr str, rest')
            | None => None
            end
          else
            match read_digits 0 false (String c rest) with
            | Some (n, rest') => Some (JInt n, rest')
            | None => None
            end
      | EmptyString => None
      end
  end
with read_elems (fuel : nat) (s : string) : option (list json * string) :=
  match fuel with
  | O => None
  | S fuel' =>
      match read_value fuel' s with
      | Some (v, rest) =>
          match skip_ws rest with
          | String "," rest' =>
              match read_elems fuel' rest' with
              | Some (vs, rest'') => Some (v :: vs, rest'')
              | None => None
              end
          | String "]" rest' => Some ([v], rest')
          | _ => None
          end
      | None => None
      end
  end
with read_members (fuel : nat) (s : string)
     : option (list (string * json) * string) :=
  match fuel with
  | O => None
  | S fuel' =>
      match skip_ws s with
      | String q rest =>
          if Ascii.eqb q dquote then
            match read_string rest with
            | Some (k, rest1) =>
                match skip_ws rest1 with
                | String ":" rest2 =>
                    match read_value fuel' rest2 with
                    | Some (v, rest3) =>
                        match skip_ws rest3 with
                        | String "," rest4 =>
                            match read_members fuel' rest4 with
                            | Some (kvs, rest5) => Some ((k, v) :: kvs, rest5)
                            | None => None
                            end
                        | String "}" rest4 => Some ([(k, v)], rest4)
                        | _ => None
                        end
                    | None => None
                    end
                | _ => None
                end
            | None => None
            end
          else None
      | EmptyString => None
      end
  end.

(** [json.load]: one value, then nothing but white space. *)
Definition load (s : string) : option json :=
  match read_value (2 * String.length s + 2) s with
  | Some (v, rest) =>
      match skip_ws rest with
      | EmptyString => Some v
      | _ => None
      end
  | None => None
  end.

End JsonText.

(** ** A matcher for plain regular expressions

    The patterns made of ordinary characters and of dots, a dot standing for
    any character but a line break.  Every other pattern is declined. *)

Module PlainRe.

Definition is_special (c : ascii) : bool :=
  existsb (Ascii.eqb c) (list_ascii_of_string "^$*+?{}[]\|()").

Definition plain (pat : string) : bool :=
  forallb (fun c => negb (is_special c)) (list_ascii_of_string pat).

Fixpoint match_here (pat s : string) : bool :=
  match pat, s with
  | EmptyString, _ => true
  | String p pat', String c s' =>
      (if Ascii.eqb p "." then negb (Ascii.eqb c JsonText.newline) else Ascii.eqb p c)
      && match_here pat' s'
  | String _ _, EmptyString => false
  end.

Fixpoint find (pat s : string) : bool :=
  match_here pat s ||
  match s with
  | EmptyString => false
  | String _ s' => find pat s'
  end.

Definition search (pat s : string) : option bool :=
  if plain pat then Some (find pat s) else None.

Definition search_icase (pat s : string) : option bool :=
  if plain pat then Some (find (PyStr.lower pat) (PyStr.lower s)) else None.

End PlainRe.

(** ** Sample documents and a sample world

    A clock that advances by a microsecond at each reading, a generator of
    identifiers, an empty disk on which no fault is to come, and a few stored
    entries.  The GitHub backend is absent: its two functions are never
    reached when [GITHUB_ENABLED] is [False]. *)

Module Demo.

Definition dec (k : nat) : string := NilZero.string_of_uint (Nat.to_uint k).

Definition clock (k : nat) : string := "2025-01-01T10:00:00.00000" ++ dec k ++ "Z".

Definition uuid (k : nat) : string := "0f3a-" ++ dec k.

Definition gh_read : string → json → M (json * option string) :=
  fun _ default => ret (default, None).

Definition gh_write : string → json → option string → string → M bool :=
  fun _ _ _ _ => ret false.

Definition w0 : World := mkWorld ∅ ∅ [] clock 0 uuid 0 [].

Definition carta : list (string * json) :=
  [("id", JStr "7c1e");
   ("title", JStr "Carta Status");
   ("project_code", JStr "FT02");
   ("work_type", JStr "drenagem");
   ("links", JList []);
   ("tags", JList [JStr "carta"; JStr "status"]);
   ("created_by", JStr "ana");
   ("created_at", JStr "2024-12-01T08:00:00Z");
   ("updated_at", JStr "2024-12-01T08:00:00Z");
   ("upvotes", JInt 0)].

Definition planta : list (string * json) :=
  [("id", JStr "a2f0");
   ("title", JStr "Planta Geral");
   ("project_code", JStr "0738");
   ("work_type", JStr "via");
   ("links", JList []);
   ("tags", JList []);
   ("created_by", JStr "rui");
   ("created_at", JStr "2024-11-20T09:30:00Z");
   ("updated_at", JStr "2024-11-20T09:30:00Z");
   ("upvotes", JInt 4)].

Definition atraso : list (string * json) :=
  [("id", JStr "51bd");
   ("title", JStr "Drenagem atraso");
   ("created_by", JStr "ana");
   ("created_at", JStr "2024-12-02T11:00:00Z");
   ("tags", JList []);
   ("posts", JList [JObj [("id", JStr "9e01"); ("by", JStr "ana");
                          ("at", JStr "2024-12-02T11:00:00Z");
                          ("text", JStr "Precisamos de revisao")]])].

Definition contrato : list (string * json) :=
  [("id", JStr "c4d2");
   ("title", JStr "Contrato");
   ("created_by", JStr "rui");
   ("created_at", JStr "2024-12-03T15:00:00Z");
   ("tags", JList []);
   ("posts", JList [])].

(** The disk after the items [its] were stored, with the faults [fs] to
    come. *)
Definition stored (its : list json) (fs : list fault) : World :=
  set_faults fs
    (set_files (insert "data/items.json" (JsonText.dump_indent (JList its)))
       (set_dirs (fun ds => {["data"]} ∪ ds) w0)).

End Demo.

(** ** Paths of the documents *)

Definition ITEMS_PATH : string := "data/items.json".
Definition THREADS_PATH : string := "data/threads.json".
Definition USERS_PATH : string := "data/users.json".

(** ** The script

    [json.dump] and [json.load] belong to Python's library, and the GitHub
    backend to PyGithub: the script is embedded over them.  [json_dump] is
    [json.dump(v, f)], [json_dump_indent] is
    [json.dump(v, f, ensure_ascii=False, indent=2)], and [json_load] is
    [json.load], [None] standing for the exception it raises on a text that
    is not JSON.

    The regular expressions of the search are Python's as well:
    [re_search pat s] is whether [re.search(pat, s)] finds a match,
    [re_search_icase] the same under [re.IGNORECASE], and both are [None]
    exactly when [pat] does not compile.  [py_repr] is [str] on lists and
    dictionaries. *)

Definition row : Type := list (string * json).

Module Pure.

(** Computations that may raise and touch no state. *)
Definition bind {A B} (m : outcome A) (k : A → outcome B) : outcome B :=
  match m with
  | Ret a => k a
  | Raise e => Raise e
  end.

(** A series computed row by row; the first exception ends it. *)
Fixpoint series {A B} (f : A → outcome B) (rows : list A) : outcome (list B) :=
  match rows with
  | [] => Ret []
  | r :: rows' =>
      bind (f r) (fun b => bind (series f rows') (fun bs => Ret (b :: bs)))
  end.

End Pure.

Section App.

Variable json_dump : json → string.
Variable json_dump_indent : json → string.
Variable json_load : string → option json.

Variable GITHUB_ENABLED : bool.
Variable _gh_read_json : string → json → M (json * option string).
Variable _gh_write_json : string → json → option string → string → M bool.

Variable re_search : string → string → option bool.
Variable re_search_icase : string → string → option bool.
Variable py_repr : json → string.

(** *** Local IO (fallback) *)

Definition _local_read_json (path : string) (default : json)
  : M (json * option string) :=
  ex <- os_path_exists path ;;
  (if negb ex then
     os_makedirs (PyStr.dirname path) ;;;
     open_w path ;;;
     write_close path (json_dump default)
   else ret tt) ;;;
  try_except
    (text <- open_read path ;;
     match json_load text with
     | Some v => ret (v, None)
     | None => raise ValueError
     end)
    (fun _ => ret (default, None)).

(** The [with] block opens the file for writing, which empties it, and
    [json.dump] then writes the text; an exception of any of the three steps
    is caught.  After the write the two caches are cleared, which touches
    nothing of the world described here (no read of the script is cached).
    The text shown by [st.error] ends with the text of the exception, which
    is left out. *)
Definition _local_write_json (path : string) (data : json) (message : string)
  : M bool :=
  try_except
    (os_makedirs (PyStr.dirname path) ;;;
     open_w path ;;;
     write_close path (json_dump_indent data) ;;;
     ret true)
    (fun _ => st_error "Falha ao gravar localmente" ;;; ret false).

(** *** Data access layer *)

Definition read_store (path : string) (default : json)
  : M (json * option string) :=
  if GITHUB_ENABLED then _gh_read_json path default
  else _local_read_json path default.

Definition write_store (path : string) (data : json) (sha : option string)
           (message : string) : M bool :=
  if GITHUB_ENABLED then _gh_write_json path data sha message
  else _local_write_json path data message.

(** *** Load stores *)

(** [if not isinstance(v, list): v = []]. *)
Definition ensure_list (v : json) : list json :=
  match v with JList l => l | _ => [] end.

Definition load_items : M (list json * option string) :=
  r <- read_store ITEMS_PATH (JList []) ;;
  ret (ensure_list r.1, r.2).

Definition load_threads : M (list json * option string) :=
  r <- read_store THREADS_PATH (JList []) ;;
  ret (ensure_list r.1, r.2).

Definition load_users : M (json * option string) :=
  r <- read_store USERS_PATH (JObj []) ;;
  ret (match r.1 with JObj d => JObj d | _ => JObj [] end, r.2).

(** *** Tab: Directory, the quick actions of a row

    [rid] is [row['id']], the identifier of the row whose button was
    pressed, a string. *)

(** The loop of the vote button:
    [for it in items: if it["id"] == row["id"]: ...; break]. *)
Fixpoint upvote_loop (rid : string) (items : list json) : M (list json) :=
  match items with
  | [] => ret []
  | it :: rest =>
      idv <- Py.getitem it "id" ;;
      if Py.eq_str idv rid then
        up <- Py.get it "upvotes" (JInt 0) ;;
        n <- Py.int up ;;
        it1 <- Py.setitem it "upvotes" (JInt (n + 1)) ;;
        now <- ts ;;
        it2 <- Py.setitem it1 "updated_at" (JStr now) ;;
        ret (it2 :: rest)
      else
        rest' <- upvote_loop rid rest ;;
        ret (it :: rest')
  end.

Definition upvote_handler (rid : string) (items : list json)
           (items_sha : option string) : M unit :=
  items' <- upvote_loop rid items ;;
  ok <- write_store ITEMS_PATH (JList items') items_sha ("upvote item " ++ rid) ;;
  if ok then st_success "Voto registrado." ;;; st_experimental_rerun
  else ret tt.

(** One run of the script in which the vote button of the row [rid] fired:
    the three stores are loaded, then the handler runs. *)
Definition upvote_run (rid : string) : M unit :=
  i <- load_items ;;
  t <- load_threads ;;
  u <- load_users ;;
  upvote_handler rid i.1 i.2.

(** The loop of the button that saves a link. *)
Fixpoint add_link_loop (rid new_url note current_user : string)
         (items : list json) : M (list json) :=
  match items with
  | [] => ret []
  | it :: rest =>
      idv <- Py.getitem it "id" ;;
      if Py.eq_str idv rid then
        it1 <- Py.setdefault_append it "links"
                 (at_ <- ts ;; ret (Py.link new_url current_user at_ note)) ;;
        now <- ts ;;
        it2 <- Py.setitem it1 "updated_at" (JStr now) ;;
        ret (it2 :: rest)
      else
        rest' <- add_link_loop rid new_url note current_user rest ;;
        ret (it :: rest')
  end.

Definition save_link_handler (rid new_url note current_user : string)
           (items : list json) (items_sha : option string) : M unit :=
  if PyStr.truthy new_url then
    items' <- add_link_loop rid new_url note current_user items ;;
    ok <- write_store ITEMS_PATH (JList items') items_sha
            ("add link to item " ++ rid) ;;
    if ok then st_success "Link adicionado." ;;; st_experimental_rerun
    else ret tt
  else st_warning "Informe a URL.".

(** *** Tab: New Item *)

(** [{"id": ..., ..., "upvotes": 0}], the dictionary literal of [new_item]. *)
Definition new_item_literal (title project_code work_type tags_raw
                               current_user : string) : M json :=
  id <- uuid4_str ;;
  created_at <- ts ;;
  updated_at <- ts ;;
  ret (JObj [("id", JStr id);
             ("title", JStr (PyStr.strip title));
             ("project_code", JStr (PyStr.strip project_code));
             ("work_type", JStr (PyStr.strip work_type));
             ("links", JList []);
             ("tags", JList (Py.split_tags tags_raw));
             ("created_by", JStr current_user);
             ("created_at", JStr created_at);
             ("updated_at", JStr updated_at);
             ("upvotes", JInt 0)]).

(** The literal, then [if first_link: new_item["links"].append({...})]. *)
Definition new_item (title project_code work_type tags_raw first_link note
                       current_user : string) : M json :=
  it <- new_item_literal title project_code work_type tags_raw current_user ;;
  if PyStr.truthy first_link then
    Py.getitem_append it "links"
      (at_ <- ts ;; ret (Py.link first_link current_user at_ note))
  else ret it.

Definition item_id (it : json) : string :=
  match it with
  | JObj d => match Dict.get "id" d with Some (JStr s) => s | _ => "" end
  | _ => ""
  end.

Definition create_item_handler (title project_code work_type tags_raw
                                  first_link note current_user : string)
           (items : list json) (items_sha : option string) : M unit :=
  if negb (PyStr.truthy title) || negb (PyStr.truthy project_code)
     || negb (PyStr.truthy work_type)
  then st_error "Preencha título, código do projeto e tipo de obra."
  else
    it <- new_item title project_code work_type tags_raw first_link note
            current_user ;;
    ok <- write_store ITEMS_PATH (JList (items ++ [it])) items_sha
            ("create item " ++ item_id it) ;;
    if ok then st_success "Item criado e publicado no diretório." ;;;
               st_experimental_rerun
    else ret tt.

(** *** Tab: Forum *)

Definition new_thread (t_title t_tags t_first current_user : string) : M json :=
  id <- uuid4_str ;;
  created_at <- ts ;;
  pid <- uuid4_str ;;
  at_ <- ts ;;
  ret (JObj [("id", JStr id);
             ("title", JStr (PyStr.strip t_title));
             ("created_by", JStr current_user);
             ("created_at", JStr created_at);
             ("tags", JList (Py.split_tags t_tags));
             ("posts", JList [Py.post pid current_user at_ t_first])]).

Definition create_thread_handler (t_title t_tags t_first current_user : string)
           (threads : list json) (threads_sha : option string) : M unit :=
  if negb (PyStr.truthy t_title) || negb (PyStr.truthy t_first)
  then st_warning "Informe título e a primeira mensagem."
  else
    thread <- new_thread t_title t_tags t_first current_user ;;
    ok <- write_store THREADS_PATH (JList (thread :: threads)) threads_sha
            ("create thread " ++ item_id thread) ;;
    if ok then st_success "Discussão publicada." ;;; st_experimental_rerun
    else ret tt.

(** The loop of the reply button. *)
Fixpoint reply_loop (tid reply current_user : string) (threads : list json)
  : M (list json) :=
  match threads with
  | [] => ret []
  | th :: rest =>
      idv <- Py.getitem th "id" ;;
      if Py.eq_str idv tid then
        th1 <- Py.setdefault_append th "posts"
                 (pid <- uuid4_str ;; at_ <- ts ;;
                  ret (Py.post pid current_user at_ reply)) ;;
        ret (th1 :: rest)
      else
        rest' <- reply_loop tid reply current_user rest ;;
        ret (th :: rest')
  end.

Definition reply_handler (tid reply current_user : string)
           (threads : list json) (threads_sha : option string) : M unit :=
  threads' <- reply_loop tid reply current_user threads ;;
  ok <- write_store THREADS_PATH (JList threads') threads_sha
          ("reply thread " ++ tid) ;;
  if ok then st_success "Resposta publicada." ;;; st_experimental_rerun
  else ret tt.

(** *** Tab: Directory, the search

    [df = pd.DataFrame(items)] has one row per dictionary of [items] and one
    column per key that occurs in some dictionary; a row that lacks the key
    of a column holds NaN there.  Cells keep the values of the document
    (columns of object dtype).

    [Series.str.contains(pat, na=False)] searches each string cell for the
    regular expression [pat] (its [regex] argument is [True] unless given)
    and answers [False] on a cell that is not a string. *)

(** [str(v)]. *)
Definition py_str (v : json) : string :=
  match v with
  | JStr s => s
  | JInt n => NilZero.string_of_int (Z.to_int n)
  | JBool b => if b then "True" else "False"
  | JNull => "None"
  | _ => py_repr v
  end.

Definition col_present (k : string) (rows : list row) : bool :=
  existsb (fun d => bool_decide (is_Some (Dict.get k d))) rows.

(** [df.empty]: no row or no column. *)
Definition df_empty (rows : list row) : bool :=
  forallb (fun d => match d with [] => true | _ => false end) rows.

(** One cell of [s.str.lower().str.contains(pat, na=False)] on a column that
    has the accessor: the pattern is compiled first; a cell that is not a
    string is NaN after [.str.lower()], for which [na=False] answers
    [False]. *)
Definition lower_contains (pat : string) (cell : option json) : outcome bool :=
  match re_search pat "" with
  | None => Raise ReError
  | Some _ =>
      match cell with
      | Some (JStr s) =>
          match re_search pat (PyStr.lower s) with
          | Some b => Ret b
          | None => Raise ReError
          end
      | _ => Ret false
      end
  end.

(** One cell of [df.get(k, pd.Series([""] * len(df))).astype(str)]. *)
Definition astype_str (present : bool) (cell : option json) : string :=
  match cell with
  | Some v => py_str v
  | None => if present then "nan" else ""
  end.

(** One cell of [s.astype(str).str.lower().str.contains(pat, na=False)]. *)
Definition str_lower_contains (pat : string) (present : bool)
           (cell : option json) : outcome bool :=
  match re_search pat (PyStr.lower (astype_str present cell)) with
  | Some b => Ret b
  | None => Raise ReError
  end.

(** One cell of [s.astype(str).str.contains(pat, case=False, na=False)]. *)
Definition str_contains_icase (pat : string) (present : bool)
           (cell : option json) : outcome bool :=
  match re_search_icase pat (astype_str present cell) with
  | Some b => Ret b
  | None => Raise ReError
  end.

(** [(x or [])] as the sequence the generator runs over. *)
Definition or_empty (present : bool) (cell : option json) : outcome (list json) :=
  match cell with
  | None => if present then Raise TypeError else Ret []
  | Some (JList l) => Ret l
  | Some JNull => Ret []
  | Some (JStr s) => Ret ((fun c => JStr (String c EmptyString)) <$> list_ascii_of_string s)
  | Some (JObj d) => Ret ((fun kv => JStr kv.1) <$> d)
  | Some (JInt n) => if Z.eqb n 0 then Ret [] else Raise TypeError
  | Some (JBool b) => if b then Raise TypeError else Ret []
  end.

(** [any(q_lower in str(t).lower() for t in (x or []))]. *)
Definition tags_contain (q_lower : string) (present : bool)
           (cell : option json) : outcome bool :=
  Pure.bind (or_empty present cell)
    (fun ts => Ret (existsb (fun t => PyStr.contains q_lower (PyStr.lower (py_str t))) ts)).

(** [series.str] on a column of the frame: the accessor is refused, with
    [AttributeError], for a column that holds values none of which is a
    string (a column of numbers or of booleans has no [.str]; one of lists or
    dictionaries has it, but its [.str.lower()] is a column of NaN, which has
    none).  A column of missing and null cells only has it. *)
Definition is_text (cell : option json) : bool :=
  match cell with Some (JStr _) => true | _ => false end.

Definition is_null (cell : option json) : bool :=
  match cell with None | Some JNull => true | _ => false end.

Definition str_accessor (cells : list (option json)) : bool :=
  existsb is_text cells || forallb is_null cells.

(** The four series of the free-text search, joined by [|]. *)
Definition free_text_series (q : string) (rows : list row) : outcome (list bool) :=
  let q_lower := PyStr.lower q in
  if negb (col_present "title" rows) then Raise (KeyError "title") else
  if negb (str_accessor (Dict.get "title" <$> rows)) then Raise AttributeError else
  Pure.bind (Pure.series (fun d => lower_contains q_lower (Dict.get "title" d)) rows)
    (fun m1 =>
  Pure.bind (Pure.series (fun d => str_lower_contains q_lower
                                     (col_present "project_code" rows)
                                     (Dict.get "project_code" d)) rows)
    (fun m2 =>
  Pure.bind (Pure.series (fun d => str_lower_contains q_lower
                                     (col_present "work_type" rows)
                                     (Dict.get "work_type" d)) rows)
    (fun m3 =>
  Pure.bind (Pure.series (fun d => tags_contain q_lower
                                     (col_present "tags" rows)
                                     (Dict.get "tags" d)) rows)
    (fun m4 =>
  Ret (zip_with orb (zip_with orb (zip_with orb m1 m2) m3) m4))))).

(** [mask], from [pd.Series([True] * len(df))] through the three [&=]. *)
Definition directory_mask (q code work_type : string) (rows : list row)
  : outcome (list bool) :=
  let mask0 := (fun _ => true) <$> rows in
  Pure.bind (if PyStr.truthy q then
               Pure.bind (free_text_series q rows)
                 (fun m => Ret (zip_with andb mask0 m))
             else Ret mask0)
    (fun mask1 =>
  Pure.bind (if PyStr.truthy code then
               Pure.bind (Pure.series
                            (fun d => str_contains_icase code
                                        (col_present "project_code" rows)
                                        (Dict.get "project_code" d)) rows)
                 (fun m => Ret (zip_with andb mask1 m))
             else Ret mask1)
    (fun mask2 =>
  if PyStr.truthy work_type then
    Pure.bind (Pure.series
                 (fun d => str_contains_icase work_type
                             (col_present "work_type" rows)
                             (Dict.get "work_type" d)) rows)
      (fun m => Ret (zip_with andb mask2 m))
  else Ret mask2)).

(** [df[mask]]: the rows whose mask entry is [True]. *)
Definition select (rows : list row) (mask : list bool) : list row :=
  (filter (fun rm => Is_true rm.2) (zip rows mask)).*1.

(** The rows shown by the directory, before they are sorted. *)
Definition directory_filter (q code work_type : string) (rows : list row)
  : outcome (list row) :=
  if df_empty rows then Ret []
  else Pure.bind (directory_mask q code work_type rows)
         (fun mask => Ret (select rows mask)).

(** *** Reading the collections *)

(** [it.get("upvotes", 0)] of a dictionary that holds an integer there. *)
Definition upvotes_of (d : row) : Z :=
  match Dict.get "upvotes" d with
  | Some (JInt n) => n
  | _ => 0
  end.

(** The list under [k], empty when the key is missing. *)
Definition list_of (k : string) (d : row) : list json :=
  match Dict.get k d with
  | Some (JList l) => l
  | _ => []
  end.

(** [d] is not the target of a loop that looks for [rid]: it has an
    identifier, and the identifier is not [rid]. *)
Definition other_id (rid : string) (it : json) : Prop :=
  ∃ d v, it = JObj d ∧ Dict.get "id" d = Some v ∧ Py.eq_str v rid = false.

(** The upvotes of [d] are an integer, or missing. *)
Definition int_upvotes (d : row) : Prop :=
  Dict.get "upvotes" d = None ∨ ∃ n, Dict.get "upvotes" d = Some (JInt n).

(** The entry of [d] under [k] is a list, or missing. *)
Definition list_or_missing (k : string) (d : row) : Prop :=
  Dict.get k d = None ∨ ∃ l, Dict.get k d = Some (JList l).

(** The dictionary of an item after one vote at the time [now]. *)
Definition voted (now : string) (d : row) : row :=
  Dict.set "updated_at" (JStr now)
    (Dict.set "upvotes" (JInt (upvotes_of d + 1)) d).

(** The dictionary of an item after the link [lk] was added, at the time
    [now]. *)
Definition linked (lk : json) (now : string) (d : row) : row :=
  Dict.set "updated_at" (JStr now)
    (Dict.set "links" (JList (list_of "links" d ++ [lk])) d).

(** The dictionary of a thread after the post [p] was added. *)
Definition replied (p : json) (d : row) : row :=
  Dict.set "posts" (JList (list_of "posts" d ++ [p])) d.

(** [n] votes on [rid] in a row, each on the collection the one before it
    left. *)
Fixpoint upvote_times (n : nat) (rid : string) (items : list json)
  : M (list json) :=
  match n with
  | O => ret items
  | S n' => items' <- upvote_loop rid items ;; upvote_times n' rid items'
  end.

(** A computation that leaves the files, the directories, the coming
    faults and the page alone, and does not ask for a rerun. *)
Definition quiet {A} (m : M A) : Prop :=
  ∀ w r w', m w = (r, w') →
    files w' = files w ∧ dirs w' = dirs w ∧ faults w' = faults w
    ∧ ui w' = ui w ∧ r ≠ Raise RerunException.

(** The first [n] file operations to come meet no fault. *)
Definition calm (n : nat) (w : World) : bool :=
  forallb (fun f => match f with NoFault => true | Fault _ => false end)
    (take n (faults w)).

(** The text that [_local_write_json] shows on a failure. *)
Definition write_failure : ui_event := StError "Falha ao gravar localmente".

(** The free-text search as the specification words it: the query is a
    substring, case ignored, of the title, the project code, the work type
    or one of the tags. *)
Definition text_of (k : string) (d : row) : string :=
  match Dict.get k d with
  | Some (JStr s) => s
  | _ => EmptyString
  end.

Definition spec_matches (q : string) (d : row) : bool :=
  let q_lower := PyStr.lower q in
  PyStr.contains q_lower (PyStr.lower (text_of "title" d))
  || PyStr.contains q_lower (PyStr.lower (text_of "project_code" d))
  || PyStr.contains q_lower (PyStr.lower (text_of "work_type" d))
  || existsb (fun t => match t with
                       | JStr s => PyStr.contains q_lower (PyStr.lower s)
                       | _ => false
                       end) (list_of "tags" d).

(** A row as the script stores items: title, project code and work type are
    strings, the tags are a list of strings. *)
Definition is_str (v : json) : Prop := ∃ s, v = JStr s.

Definition schema_row (d : row) : Prop :=
  (∃ s, Dict.get "title" d = Some (JStr s))
  ∧ (∃ s, Dict.get "project_code" d = Some (JStr s))
  ∧ (∃ s, Dict.get "work_type" d = Some (JStr s))
  ∧ (∃ l, Dict.get "tags" d = Some (JList l) ∧ Forall is_str l).

(** *** Auth (very light)

    [get_current_user]: [secret_default] is the [default_user] entry of the
    secrets, [session_user] the name kept in the session state by an earlier
    run, and [typed] what the text input returns when the user edited it
    ([None]: the input shows its initial value, the name of the session or
    the default).  The result is the name the session state holds after the
    run, which is what the function returns. *)
Definition get_current_user (secret_default session_user typed : option string)
  : string :=
  let default_user := default "anon@exxata.com.br" secret_default in
  let user := default default_user session_user in
  let user := default user typed in
  if PyStr.truthy (PyStr.strip user) then PyStr.strip user else default_user.

(** A text made of white space only (the empty text is one). *)
Fixpoint blank (s : string) : bool :=
  match s with
  | EmptyString => true
  | String c s' => PyStr.is_space c && blank s'
  end.

(** The character [c] occurs in [s]. *)
Fixpoint occurs (c : ascii) (s : string) : bool :=
  match s with
  | EmptyString => false
  | String c' s' => Ascii.eqb c c' || occurs c s'
  end.

(** *** Tab: Forum, the search

    [tdf.apply(_match, axis=1)] calls [_match] on each row of the frame of
    threads (a frame with at least one column); a row that lacks the key of a
    column holds NaN there, and [row.get] answers its default only for a
    column the frame does not have. *)

(** [row.get("title", "").lower()]. *)
Definition title_lower (present : bool) (cell : option json) : outcome string :=
  match cell with
  | Some (JStr s) => Ret (PyStr.lower s)
  | Some _ => Raise AttributeError
  | None => if present then Raise AttributeError else Ret EmptyString
  end.

(** [any(tq_l in (p.get("text", "").lower()) for p in ps)], which stops at
    the first post that has the text. *)
Fixpoint any_post (tq_l : string) (ps : list json) : outcome bool :=
  match ps with
  | [] => Ret false
  | JObj pd :: ps' =>
      match default (JStr EmptyString) (Dict.get "text" pd) with
      | JStr s =>
          if PyStr.contains tq_l (PyStr.lower s) then Ret true
          else any_post tq_l ps'
      | _ => Raise AttributeError
      end
  | _ :: _ => Raise AttributeError
  end.

Definition _match (tq_l : string) (threads : list row) (d : row) : outcome bool :=
  Pure.bind (title_lower (col_present "title" threads) (Dict.get "title" d))
    (fun title =>
  if PyStr.contains tq_l title then Ret true else
  Pure.bind (or_empty (col_present "posts" threads) (Dict.get "posts" d))
    (fun ps =>
  Pure.bind (any_post tq_l ps)
    (fun hit =>
  if hit then Ret true else
  Pure.bind (or_empty (col_present "tags" threads) (Dict.get "tags" d))
    (fun ts =>
  Ret (existsb (fun t => PyStr.contains tq_l (PyStr.lower (py_str t))) ts))))).

(** [if tq: tdf = tdf[tdf.apply(_match, axis=1)]]: the threads shown, before
    they are sorted. *)
Definition forum_filter (tq : string) (threads : list row) : outcome (list row) :=
  if PyStr.truthy tq then
    Pure.bind (Pure.series (_match (PyStr.lower tq) threads) threads)
      (fun mask => Ret (select threads mask))
  else Ret threads.

(** A thread as the script stores them: the title is a string, the posts
    are a list of dictionaries whose text is a string, the tags are a list of
    strings. *)
Definition is_post (p : json) : Prop :=
  ∃ pd s, p = JObj pd ∧ Dict.get "text" pd = Some (JStr s).

Definition schema_thread (d : row) : Prop :=
  (∃ s, Dict.get "title" d = Some (JStr s))
  ∧ (∃ l, Dict.get "posts" d = Some (JList l) ∧ Forall is_post l)
  ∧ (∃ l, Dict.get "tags" d = Some (JList l) ∧ Forall is_str l).

(** The search of the forum in plain words: the query is a substring, case
    ignored, of the title, of the text of a post, or of a tag. *)
Definition post_text (p : json) : string :=
  match p with
  | JObj pd => text_of "text" pd
  | _ => EmptyString
  end.

Definition thread_matches (tq : string) (d : row) : bool :=
  let tq_l := PyStr.lower tq in
  PyStr.contains tq_l (PyStr.lower (text_of "title" d))
  || existsb (fun p => PyStr.contains tq_l (PyStr.lower (post_text p)))
       (list_of "posts" d)
  || existsb (fun t => match t with
                       | JStr s => PyStr.contains tq_l (PyStr.lower s)
                       | _ => false
                       end) (list_of "tags" d).

(** The three filters of the directory in plain words, an empty filter
    keeping every row. *)
Definition row_matches (q code work_type : string) (d : row) : bool :=
  (negb (PyStr.truthy q) || spec_matches q d)
  && (negb (PyStr.truthy code)
      || PyStr.contains (PyStr.lower code) (PyStr.lower (text_of "project_code" d)))
  && (negb (PyStr.truthy work_type)
      || PyStr.contains (PyStr.lower work_type) (PyStr.lower (text_of "work_type" d))).

(** The texts that the searches read in a row, and in a thread, are ASCII:
    there the [lower] of the embedding is Python's. *)
Definition ascii_tag (t : json) : bool :=
  match t with JStr s => PyStr.is_ascii s | _ => true end.

Definition ascii_row (d : row) : bool :=
  PyStr.is_ascii (text_of "title" d)
  && PyStr.is_ascii (text_of "project_code" d)
  && PyStr.is_ascii (text_of "work_type" d)
  && forallb ascii_tag (list_of "tags" d).

Definition ascii_thread (d : row) : bool :=
  PyStr.is_ascii (text_of "title" d)
  && forallb (fun p => PyStr.is_ascii (post_text p)) (list_of "posts" d)
  && forallb ascii_tag (list_of "tags" d).

(** A collection as the script stores it: every entry is a dictionary that
    satisfies [P]. *)
Definition stored_as (P : row → Prop) (l : list json) : Prop :=
  Forall (fun v => ∃ d, v = JObj d ∧ P d) l.

(** ** Facts *)

Local Open Scope list_scope.
Set Default Proof Using "Type".

(** *** Sequencing *)

Lemma bind_inv {A B} (m : M A) (k : A → M B) w r w' :
  bind m k w = (r, w') →
  (∃ a w1, m w = (Ret a, w1) ∧ k a w1 = (r, w'))
  ∨ (∃ e, m w = (Raise e, w') ∧ r = Raise e).
Proof.
  unfold bind. destruct (m w) as [[a|e] w1]; intros H.
  - left. eauto.
  - right. inversion H; subst. eauto.
Qed.

Lemma bind_ret {A B} (m : M A) (k : A → M B) w a w1 :
  m w = (Ret a, w1) → bind m k w = k a w1.
Proof. unfold bind. by intros ->. Qed.

Lemma bind_raise {A B} (m : M A) (k : A → M B) w e w1 :
  m w = (Raise e, w1) → bind m k w = (Raise e, w1).
Proof. unfold bind. by intros ->. Qed.

(** The end of every handler: the message and the rerun after a write that
    went through, nothing after one that did not. *)
Lemma after_write_inv (ok : bool) msg w r w' :
  (if ok then st_success msg ;;; st_experimental_rerun else ret tt) w = (r, w') →
  (ok = true ∧ r = Raise RerunException ∧ w' = add_ui (StSuccess msg) w)
  ∨ (ok = false ∧ r = Ret tt ∧ w' = w).
Proof.
  destruct ok; cbv [bind st_success st_experimental_rerun raise ret];
    intros H; inversion H; subst; eauto.
Qed.

(** *** Quiet computations *)

Lemma quiet_ret {A} (a : A) : quiet (ret a).
Proof. intros w r w' H. inversion H; subst. done. Qed.

Lemma quiet_raise {A} e : e ≠ RerunException → quiet (@raise A e).
Proof. intros He w r w' H. inversion H; subst. repeat split; congruence. Qed.

Lemma quiet_bind {A B} (m : M A) (k : A → M B) :
  quiet m → (∀ a, quiet (k a)) → quiet (bind m k).
Proof.
  intros Hm Hk w r w' H.
  apply bind_inv in H as [(a & w1 & H1 & H2)|(e & H1 & ->)].
  - apply Hm in H1 as (? & ? & ? & ? & _).
    apply Hk in H2 as (? & ? & ? & ? & ?).
    repeat split; congruence.
  - apply Hm in H1 as (? & ? & ? & ? & Hne).
    repeat split; try done. intros [= ->]. by apply Hne.
Qed.

Lemma quiet_ts : quiet ts.
Proof. intros w r w' H. inversion H; subst. done. Qed.

Lemma quiet_uuid4_str : quiet uuid4_str.
Proof. intros w r w' H. inversion H; subst. done. Qed.

Lemma quiet_getitem v k : quiet (Py.getitem v k).
Proof.
  unfold Py.getitem. destruct v; try (by apply quiet_raise).
  destruct (Dict.get k kvs); [apply quiet_ret | by apply quiet_raise].
Qed.

Lemma quiet_setitem v k x : quiet (Py.setitem v k x).
Proof.
  unfold Py.setitem. destruct v; try (by apply quiet_raise). apply quiet_ret.
Qed.

Lemma quiet_get v k x : quiet (Py.get v k x).
Proof.
  unfold Py.get. destruct v; try (by apply quiet_raise). apply quiet_ret.
Qed.

Lemma quiet_int v : quiet (Py.int v).
Proof.
  unfold Py.int. destruct v; try (by apply quiet_raise); try apply quiet_ret.
  destruct (Py.parse_int s); [apply quiet_ret | by apply quiet_raise].
Qed.

Lemma quiet_setdefault_append v k (x : M json) :
  quiet x → quiet (Py.setdefault_append v k x).
Proof.
  intros Hx. unfold Py.setdefault_append.
  destruct v; try (by apply quiet_raise).
  destruct (default (JList []) (Dict.get k kvs)); try (by apply quiet_raise).
  apply quiet_bind; [done | intros; apply quiet_ret].
Qed.

Lemma quiet_getitem_append v k (x : M json) :
  quiet x → quiet (Py.getitem_append v k x).
Proof.
  intros Hx. unfold Py.getitem_append.
  apply quiet_bind; [apply quiet_getitem | intros cur].
  destruct v; try (by apply quiet_raise).
  destruct cur; try (by apply quiet_raise).
  apply quiet_bind; [done | intros; apply quiet_ret].
Qed.

Ltac quiet_step :=
  first [ apply quiet_ret | apply quiet_ts | apply quiet_uuid4_str
        | apply quiet_getitem | apply quiet_setitem | apply quiet_get
        | apply quiet_int
        | apply quiet_setdefault_append | apply quiet_getitem_append
        | apply quiet_bind; [|intros ?] ].

Lemma quiet_upvote_loop rid items : quiet (upvote_loop rid items).
Proof.
  induction items as [|it rest IH]; simpl; [apply quiet_ret|].
  apply quiet_bind; [apply quiet_getitem | intros idv].
  destruct (Py.eq_str idv rid); repeat quiet_step. exact IH.
Qed.

Lemma quiet_add_link_loop rid new_url note user items :
  quiet (add_link_loop rid new_url note user items).
Proof.
  induction items as [|it rest IH]; simpl; [apply quiet_ret|].
  apply quiet_bind; [apply quiet_getitem | intros idv].
  destruct (Py.eq_str idv rid); repeat quiet_step. exact IH.
Qed.

Lemma quiet_reply_loop tid reply user threads :
  quiet (reply_loop tid reply user threads).
Proof.
  induction threads as [|th rest IH]; simpl; [apply quiet_ret|].
  apply quiet_bind; [apply quiet_getitem | intros idv].
  destruct (Py.eq_str idv tid); repeat quiet_step. exact IH.
Qed.

Lemma quiet_new_item title code wt tags first_link note user :
  quiet (new_item title code wt tags first_link note user).
Proof.
  unfold new_item, new_item_literal.
  repeat quiet_step. destruct (PyStr.truthy first_link); repeat quiet_step.
Qed.

Lemma quiet_new_thread t_title t_tags t_first user :
  quiet (new_thread t_title t_tags t_first user).
Proof. unfold new_thread. repeat quiet_step. Qed.

(** *** The local write *)

(** A local write answers [True] or [False], never raises, and
    - on [True] the file holds the whole text;
    - on [False] the files are as before, unless the failure came while the
      text was being written (the third file operation), in which case the
      file holds the part of the text written by then. *)
Lemma local_write_cases path data message w :
  (∃ w', _local_write_json path data message w = (Ret true, w')
         ∧ files w' = <[path := json_dump_indent data]> (files w)
         ∧ ui w' = ui w ∧ ticks w' = ticks w ∧ drawn w' = drawn w
         ∧ clock w' = clock w ∧ uuid_src w' = uuid_src w)
  ∨ (∃ w', _local_write_json path data message w = (Ret false, w')
           ∧ ui w' = (ui w ++ [write_failure])%list
           ∧ (files w' = files w
              ∨ ∃ n fs, faults w = NoFault :: NoFault :: Fault n :: fs
                        ∧ files w' = <[path := PyStr.take n (json_dump_indent data)]>
                                       (files w))).
Proof.
  destruct w as [fl ds fs ck tk us dr u].
  cbv [_local_write_json try_except bind os_makedirs open_w write_close
       next_fault ret raise st_error is_file is_dir set_faults set_dirs
       set_files add_ui files dirs faults clock ticks uuid_src drawn ui
       is_Exception hd tl write_failure].
  destruct fs as [|[|n1] [|[|n2] [|[|n3] fs]]];
    repeat match goal with
           | |- context [if ?b then _ else _] => destruct b; cbv beta iota
           end;
    rewrite ?insert_insert_eq; eauto 15.
Qed.

Lemma local_write_true_inv path data message w w' :
  _local_write_json path data message w = (Ret true, w') →
  files w' = <[path := json_dump_indent data]> (files w) ∧ ui w' = ui w
  ∧ ticks w' = ticks w ∧ drawn w' = drawn w
  ∧ clock w' = clock w ∧ uuid_src w' = uuid_src w.
Proof.
  intros H.
  destruct (local_write_cases path data message w)
    as [(w1 & E & ?)|(w1 & E & _)]; rewrite E in H; by simplify_eq.
Qed.

Lemma local_write_false_inv path data message w w' :
  _local_write_json path data message w = (Ret false, w') →
  ui w' = (ui w ++ [write_failure])%list
  ∧ (files w' = files w
     ∨ ∃ n fs, faults w = NoFault :: NoFault :: Fault n :: fs
               ∧ files w' = <[path := PyStr.take n (json_dump_indent data)]>
                              (files w)).
Proof.
  intros H.
  destruct (local_write_cases path data message w)
    as [(w1 & E & _)|(w1 & E & ?)]; rewrite E in H; by simplify_eq.
Qed.

Lemma local_write_no_raise path data message w e w' :
  _local_write_json path data message w ≠ (Raise e, w').
Proof.
  intros H.
  destruct (local_write_cases path data message w)
    as [(w1 & E & _)|(w1 & E & _)]; rewrite E in H; by simplify_eq.
Qed.

(** After [os.makedirs] the directory of the path is there, and the path
    itself is still not a directory. *)
Lemma dir_made (path : string) (ds : gset string) :
  path ∉ ds → PyStr.dirname path ≠ path →
  bool_decide (path ∈ {[PyStr.dirname path]} ∪ ds)
  || true && negb (bool_decide (PyStr.dirname path ∈ {[PyStr.dirname path]} ∪ ds))
  = false.
Proof.
  intros Hd Hne.
  rewrite bool_decide_false, bool_decide_true; [done| |].
  - apply elem_of_union_l. by apply elem_of_singleton.
  - intros [Hin|Hin]%elem_of_union; [|done].
    apply elem_of_singleton in Hin. congruence.
Qed.

(** A local write goes through when the three file operations meet no
    fault, the directory of the path can be made and the path is not a
    directory. *)
Lemma local_write_ok path data message w :
  calm 3 w = true →
  PyStr.truthy (PyStr.dirname path) = true →
  PyStr.dirname path ≠ path →
  is_file (PyStr.dirname path) w = false →
  is_dir path w = false →
  ∃ w', _local_write_json path data message w = (Ret true, w').
Proof.
  destruct w as [fl ds fs ck tk us dr u].
  unfold calm, is_file, is_dir; simpl. intros Hc Hd Hne Hf Hp.
  apply bool_decide_eq_false in Hp.
  pose proof (dir_made path ds Hp Hne) as Hin.
  destruct fs as [|[|n1] [|[|n2] [|[|n3] fs]]]; simpl in Hc; try done;
    cbv [_local_write_json try_except bind os_makedirs open_w write_close
         next_fault ret raise st_error is_file is_dir set_faults set_dirs
         set_files add_ui files dirs faults clock ticks uuid_src drawn ui
         is_Exception hd tl];
    rewrite Hd, Hf; cbn [negb orb]; rewrite Hin; eauto.
Qed.

(** *** The shape of a handler: compute, write, report *)

Section Handler.
Context {A : Type} (compute : M A) (path : string) (doc : A → json)
        (sha : option string) (message : A → string) (done_msg : string).
Hypothesis local : GITHUB_ENABLED = false.
Hypothesis compute_quiet : quiet compute.

Let handler : M unit :=
  x <- compute ;;
  ok <- write_store path (doc x) sha (message x) ;;
  if ok then st_success done_msg ;;; st_experimental_rerun else ret tt.

Lemma handler_success w w' :
  handler w = (Raise RerunException, w') →
  ∃ x w1, compute w = (Ret x, w1)
          ∧ files w' = <[path := json_dump_indent (doc x)]> (files w)
          ∧ ui w' = (ui w ++ [StSuccess done_msg])%list.
Proof using local compute_quiet.
  unfold handler, write_store. rewrite local. intros H.
  apply bind_inv in H as [(x & w1 & Hc & H)|(e & Hc & [= <-])];
    [|by apply compute_quiet in Hc as (_ & _ & _ & _ & ?)].
  apply bind_inv in H as [(ok & w2 & Hw & H)|(e & Hw & _)];
    [|by apply local_write_no_raise in Hw].
  apply after_write_inv in H as [(-> & _ & ->)|(_ & [=] & _)].
  apply local_write_true_inv in Hw as (Hf & Hu & _).
  apply compute_quiet in Hc as Hq. destruct Hq as (Hf1 & _ & _ & Hu1 & _).
  exists x, w1. split; [done|]. simpl. rewrite Hf, Hf1, Hu, Hu1. done.
Qed.

Lemma handler_failure w w' :
  handler w = (Ret tt, w') →
  ∃ x w1, compute w = (Ret x, w1)
          ∧ _local_write_json path (doc x) (message x) w1 = (Ret false, w')
          ∧ files w1 = files w ∧ faults w1 = faults w.
Proof using local compute_quiet.
  unfold handler, write_store. rewrite local. intros H.
  apply bind_inv in H as [(x & w1 & Hc & H)|(e & Hc & [=])].
  apply bind_inv in H as [(ok & w2 & Hw & H)|(e & Hw & _)];
    [|by apply local_write_no_raise in Hw].
  apply after_write_inv in H as [(_ & [=] & _)|(-> & _ & ->)].
  apply compute_quiet in Hc as Hq. destruct Hq as (Hf1 & _ & Hfa & _).
  eauto 10.
Qed.

Lemma handler_runs w x w1 w2 :
  compute w = (Ret x, w1) →
  _local_write_json path (doc x) (message x) w1 = (Ret true, w2) →
  handler w = (Raise RerunException, add_ui (StSuccess done_msg) w2).
Proof using local.
  intros Hc Hw. unfold handler, write_store. rewrite local.
  rewrite (bind_ret _ _ _ _ _ Hc), (bind_ret _ _ _ _ _ Hw). done.
Qed.
(** In a world where the write can go through, a handler whose computation
    returns reaches the rerun. *)
Lemma handler_completes w x w1 :
  compute w = (Ret x, w1) →
  calm 3 w = true →
  PyStr.truthy (PyStr.dirname path) = true →
  PyStr.dirname path ≠ path →
  is_file (PyStr.dirname path) w = false →
  is_dir path w = false →
  ∃ w', handler w = (Raise RerunException, w').
Proof using local compute_quiet.
  intros Hc Hcalm Ht Hne Hf Hd.
  apply compute_quiet in Hc as Hq. destruct Hq as (Hfl & Hds & Hfa & _).
  destruct (local_write_ok path (doc x) (message x) w1) as (w2 & Hw); try done.
  - unfold calm. by rewrite Hfa.
  - unfold is_file. by rewrite Hfl.
  - unfold is_dir. by rewrite Hds.
  - eexists. by eapply handler_runs.
Qed.

(** In such a world the handler ends in the rerun, with the document stored
    and the success message shown. *)
Lemma handler_stores w x w1 :
  compute w = (Ret x, w1) →
  calm 3 w = true →
  PyStr.truthy (PyStr.dirname path) = true →
  PyStr.dirname path ≠ path →
  is_file (PyStr.dirname path) w = false →
  is_dir path w = false →
  ∃ w', handler w = (Raise RerunException, w')
        ∧ files w' = <[path := json_dump_indent (doc x)]> (files w)
        ∧ ui w' = (ui w ++ [StSuccess done_msg])%list.
Proof using local compute_quiet.
  intros Hc Hcalm Ht Hne Hf Hd.
  destruct (handler_completes w x w1 Hc Hcalm Ht Hne Hf Hd) as (w' & H).
  exists w'. split; [done|].
  apply handler_success in H as (x' & w1' & Hc' & Hfl & Hu).
  rewrite Hc in Hc'. injection Hc' as <- <-. done.
Qed.

(** In any world, a handler whose computation returns ends in one of two
    ways: in the rerun, with the document stored and the success message
    shown, or normally, with the failure message of the write shown. *)
Lemma handler_cases w x w1 :
  compute w = (Ret x, w1) →
  (∃ w', handler w = (Raise RerunException, w')
         ∧ files w' = <[path := json_dump_indent (doc x)]> (files w)
         ∧ ui w' = (ui w ++ [StSuccess done_msg])%list)
  ∨ (∃ w', handler w = (Ret tt, w')
           ∧ ui w' = (ui w ++ [write_failure])%list).
Proof using local compute_quiet.
  intros Hc. apply compute_quiet in Hc as Hq.
  destruct Hq as (Hfl & _ & _ & Hu & _).
  destruct (local_write_cases path (doc x) (message x) w1)
    as [(w2 & Hw & Hf2 & Hu2 & _)|(w2 & Hw & Hu2 & _)].
  - left. eexists. split; [by eapply handler_runs|].
    cbn [files ui add_ui]. by rewrite Hf2, Hfl, Hu2, Hu.
  - right. exists w2. split; [|by rewrite Hu2, Hu].
    unfold handler, write_store. rewrite local.
    rewrite (bind_ret _ _ _ _ _ Hc), (bind_ret _ _ _ _ _ Hw). done.
Qed.
End Handler.

(** *** The loops that look an entry up by its identifier *)

Lemma eq_str_refl s : Py.eq_str (JStr s) s = true.
Proof. apply String.eqb_refl. Qed.

Lemma upvote_loop_hit rid pre d post w :
  Forall (other_id rid) pre →
  Dict.get "id" d = Some (JStr rid) →
  int_upvotes d →
  upvote_loop rid (pre ++ JObj d :: post) w =
    (Ret (pre ++ JObj (voted (clock w (ticks w)) d) :: post),
     set_ticks (S (ticks w)) w).
Proof.
  intros Hpre Hid Hup. induction Hpre as [|it pre (d0 & v & -> & Hv & Hne) _ IH].
  - cbn [app upvote_loop]. unfold bind at 1. cbn [Py.getitem]. rewrite Hid.
    cbn [ret]. rewrite eq_str_refl.
    unfold voted, upvotes_of, bind, Py.get, Py.int, Py.setitem, ts, ret.
    destruct Hup as [Hup|(n & Hup)]; rewrite Hup; reflexivity.
  - cbn [app upvote_loop]. unfold bind at 1. cbn [Py.getitem]. rewrite Hv.
    cbn [ret]. rewrite Hne. unfold bind at 1. rewrite IH. reflexivity.
Qed.

Lemma add_link_loop_hit rid new_url note user pre d post w :
  Forall (other_id rid) pre →
  Dict.get "id" d = Some (JStr rid) →
  list_or_missing "links" d →
  add_link_loop rid new_url note user (pre ++ JObj d :: post) w =
    (Ret (pre ++ JObj (linked (Py.link new_url user (clock w (ticks w)) note)
                         (clock w (S (ticks w))) d) :: post),
     set_ticks (S (S (ticks w))) w).
Proof.
  intros Hpre Hid Hl. induction Hpre as [|it pre (d0 & v & -> & Hv & Hne) _ IH].
  - cbn [app add_link_loop]. unfold bind at 1. cbn [Py.getitem]. rewrite Hid.
    cbn [ret]. rewrite eq_str_refl.
    unfold linked, list_of, Py.setdefault_append, bind.
    destruct Hl as [Hl|(l & Hl)]; rewrite Hl; reflexivity.
  - cbn [app add_link_loop]. unfold bind at 1. cbn [Py.getitem]. rewrite Hv.
    cbn [ret]. rewrite Hne. unfold bind at 1. rewrite IH. reflexivity.
Qed.

Lemma reply_loop_hit tid reply user pre d post w :
  Forall (other_id tid) pre →
  Dict.get "id" d = Some (JStr tid) →
  list_or_missing "posts" d →
  reply_loop tid reply user (pre ++ JObj d :: post) w =
    (Ret (pre ++ JObj (replied (Py.post (uuid_src w (drawn w)) user
                                  (clock w (ticks w)) reply) d) :: post),
     set_ticks (S (ticks w)) (set_drawn (S (drawn w)) w)).
Proof.
  intros Hpre Hid Hl. induction Hpre as [|it pre (d0 & v & -> & Hv & Hne) _ IH].
  - cbn [app reply_loop]. unfold bind at 1. cbn [Py.getitem]. rewrite Hid.
    cbn [ret]. rewrite eq_str_refl.
    unfold replied, list_of, Py.setdefault_append, bind.
    destruct Hl as [Hl|(l & Hl)]; rewrite Hl; reflexivity.
  - cbn [app reply_loop]. unfold bind at 1. cbn [Py.getitem]. rewrite Hv.
    cbn [ret]. rewrite Hne. unfold bind at 1. rewrite IH. reflexivity.
Qed.

(** On a disk without faults to come and where [data] is not a file nor the
    items document a directory, a vote on an item of the collection reaches
    the rerun. *)
Lemma upvote_reaches_rerun rid pre d post sha w :
  GITHUB_ENABLED = false →
  Forall (other_id rid) pre →
  Dict.get "id" d = Some (JStr rid) →
  int_upvotes d →
  calm 3 w = true →
  is_file "data" w = false →
  is_dir ITEMS_PATH w = false →
  ∃ w', upvote_handler rid (pre ++ JObj d :: post) sha w = (Raise RerunException, w').
Proof.
  intros Hlocal Hpre Hid Hup Hcalm Hf Hd.
  eapply (handler_completes (upvote_loop rid (pre ++ JObj d :: post)) ITEMS_PATH
            JList sha (fun _ => ("upvote item " ++ rid)%string) _ Hlocal
            (quiet_upvote_loop _ _)); try done.
  by apply upvote_loop_hit.
Qed.

(** *** Dictionaries *)

Lemma dict_get_set_eq k v (d : row) : Dict.get k (Dict.set k v d) = Some v.
Proof.
  induction d as [|[k' v'] d IH]; simpl.
  - by rewrite String.eqb_refl.
  - destruct (String.eqb k k') eqn:E; simpl.
    + by rewrite String.eqb_refl.
    + by rewrite E.
Qed.

Lemma dict_get_set_ne k k' v (d : row) :
  k ≠ k' → Dict.get k' (Dict.set k v d) = Dict.get k' d.
Proof.
  intros Hne. induction d as [|[k0 v0] d IH]; simpl.
  - destruct (String.eqb k' k) eqn:E; [|done].
    apply String.eqb_eq in E. congruence.
  - destruct (String.eqb k k0) eqn:E; simpl.
    + apply String.eqb_eq in E. subst k0.
      destruct (String.eqb k' k) eqn:E'; [|done].
      apply String.eqb_eq in E'. congruence.
    + destruct (String.eqb k' k0); [done|apply IH].
Qed.

Lemma upvotes_of_voted now d : upvotes_of (voted now d) = upvotes_of d + 1.
Proof.
  unfold voted. unfold upvotes_of at 1.
  by rewrite dict_get_set_ne, dict_get_set_eq.
Qed.

Lemma voted_other k now d :
  k ≠ "upvotes" → k ≠ "updated_at" → Dict.get k (voted now d) = Dict.get k d.
Proof. intros. unfold voted. by rewrite !dict_get_set_ne. Qed.

Lemma int_upvotes_voted now d : int_upvotes (voted now d).
Proof.
  right. exists (upvotes_of d + 1). unfold voted.
  by rewrite dict_get_set_ne, dict_get_set_eq.
Qed.

Lemma set_ticks_twice a b w : set_ticks a (set_ticks b w) = set_ticks a w.
Proof. by destruct w. Qed.

Lemma upvote_times_hit n rid pre d post w :
  Forall (other_id rid) pre →
  Dict.get "id" d = Some (JStr rid) →
  int_upvotes d →
  ∃ d', upvote_times n rid (pre ++ JObj d :: post) w =
          (Ret (pre ++ JObj d' :: post), set_ticks (n + ticks w) w)
        ∧ upvotes_of d' = upvotes_of d + Z.of_nat n
        ∧ Dict.get "id" d' = Some (JStr rid).
Proof.
  intros Hpre. revert d w. induction n as [|n IH]; intros d w Hid Hup.
  - exists d. cbn [upvote_times]. split; [by destruct w|]. split; [lia|done].
  - cbn [upvote_times]. unfold bind at 1.
    rewrite (upvote_loop_hit rid pre d post w Hpre Hid Hup).
    destruct (IH (voted (clock w (ticks w)) d) (set_ticks (S (ticks w)) w))
      as (d' & E & Hu & Hi).
    { by rewrite voted_other. }
    { apply int_upvotes_voted. }
    exists d'. rewrite E. split; [|split; [|done]].
    + rewrite set_ticks_twice. cbn [ticks set_ticks].
      by replace (n + S (ticks w))%nat with (S n + ticks w)%nat by lia.
    + rewrite Hu, upvotes_of_voted. lia.
Qed.

(** *** Create item: the required fields *)

(** C4.  Creating an item with an empty title, project code or work type
    shows the error that names the three fields and does nothing else: the
    run ends normally, no file operation is attempted (the files and the
    faults to come are those of before), nothing is drawn from the clock or
    the identifier generator.  Hence a creation that reaches the rerun had
    the three fields non-empty. *)
Theorem create_item_requires_fields
        title project_code work_type tags_raw first_link note user items sha w :
  title = "" ∨ project_code = "" ∨ work_type = "" →
  create_item_handler title project_code work_type tags_raw first_link note
    user items sha w
  = (Ret tt, add_ui (StError "Preencha título, código do projeto e tipo de obra.") w)
  ∧ files (add_ui (StError "Preencha título, código do projeto e tipo de obra.") w)
    = files w
  ∧ faults (add_ui (StError "Preencha título, código do projeto e tipo de obra.") w)
    = faults w.
Proof.
  intros H. split; [|done]. unfold create_item_handler.
  destruct H as [-> | [-> | ->]]; cbn [PyStr.truthy negb orb].
  - done.
  - by rewrite orb_true_r.
  - by rewrite orb_true_r.
Qed.

(** *** Upvote *)

(** C5.  In a collection where the first entry whose identifier is [rid] is
    a dictionary [d] with integer (or missing) upvotes, and the entries
    before it are dictionaries with other identifiers:
    - one pass of the vote loop replaces [d] by [voted now d], whose upvotes
      are those of [d] plus one and whose [updated_at] is the time read,
      and leaves every other entry as it was;
    - when the handler reaches the rerun, the stored document is that
      collection;
    - [n] votes in a row add exactly [n], whatever [n] and whoever votes
      (the handler does not look at the user): the count never goes down
      and meets no bound. *)
Theorem upvote_adds_one rid pre d post :
  GITHUB_ENABLED = false →
  Forall (other_id rid) pre →
  Dict.get "id" d = Some (JStr rid) →
  int_upvotes d →
  (∀ w, upvote_loop rid (pre ++ JObj d :: post) w =
          (Ret (pre ++ JObj (voted (clock w (ticks w)) d) :: post),
           set_ticks (S (ticks w)) w))
  ∧ (∀ now, upvotes_of (voted now d) = upvotes_of d + 1
            ∧ Dict.get "updated_at" (voted now d) = Some (JStr now)
            ∧ ∀ k, k ≠ "upvotes" → k ≠ "updated_at" →
                   Dict.get k (voted now d) = Dict.get k d)
  ∧ (∀ sha w w',
       upvote_handler rid (pre ++ JObj d :: post) sha w = (Raise RerunException, w') →
       files w' = <[ITEMS_PATH :=
                      json_dump_indent
                        (JList (pre ++ JObj (voted (clock w (ticks w)) d) :: post))]>
                    (files w))
  ∧ (∀ n w, ∃ d',
       upvote_times n rid (pre ++ JObj d :: post) w =
         (Ret (pre ++ JObj d' :: post), set_ticks (n + ticks w) w)
       ∧ upvotes_of d' = upvotes_of d + Z.of_nat n
       ∧ upvotes_of d ≤ upvotes_of d').
Proof.
  intros Hlocal Hpre Hid Hup. split; [|split; [|split]].
  - intros w. by apply upvote_loop_hit.
  - intros now. split; [apply upvotes_of_voted|]. split.
    + unfold voted. apply dict_get_set_eq.
    + intros k ? ?. by apply voted_other.
  - intros sha w w' H.
    apply (handler_success (upvote_loop rid (pre ++ JObj d :: post)) ITEMS_PATH
             JList sha (fun _ => ("upvote item " ++ rid)%string) _ Hlocal
             (quiet_upvote_loop _ _)) in H as (x & w1 & Hc & Hf & _).
    rewrite upvote_loop_hit in Hc by done. by simplify_eq.
  - intros n w.
    destruct (upvote_times_hit n rid pre d post w Hpre Hid Hup) as (d' & E & Hu & _).
    exists d'. split; [done|]. split; [done|lia].
Qed.

(** *** Add link *)

Lemma list_of_linked lk now d :
  list_of "links" (linked lk now d) = list_of "links" d ++ [lk].
Proof.
  unfold linked. unfold list_of at 1.
  by rewrite dict_get_set_ne, dict_get_set_eq.
Qed.

(** C7.  With an empty URL the button that saves a link shows the warning
    that asks for the URL and does nothing else: the run ends normally with
    the files and the faults to come untouched, so the links of every item,
    in memory and in the store, stay as they were.  With a non-empty URL,
    on a collection where the first entry whose identifier is [rid] is a
    dictionary [d] whose links are a list (or missing), the loop replaces
    [d] by [linked lk now' d]: its links are those of [d] followed by the
    one link [lk], which carries the stripped URL, the user, the time read
    first and the note; its [updated_at] is the time read next; the other
    entries are as they were.  When the handler reaches the rerun the
    stored document is that collection.  The handler ends in one of two
    ways only: in the rerun, with that collection stored and the success
    message shown, or normally with the failure message of the write; and
    it ends in the rerun on a disk with no fault to come where [data] is not
    a file nor the items document a directory. *)
Theorem add_link_validates_and_appends rid note user pre d post sha w :
  GITHUB_ENABLED = false →
  Forall (other_id rid) pre →
  Dict.get "id" d = Some (JStr rid) →
  list_or_missing "links" d →
  save_link_handler rid "" note user (pre ++ JObj d :: post) sha w
  = (Ret tt, add_ui (StWarning "Informe a URL.") w)
  ∧ ∀ new_url, new_url ≠ "" →
      let lk := JObj [("url", JStr (PyStr.strip new_url));
                      ("by", JStr user);
                      ("at", JStr (clock w (ticks w)));
                      ("note", JStr (if PyStr.truthy note
                                     then PyStr.strip note else ""))] in
      let d' := linked lk (clock w (S (ticks w))) d in
      add_link_loop rid new_url note user (pre ++ JObj d :: post) w
      = (Ret (pre ++ JObj d' :: post), set_ticks (S (S (ticks w))) w)
      ∧ list_of "links" d' = list_of "links" d ++ [lk]
      ∧ Dict.get "updated_at" d' = Some (JStr (clock w (S (ticks w))))
      ∧ (∀ w', save_link_handler rid new_url note user (pre ++ JObj d :: post)
                 sha w = (Raise RerunException, w') →
               files w' = <[ITEMS_PATH :=
                              json_dump_indent (JList (pre ++ JObj d' :: post))]>
                            (files w))
      ∧ ((∃ w', save_link_handler rid new_url note user (pre ++ JObj d :: post)
                  sha w = (Raise RerunException, w')
                ∧ files w' = <[ITEMS_PATH :=
                                 json_dump_indent (JList (pre ++ JObj d' :: post))]>
                               (files w)
                ∧ ui w' = ui w ++ [StSuccess "Link adicionado."])
         ∨ (∃ w', save_link_handler rid new_url note user (pre ++ JObj d :: post)
                    sha w = (Ret tt, w')
                  ∧ ui w' = ui w ++ [write_failure]))
      ∧ (calm 3 w = true → is_file "data" w = false →
         is_dir ITEMS_PATH w = false →
         ∃ w', save_link_handler rid new_url note user (pre ++ JObj d :: post)
                 sha w = (Raise RerunException, w')
               ∧ files w' = <[ITEMS_PATH :=
                                json_dump_indent (JList (pre ++ JObj d' :: post))]>
                              (files w)
               ∧ ui w' = ui w ++ [StSuccess "Link adicionado."]).
Proof.
  intros Hlocal Hpre Hid Hl. split; [done|].
  intros new_url Hne lk d'.
  assert (Hloop : add_link_loop rid new_url note user (pre ++ JObj d :: post) w
                  = (Ret (pre ++ JObj d' :: post), set_ticks (S (S (ticks w))) w))
    by (by apply add_link_loop_hit).
  split; [done|]. split; [apply list_of_linked|]. split; [|split; [|split]].
  - unfold d', linked. apply dict_get_set_eq.
  - intros w' H. unfold save_link_handler in H.
    destruct new_url; [done|]. cbn [PyStr.truthy] in H.
    apply (handler_success _ ITEMS_PATH JList sha
             (fun _ => ("add link to item " ++ rid)%string) _ Hlocal
             (quiet_add_link_loop _ _ _ _ _)) in H as (x & w1 & Hc & Hf & _).
    rewrite Hloop in Hc. by simplify_eq.
  - unfold save_link_handler. destruct new_url; [done|]. cbn [PyStr.truthy].
    exact (handler_cases _ ITEMS_PATH JList sha
             (fun _ => ("add link to item " ++ rid)%string) _ Hlocal
             (quiet_add_link_loop _ _ _ _ _) w _ _ Hloop).
  - intros Hcalm Hf Hd.
    unfold save_link_handler. destruct new_url; [done|]. cbn [PyStr.truthy].
    by apply (handler_stores _ ITEMS_PATH JList sha
                (fun _ => ("add link to item " ++ rid)%string) _ Hlocal
                (quiet_add_link_loop _ _ _ _ _) w _ _ Hloop).
Qed.

(** *** Reply *)

Lemma list_of_replied p d :
  list_of "posts" (replied p d) = list_of "posts" d ++ [p].
Proof. unfold replied. unfold list_of at 1. by rewrite dict_get_set_eq. Qed.

(** C8.  On a collection of threads where the first entry whose identifier
    is [tid] is a dictionary [d] whose posts are a list (or missing), the
    reply loop replaces [d] by [replied p d] and leaves every other thread
    as it was; the posts of the new dictionary are those of [d] followed by
    the one post [p], which carries a new identifier, the user, the time
    read and the stripped text, so there is exactly one post more, and the
    other keys of the thread are unchanged.  When the handler reaches the
    rerun the stored document is that collection.  The handler ends in one
    of two ways only: in the rerun, with that collection stored and the
    success message shown, or normally with the failure message of the
    write; and it ends in the rerun on a disk with no fault to come where
    [data] is not a file nor the threads document a directory. *)
Theorem reply_appends_one_post tid reply user pre d post sha w :
  GITHUB_ENABLED = false →
  Forall (other_id tid) pre →
  Dict.get "id" d = Some (JStr tid) →
  list_or_missing "posts" d →
  let p := JObj [("id", JStr (uuid_src w (drawn w)));
                 ("by", JStr user);
                 ("at", JStr (clock w (ticks w)));
                 ("text", JStr (PyStr.strip reply))] in
  let d' := replied p d in
  reply_loop tid reply user (pre ++ JObj d :: post) w
  = (Ret (pre ++ JObj d' :: post),
     set_ticks (S (ticks w)) (set_drawn (S (drawn w)) w))
  ∧ list_of "posts" d' = list_of "posts" d ++ [p]
  ∧ length (list_of "posts" d') = S (length (list_of "posts" d))
  ∧ (∀ k, k ≠ "posts" → Dict.get k d' = Dict.get k d)
  ∧ (∀ w', reply_handler tid reply user (pre ++ JObj d :: post) sha w
           = (Raise RerunException, w') →
           files w' = <[THREADS_PATH :=
                          json_dump_indent (JList (pre ++ JObj d' :: post))]>
                        (files w))
  ∧ ((∃ w', reply_handler tid reply user (pre ++ JObj d :: post) sha w
            = (Raise RerunException, w')
            ∧ files w' = <[THREADS_PATH :=
                             json_dump_indent (JList (pre ++ JObj d' :: post))]>
                           (files w)
            ∧ ui w' = ui w ++ [StSuccess "Resposta publicada."])
     ∨ (∃ w', reply_handler tid reply user (pre ++ JObj d :: post) sha w
              = (Ret tt, w')
              ∧ ui w' = ui w ++ [write_failure]))
  ∧ (calm 3 w = true → is_file "data" w = false →
     is_dir THREADS_PATH w = false →
     ∃ w', reply_handler tid reply user (pre ++ JObj d :: post) sha w
           = (Raise RerunException, w')
           ∧ files w' = <[THREADS_PATH :=
                            json_dump_indent (JList (pre ++ JObj d' :: post))]>
                          (files w)
           ∧ ui w' = ui w ++ [StSuccess "Resposta publicada."]).
Proof.
  intros Hlocal Hpre Hid Hl p d'.
  assert (Hloop : reply_loop tid reply user (pre ++ JObj d :: post) w
                  = (Ret (pre ++ JObj d' :: post),
                     set_ticks (S (ticks w)) (set_drawn (S (drawn w)) w)))
    by (by apply reply_loop_hit).
  split; [done|]. split; [apply list_of_replied|]. split; [|split; [|split; [|split]]].
  - unfold d'. rewrite list_of_replied, length_app. simpl. lia.
  - intros k Hk. unfold d', replied. by apply dict_get_set_ne.
  - intros w' H.
    apply (handler_success _ THREADS_PATH JList sha
             (fun _ => ("reply thread " ++ tid)%string) _ Hlocal
             (quiet_reply_loop _ _ _ _)) in H as (x & w1 & Hc & Hf & _).
    rewrite Hloop in Hc. by simplify_eq.
  - exact (handler_cases _ THREADS_PATH JList sha
             (fun _ => ("reply thread " ++ tid)%string) _ Hlocal
             (quiet_reply_loop _ _ _ _) w _ _ Hloop).
  - intros Hcalm Hf Hd.
    by apply (handler_stores _ THREADS_PATH JList sha
                (fun _ => ("reply thread " ++ tid)%string) _ Hlocal
                (quiet_reply_loop _ _ _ _) w _ _ Hloop).
Qed.

(** *** Create item *)

(** The item that [new_item] builds in the world [w]. *)
Lemma new_item_eq title project_code work_type tags_raw first_link note user w :
  ∃ w1,
    new_item title project_code work_type tags_raw first_link note user w
    = (Ret (JObj [("id", JStr (uuid_src w (drawn w)));
                  ("title", JStr (PyStr.strip title));
                  ("project_code", JStr (PyStr.strip project_code));
                  ("work_type", JStr (PyStr.strip work_type));
                  ("links",
                   JList (if PyStr.truthy first_link
                          then [Py.link first_link user
                                  (clock w (S (S (ticks w)))) note]
                          else []));
                  ("tags", JList (Py.split_tags tags_raw));
                  ("created_by", JStr user);
                  ("created_at", JStr (clock w (ticks w)));
                  ("updated_at", JStr (clock w (S (ticks w))));
                  ("upvotes", JInt 0)]), w1).
Proof.
  unfold new_item, new_item_literal.
  destruct (PyStr.truthy first_link); eexists; reflexivity.
Qed.

(** C3, as the script has it.  When the creation of an item reaches the
    rerun, the stored document is the collection followed by one new item,
    whose identifier is the one just drawn from the generator, whose
    upvotes are 0, whose [created_at] is the first reading of the clock in
    the handler and whose [updated_at] is the second reading (the two are
    equal when these readings are), and whose links are the one link built
    from the initial URL when one was given (stamped with a third reading),
    none otherwise. *)
Theorem create_item_stamps
        title project_code work_type tags_raw first_link note user items sha w w' :
  GITHUB_ENABLED = false →
  create_item_handler title project_code work_type tags_raw first_link note
    user items sha w = (Raise RerunException, w') →
  let it :=
    [("id", JStr (uuid_src w (drawn w)));
     ("title", JStr (PyStr.strip title));
     ("project_code", JStr (PyStr.strip project_code));
     ("work_type", JStr (PyStr.strip work_type));
     ("links",
      JList (if PyStr.truthy first_link
             then [Py.link first_link user (clock w (S (S (ticks w)))) note]
             else []));
     ("tags", JList (Py.split_tags tags_raw));
     ("created_by", JStr user);
     ("created_at", JStr (clock w (ticks w)));
     ("updated_at", JStr (clock w (S (ticks w))));
     ("upvotes", JInt 0)] in
  files w' = <[ITEMS_PATH := json_dump_indent (JList (items ++ [JObj it]))]>
               (files w)
  ∧ Dict.get "created_at" it = Some (JStr (clock w (ticks w)))
  ∧ Dict.get "updated_at" it = Some (JStr (clock w (S (ticks w))))
  ∧ Dict.get "upvotes" it = Some (JInt 0)
  ∧ Dict.get "id" it = Some (JStr (uuid_src w (drawn w)))
  ∧ length (list_of "links" it) = (if PyStr.truthy first_link then 1 else 0)%nat.
Proof.
  intros Hlocal H it. split.
  - unfold create_item_handler in H.
    destruct (negb (PyStr.truthy title) || negb (PyStr.truthy project_code)
              || negb (PyStr.truthy work_type)); [done|].
    apply (handler_success _ ITEMS_PATH (fun it => JList (items ++ [it])) sha
             (fun it => ("create item " ++ item_id it)%string) _ Hlocal
             (quiet_new_item _ _ _ _ _ _ _)) in H as (x & w1 & Hc & Hf & _).
    destruct (new_item_eq title project_code work_type tags_raw first_link
                note user w) as (w2 & E).
    rewrite E in Hc. by simplify_eq.
  - repeat split. unfold it, list_of. cbn. by destruct (PyStr.truthy first_link).
Qed.

(** *** Create thread *)

(** C6.  When the creation of a thread with a non-empty title and a
    non-empty first message reaches the rerun, the stored document is the
    new thread followed by the threads of before: one entry more, the new
    thread at index 0; and the posts of the new thread are exactly one
    post, which holds the first message (stripped), the user and the time
    read. *)
Theorem create_thread_prepends t_title t_tags t_first user threads sha w w' :
  GITHUB_ENABLED = false →
  t_title ≠ "" → t_first ≠ "" →
  create_thread_handler t_title t_tags t_first user threads sha w
  = (Raise RerunException, w') →
  let p := JObj [("id", JStr (uuid_src w (S (drawn w))));
                 ("by", JStr user);
                 ("at", JStr (clock w (S (ticks w))));
                 ("text", JStr (PyStr.strip t_first))] in
  let thread := [("id", JStr (uuid_src w (drawn w)));
                 ("title", JStr (PyStr.strip t_title));
                 ("created_by", JStr user);
                 ("created_at", JStr (clock w (ticks w)));
                 ("tags", JList (Py.split_tags t_tags));
                 ("posts", JList [p])] in
  files w' = <[THREADS_PATH := json_dump_indent (JList (JObj thread :: threads))]>
               (files w)
  ∧ length (JObj thread :: threads) = S (length threads)
  ∧ (JObj thread :: threads) !! 0%nat = Some (JObj thread)
  ∧ list_of "posts" thread = [p].
Proof.
  intros Hlocal Ht Hf H p thread. split; [|done].
  unfold create_thread_handler in H.
  destruct t_title; [done|]. destruct t_first; [done|].
  cbn [PyStr.truthy negb orb] in H.
  apply (handler_success _ THREADS_PATH (fun th => JList (th :: threads)) sha
           (fun th => ("create thread " ++ item_id th)%string) _ Hlocal
           (quiet_new_thread _ _ _ _)) in H as (x & w1 & Hc & Hfl & _).
  cbv [new_thread bind uuid4_str ts ret] in Hc. by simplify_eq.
Qed.

(** *** The local read *)

(** Reading a file that exists: its text is parsed, and the default stands
    in when the file cannot be read or is not JSON. *)
Lemma local_read_existing path default text w :
  files w !! path = Some text →
  _local_read_json path default w
  = (Ret (match hd NoFault (faults w), json_load text with
          | NoFault, Some v => v
          | _, _ => default
          end, None),
     set_faults (tl (faults w)) w).
Proof.
  destruct w as [fl ds fs ck tk us dr u]. cbn [files]. intros Hf.
  cbv [_local_read_json try_except bind os_path_exists open_read next_fault
       ret raise is_file is_dir set_faults files dirs faults clock ticks
       uuid_src drawn ui is_Exception].
  rewrite bool_decide_true by (rewrite Hf; eauto). cbn [orb negb].
  destruct fs as [|[|n] fs]; cbn [hd tl]; rewrite ?Hf;
    try destruct (json_load text); reflexivity.
Qed.

(** Reading a file that does not exist, when the directory can be made and
    the three file operations of the creation meet no fault. *)
Lemma local_read_missing path default w :
  is_file path w = false → is_dir path w = false →
  calm 3 w = true →
  PyStr.truthy (PyStr.dirname path) = true →
  PyStr.dirname path ≠ path →
  is_file (PyStr.dirname path) w = false →
  let w1 := set_faults (drop 4 (faults w))
              (set_files (insert path (json_dump default))
                 (set_dirs (fun ds => {[PyStr.dirname path]} ∪ ds) w)) in
  _local_read_json path default w
  = (Ret (match hd NoFault (drop 3 (faults w)), json_load (json_dump default) with
          | NoFault, Some v => v
          | _, _ => default
          end, None), w1).
Proof.
  destruct w as [fl ds fs ck tk us dr u].
  unfold calm, is_file, is_dir; cbn [files dirs faults].
  intros Hf Hd Hc Ht Hne Hdf.
  apply bool_decide_eq_false in Hd.
  pose proof (dir_made path ds Hd Hne) as Hin'.
  destruct fs as [|[|n1] [|[|n2] [|[|n3] [|[|n4] fs]]]]; simpl in Hc; try done;
    cbv [_local_read_json try_except bind os_path_exists os_makedirs open_w
         write_close open_read next_fault ret raise is_file is_dir set_faults
         set_dirs set_files files dirs faults clock ticks uuid_src drawn ui
         is_Exception hd tl drop];
    rewrite Hf, (bool_decide_false (path ∈ ds)) by done; cbn [orb negb];
    rewrite Ht, Hdf; cbn [orb negb]; rewrite Hin';
    rewrite ?insert_insert_eq, ?lookup_insert_eq;
    try destruct (json_load (json_dump default)); reflexivity.
Qed.

(** *** A write that fails *)

(** C1, as the script has it.  With the local backend:
    - a write that answers [False] leaves every file as it was when the
      failure came while the directory was made or the file was opened;
      when it came after the file was opened (the third file operation),
      the file holds the part of the new text that was written by then,
      and the other files are as they were;
    - two votes on the same item, one after the other, the first reaching
      the rerun and the second failing to write before the file was
      opened, leave in the store the collection of the first vote, in
      which the upvotes of the item are those of before plus one. *)
Theorem failed_write_keeps_files :
  GITHUB_ENABLED = false →
  (∀ path data sha message w w',
     write_store path data sha message w = (Ret false, w') →
     files w' = files w
     ∨ ∃ n fs, faults w = NoFault :: NoFault :: Fault n :: fs
               ∧ files w' = <[path := PyStr.take n (json_dump_indent data)]>
                              (files w))
  ∧ (∀ rid pre d post sha items' sha' w0 w1 w2,
       Forall (other_id rid) pre →
       Dict.get "id" d = Some (JStr rid) →
       int_upvotes d →
       upvote_handler rid (pre ++ JObj d :: post) sha w0
       = (Raise RerunException, w1) →
       upvote_handler rid items' sha' w1 = (Ret tt, w2) →
       (∀ n fs, faults w1 ≠ NoFault :: NoFault :: Fault n :: fs) →
       let d1 := voted (clock w0 (ticks w0)) d in
       files w2 = files w1
       ∧ files w2 !! ITEMS_PATH
         = Some (json_dump_indent (JList (pre ++ JObj d1 :: post)))
       ∧ upvotes_of d1 = upvotes_of d + 1).
Proof.
  intros Hlocal. split.
  - intros path data sha message w w' H.
    unfold write_store in H. rewrite Hlocal in H.
    by apply local_write_false_inv in H as [_ H].
  - intros rid pre d post sha items' sha' w0 w1 w2 Hpre Hid Hup H1 H2 Hfs d1.
    apply (handler_success _ ITEMS_PATH JList sha
             (fun _ => ("upvote item " ++ rid)%string) _ Hlocal
             (quiet_upvote_loop _ _)) in H1 as (x & wa & Hc & Hf1 & _).
    rewrite upvote_loop_hit in Hc by done. simplify_eq.
    apply (handler_failure _ ITEMS_PATH JList sha'
             (fun _ => ("upvote item " ++ rid)%string) _ Hlocal
             (quiet_upvote_loop _ _)) in H2 as (x' & wb & _ & Hw & Hfb & Hfa).
    apply local_write_false_inv in Hw as [_ [Hw|(n & fs & Hw & _)]].
    + assert (files w2 = files w1) as E by congruence.
      split; [done|]. split; [|apply upvotes_of_voted].
      rewrite E, Hf1. apply lookup_insert_eq.
    + rewrite Hfa in Hw. by apply Hfs in Hw.
Qed.

(** *** Write, then read *)

(** C9.  With the local backend, after a write of the value [v] that went
    through, a read of the same path whose file operation meets no fault
    gives back [v] (and no revision), whatever default the read was given,
    as long as the JSON library reads [v] back from the text it printed
    for it. *)
Theorem write_then_read_roundtrip path v sha message default w w1 :
  GITHUB_ENABLED = false →
  write_store path v sha message w = (Ret true, w1) →
  hd NoFault (faults w1) = NoFault →
  json_load (json_dump_indent v) = Some v →
  read_store path default w1 = (Ret (v, None), set_faults (tl (faults w1)) w1).
Proof.
  intros Hlocal Hw Hfault Hcodec.
  unfold write_store, read_store in *. rewrite Hlocal in *.
  apply local_write_true_inv in Hw as (Hf & _).
  rewrite (local_read_existing path default (json_dump_indent v)).
  - by rewrite Hfault, Hcodec.
  - rewrite Hf. apply lookup_insert_eq.
Qed.

(** *** Reading a file that is not there *)

(** C10.  With the local backend, reading a path at which nothing exists,
    in a world where the directory of the path can be made and the three
    file operations of the creation meet no fault, changes the disk: the
    directory of the path is made and the file is written with the text of
    the default, and the read answers the default with no revision (the
    JSON library reading the default back from its text).  After that the
    file exists, and a second read, whatever default it is given, does not
    write again and answers what the file holds. *)
Theorem read_of_missing_file_creates_it path default w :
  GITHUB_ENABLED = false →
  is_file path w = false → is_dir path w = false →
  calm 3 w = true →
  PyStr.truthy (PyStr.dirname path) = true →
  PyStr.dirname path ≠ path →
  is_file (PyStr.dirname path) w = false →
  json_load (json_dump default) = Some default →
  ∃ w1, read_store path default w = (Ret (default, None), w1)
        ∧ files w !! path = None
        ∧ files w1 = <[path := json_dump default]> (files w)
        ∧ files w1 !! path = Some (json_dump default)
        ∧ PyStr.dirname path ∈ dirs w1
        ∧ ∀ other,
            hd NoFault (faults w1) = NoFault →
            ∃ w2, read_store path other w1 = (Ret (default, None), w2)
                  ∧ files w2 = files w1.
Proof.
  intros Hlocal Hf Hd Hc Ht Hne Hdf Hcodec.
  unfold read_store. rewrite Hlocal.
  eexists. split.
  { rewrite local_read_missing by done. rewrite Hcodec.
    by destruct (hd NoFault (drop 3 (faults w))). }
  split.
  { unfold is_file in Hf. apply bool_decide_eq_false in Hf.
    by apply eq_None_not_Some. }
  split; [by destruct w|].
  split; [destruct w; apply lookup_insert_eq|].
  split; [destruct w; cbn; apply elem_of_union_l, elem_of_singleton; done|].
  intros other Hfault. eexists. split.
  - rewrite (local_read_existing path other (json_dump default))
      by (destruct w; apply lookup_insert_eq).
    by rewrite Hfault, Hcodec.
  - done.
Qed.

(** *** The search of the directory *)

Lemma series_map {A B} (f : A → outcome B) (g : A → B) (l : list A) :
  Forall (fun r => f r = Ret (g r)) l → Pure.series f l = Ret (g <$> l).
Proof.
  induction 1 as [|r l Hr _ IH]; [done|].
  cbn [Pure.series]. rewrite Hr. cbn [Pure.bind]. by rewrite IH.
Qed.

Lemma select_map (P : row → bool) (rows : list row) :
  select rows (P <$> rows) = List.filter P rows.
Proof.
  unfold select. induction rows as [|r rows IH]; [done|].
  cbn [fmap list_fmap zip zip_with List.filter].
  rewrite filter_cons. cbn [snd]. destruct (P r).
  - rewrite decide_True by done. cbn. f_equal. apply IH.
  - rewrite decide_False by (by intros []). apply IH.
Qed.

Lemma zip_with_map {A} (f : bool → bool → bool) (g h : A → bool) (l : list A) :
  zip_with f (g <$> l) (h <$> l) = (fun x => f (g x) (h x)) <$> l.
Proof. induction l as [|x l IH]; [done|]. cbn. by rewrite IH. Qed.

Lemma col_present_here k (d : row) rows v :
  d ∈ rows → Dict.get k d = Some v → col_present k rows = true.
Proof.
  intros Hin Hk. unfold col_present. apply existsb_exists.
  exists d. split; [by apply list_elem_of_In|].
  apply bool_decide_eq_true. rewrite Hk. eauto.
Qed.

Lemma str_accessor_here k (d : row) rows t :
  d ∈ rows → Dict.get k d = Some (JStr t) →
  str_accessor (Dict.get k <$> rows) = true.
Proof.
  intros Hin Hk. unfold str_accessor. apply orb_true_iff. left.
  apply existsb_exists. exists (Some (JStr t)). split; [|done].
  apply list_elem_of_In, list_elem_of_fmap. exists d. by rewrite Hk.
Qed.

(** C2, on the code.  The search gives the query to [str.contains] as a
    regular expression.  Take the one stored item of the specification's own
    scenario (title "Carta Status", project code "FT02") and the query
    "ft.2": in any regular-expression engine in which that pattern compiles
    and finds "ft02", the directory shows the item, although "ft.2" is a
    substring of none of its title, project code, work type and tags. *)
Theorem search_reads_query_as_pattern :
  (∀ s, is_Some (re_search "ft.2" s)) →
  re_search "ft.2" "ft02" = Some true →
  directory_filter "ft.2" "" "" [Demo.carta] = Ret [Demo.carta]
  ∧ spec_matches "ft.2" Demo.carta = false.
Proof.
  intros Hok Hhit. split; [|by vm_compute].
  unfold directory_filter, directory_mask, free_text_series, lower_contains,
    str_lower_contains, tags_contain, select.
  vm_compute.
  destruct (Hok "") as (b0 & ->).
  destruct (Hok "carta status") as (b1 & ->).
  destruct (Hok "drenagem") as (b2 & ->).
  rewrite Hhit. by destruct b1.
Qed.

(** ** More of the script *)

(** *** White space *)

Lemma lstrip_blank s : blank s = true → PyStr.lstrip s = "".
Proof.
  induction s as [|c s IH]; [done|]. cbn. intros [Hc Hs]%andb_true_iff.
  rewrite Hc. by apply IH.
Qed.

Lemma rstrip_blank s : blank s = true → PyStr.rstrip s = "".
Proof.
  induction s as [|c s IH]; [done|]. cbn. intros [Hc Hs]%andb_true_iff.
  by rewrite IH, Hc.
Qed.

Lemma strip_blank s : blank s = true → PyStr.strip s = "".
Proof. intros H. unfold PyStr.strip. by rewrite lstrip_blank. Qed.

Lemma rstrip_empty_blank s : PyStr.rstrip s = "" → blank s = true.
Proof.
  induction s as [|c s IH]; [done|]. cbn.
  destruct (PyStr.rstrip s); [|done].
  destruct (PyStr.is_space c); [|done]. intros _. by rewrite IH.
Qed.

Lemma lstrip_blank_inv s : PyStr.lstrip s = "" → blank s = true.
Proof.
  induction s as [|c s IH]; [done|]. cbn.
  destruct (PyStr.is_space c); [|done]. intros H. by rewrite IH.
Qed.

Lemma rstrip_head c s :
  PyStr.is_space c = false →
  PyStr.rstrip (String c s) = String c (PyStr.rstrip s).
Proof. intros Hc. cbn. rewrite Hc. by destruct (PyStr.rstrip s). Qed.

Lemma rstrip_idemp s : PyStr.rstrip (PyStr.rstrip s) = PyStr.rstrip s.
Proof.
  induction s as [|c s IH]; [done|]. cbn.
  destruct (PyStr.rstrip s) as [|c' r] eqn:E.
  - destruct (PyStr.is_space c) eqn:Hc; [done|]. cbn. by rewrite Hc.
  - cbn. cbn in IH. destruct (PyStr.rstrip r) as [|c'' r'] eqn:E'.
    + destruct (PyStr.is_space c'); [done|]. by rewrite IH.
    + by rewrite IH.
Qed.

Lemma lstrip_head s :
  match PyStr.lstrip s with
  | EmptyString => True
  | String c _ => PyStr.is_space c = false
  end.
Proof.
  induction s as [|c s IH]; [done|]. cbn.
  destruct (PyStr.is_space c) eqn:Hc; [done|]. cbn. done.
Qed.

(** Stripping twice is stripping once. *)
Lemma strip_idemp s : PyStr.strip (PyStr.strip s) = PyStr.strip s.
Proof.
  unfold PyStr.strip. pose proof (lstrip_head s) as H.
  destruct (PyStr.lstrip s) as [|c t]; [done|].
  rewrite (rstrip_head c t H). cbn [PyStr.lstrip]. rewrite H.
  rewrite (rstrip_head c _ H). by rewrite rstrip_idemp.
Qed.

Lemma strip_truthy_blank s : PyStr.truthy (PyStr.strip s) = negb (blank s).
Proof.
  destruct (blank s) eqn:E.
  - by rewrite strip_blank.
  - destruct (PyStr.strip s) eqn:Es; [|done].
    unfold PyStr.strip in Es. apply rstrip_empty_blank in Es.
    pose proof (lstrip_head s) as H.
    destruct (PyStr.lstrip s) as [|c t] eqn:El.
    + apply lstrip_blank_inv in El. congruence.
    + cbn in Es. by rewrite H in Es.
Qed.

Lemma lstrip_occurs c s : occurs c (PyStr.lstrip s) = true → occurs c s = true.
Proof.
  induction s as [|c' s IH]; [done|]. cbn.
  destruct (PyStr.is_space c'); [|done].
  intros H. rewrite IH by done. apply orb_true_r.
Qed.

Lemma rstrip_occurs c s : occurs c (PyStr.rstrip s) = true → occurs c s = true.
Proof.
  induction s as [|c' s IH]; [done|]. cbn.
  destruct (PyStr.rstrip s) as [|c'' r].
  - destruct (PyStr.is_space c'); [done|]. cbn.
    rewrite orb_false_r. intros ->. done.
  - cbn. cbn in IH. intros [->|H]%orb_true_iff; [done|].
    rewrite IH by done. apply orb_true_r.
Qed.

Lemma split_no_sep sep s :
  Forall (fun part => occurs sep part = false) (PyStr.split sep s).
Proof.
  induction s as [|c s IH]; cbn.
  - by repeat constructor.
  - destruct (Ascii.eqb c sep) eqn:E.
    + by constructor.
    + destruct (PyStr.split sep s) as [|w ws].
      * repeat constructor. cbn. rewrite Ascii.eqb_sym, E. done.
      * apply Forall_cons in IH as [Hw Hws]. constructor; [|done].
        cbn. by rewrite Ascii.eqb_sym, E, Hw.
Qed.

(** *** The name of the user *)

(** X1.  An ASCII name that the user typed and that has something besides
    white space becomes the current user with the white space at its ends
    removed: it is not empty, stripping it again changes nothing, and a later
    run in which the input is left alone returns the same name. *)
Theorem current_user_typed secret session name :
  PyStr.is_ascii name = true →
  blank name = false →
  get_current_user secret session (Some name) = PyStr.strip name
  ∧ PyStr.strip name ≠ ""
  ∧ PyStr.strip (PyStr.strip name) = PyStr.strip name
  ∧ get_current_user secret (Some (PyStr.strip name)) None = PyStr.strip name.
Proof.
  intros _ Hb.
  assert (Ht : PyStr.truthy (PyStr.strip name) = true)
    by (by rewrite strip_truthy_blank, Hb).
  unfold get_current_user. cbn [from_option id]. rewrite strip_idemp, Ht.
  split; [done|]. split; [by destruct (PyStr.strip name)|]. done.
Qed.

(** X2.  When the input holds white space only (or nothing), the current
    user is the default of the secrets, or [anon@exxata.com.br] when the
    secrets have none, whatever name the session held before. *)
Theorem current_user_blank secret session name :
  blank name = true →
  get_current_user secret session (Some name)
  = default "anon@exxata.com.br" secret.
Proof.
  intros Hb. unfold get_current_user. cbn [from_option id].
  by rewrite strip_truthy_blank, Hb.
Qed.

(** *** Tags *)

(** X3.  Every tag read from the comma-separated input is a string that is
    not empty, has no white space at its ends and holds no comma; an input
    of white space and commas only gives no tag. *)
Theorem split_tags_clean raw :
  Forall (fun t => ∃ s, t = JStr s ∧ s ≠ "" ∧ PyStr.strip s = s
                        ∧ occurs "," s = false)
         (Py.split_tags raw).
Proof.
  unfold Py.split_tags.
  assert (H : Forall (fun part => occurs "," part = false)
                (if PyStr.truthy raw then PyStr.split "," raw else [])).
  { destruct (PyStr.truthy raw); [apply split_no_sep|constructor]. }
  induction H as [|part parts Hp _ IH]; [constructor|].
  cbn [fmap list_fmap]. rewrite filter_cons.
  destruct (decide (Is_true (PyStr.truthy (PyStr.strip part)))) as [Ht|Ht];
    [|exact IH].
  cbn [fmap list_fmap]. constructor; [|exact IH].
  exists (PyStr.strip part). split; [done|]. split.
  - intros E. by rewrite E in Ht.
  - split; [apply strip_idemp|].
    destruct (occurs "," (PyStr.strip part)) eqn:E; [|done].
    unfold PyStr.strip in E.
    apply rstrip_occurs, lstrip_occurs in E. congruence.
Qed.

(** *** More on the local backend *)

Lemma local_write_frame path data message w r w' :
  _local_write_json path data message w = (r, w') →
  ∀ p, p ≠ path → files w' !! p = files w !! p.
Proof.
  intros H p Hp.
  destruct (local_write_cases path data message w)
    as [(w1 & E & Hf & _)|(w1 & E & _ & Hf)]; rewrite E in H; simplify_eq.
  - rewrite Hf. by apply lookup_insert_ne.
  - destruct Hf as [->|(n & fs & _ & ->)]; [done|]. by apply lookup_insert_ne.
Qed.

(** X4.  A local write never raises: it answers [True] or [False], shows
    the failure message exactly when it answers [False] and nothing
    otherwise, and whatever it answers it leaves every other file as it
    was. *)
Theorem local_write_always_answers path data message w :
  ∃ ok w', _local_write_json path data message w = (Ret ok, w')
           ∧ ui w' = ui w ++ (if ok then [] else [write_failure])
           ∧ ∀ p, p ≠ path → files w' !! p = files w !! p.
Proof.
  destruct (local_write_cases path data message w)
    as [(w' & E & Hf & Hu & _)|(w' & E & Hu & Hf)].
  - exists true, w'. split; [done|]. split; [by rewrite Hu, app_nil_r|].
    intros p Hp. rewrite Hf. by apply lookup_insert_ne.
  - exists false, w'. split; [done|]. split; [done|].
    intros p Hp. destruct Hf as [->|(n & fs & _ & ->)]; [done|].
    by apply lookup_insert_ne.
Qed.

(** X5.  The local backend checks no revision: of two writes to the same
    document that both go through, whatever revisions and messages they are
    given, the second decides what the document holds; the other files are
    as before the two. *)
Theorem last_write_wins path d1 sha1 m1 d2 sha2 m2 w w1 w2 :
  GITHUB_ENABLED = false →
  write_store path d1 sha1 m1 w = (Ret true, w1) →
  write_store path d2 sha2 m2 w1 = (Ret true, w2) →
  files w2 = <[path := json_dump_indent d2]> (files w).
Proof.
  intros Hlocal H1 H2. unfold write_store in *. rewrite Hlocal in *.
  apply local_write_true_inv in H1 as (Hf1 & _).
  apply local_write_true_inv in H2 as (Hf2 & _).
  by rewrite Hf2, Hf1, insert_insert_eq.
Qed.

(** X6.  Reading a document whose file exists never raises and changes
    neither the files, nor the directories, nor the page: it answers, with
    no revision, the value parsed from the file, or the default when the
    file cannot be read or does not hold JSON. *)
Theorem read_of_existing_file path default text w :
  GITHUB_ENABLED = false →
  files w !! path = Some text →
  ∃ v w', read_store path default w = (Ret (v, None), w')
          ∧ files w' = files w ∧ dirs w' = dirs w ∧ ui w' = ui w
          ∧ (v = default ∨ json_load text = Some v)
          ∧ (json_load text = None → v = default)
          ∧ (hd NoFault (faults w) = NoFault → ∀ v', json_load text = Some v' → v = v').
Proof.
  intros Hlocal Hf. unfold read_store. rewrite Hlocal.
  rewrite (local_read_existing path default text w Hf).
  eexists _, _. split; [done|]. split; [by destruct w|].
  split; [by destruct w|]. split; [by destruct w|].
  destruct (hd NoFault (faults w)), (json_load text) as [v0|]; repeat split;
    eauto; try done; intros; congruence.
Qed.

(** X7.  Reading a document at whose path nothing exists is not protected
    like a write: when one of the three file operations that create the file
    fails, the read raises [OSError] instead of answering the default; the
    other files are as they were. *)
Theorem read_of_missing_file_can_raise path default w :
  GITHUB_ENABLED = false →
  is_file path w = false → is_dir path w = false →
  calm 3 w = false →
  ∃ w', read_store path default w = (Raise OSError, w')
        ∧ ∀ p, p ≠ path → files w' !! p = files w !! p.
Proof.
  intros Hlocal. unfold read_store. rewrite Hlocal.
  destruct w as [fl ds fs ck tk us dr u].
  unfold calm, is_file, is_dir; cbn [files dirs faults]. intros Hf Hd Hc.
  destruct fs as [|[|n1] [|[|n2] [|[|n3] fs]]]; simpl in Hc; try done;
    cbv [_local_read_json try_except bind os_path_exists os_makedirs open_w
         write_close open_read next_fault ret raise is_file is_dir set_faults
         set_dirs set_files files dirs faults clock ticks uuid_src drawn ui
         is_Exception hd tl];
    rewrite Hf, Hd; cbn [orb negb];
    repeat match goal with
           | |- context [if ?b then _ else _] => destruct b; cbv beta iota
           end;
    eexists; (split; [reflexivity|]); intros p Hp; cbn [files];
    rewrite ?lookup_insert_ne by done; done.
Qed.

(** X8.  A write that fails while the text is being written leaves the
    document cut short; when what was written is not JSON (an empty file, for
    one), the next read of the document answers the default, whatever the
    document held before: the collection is gone without any error being
    raised by the read. *)
Theorem truncated_write_reads_as_default path data sha message default n fs w :
  GITHUB_ENABLED = false →
  faults w = NoFault :: NoFault :: Fault n :: fs →
  PyStr.truthy (PyStr.dirname path) = true →
  PyStr.dirname path ≠ path →
  is_file (PyStr.dirname path) w = false →
  is_dir path w = false →
  json_load (PyStr.take n (json_dump_indent data)) = None →
  ∃ w1 w2, write_store path data sha message w = (Ret false, w1)
           ∧ files w1 = <[path := PyStr.take n (json_dump_indent data)]> (files w)
           ∧ read_store path default w1 = (Ret (default, None), w2)
           ∧ files w2 = files w1.
Proof.
  intros Hlocal Hfs Ht Hne Hf Hd Hbad.
  unfold write_store, read_store. rewrite Hlocal.
  assert (Hw : ∃ w1, _local_write_json path data message w = (Ret false, w1)
                     ∧ files w1 = <[path := PyStr.take n (json_dump_indent data)]>
                                    (files w)).
  { destruct w as [fl ds fs0 ck tk us dr u]. cbn [faults] in Hfs. subst fs0.
    unfold is_file, is_dir in *. cbn [files dirs] in *.
    apply bool_decide_eq_false in Hd.
    pose proof (dir_made path ds Hd Hne) as Hin.
    cbv [_local_write_json try_except bind os_makedirs open_w write_close
         next_fault ret raise st_error is_file is_dir set_faults set_dirs
         set_files add_ui files dirs faults clock ticks uuid_src drawn ui
         is_Exception hd tl].
    rewrite Ht, Hf; cbn [negb orb]; rewrite Hin.
    eexists. split; [reflexivity|]. cbn [files]. by rewrite insert_insert_eq. }
  destruct Hw as (w1 & Hw & Hf1). exists w1.
  rewrite (local_read_existing path default
             (PyStr.take n (json_dump_indent data)) w1)
    by (rewrite Hf1; apply lookup_insert_eq).
  eexists. split; [done|]. split; [done|]. rewrite Hbad. split.
  - by destruct (hd NoFault (faults w1)).
  - by destruct w1.
Qed.

(** X9.  Loading the items when their file exists never raises and always
    gives a list: the list the file holds, and the empty list when the file
    cannot be read, does not hold JSON, or holds a value that is not a
    list. *)
Theorem load_items_gives_a_list text w :
  GITHUB_ENABLED = false →
  files w !! ITEMS_PATH = Some text →
  ∃ l w', load_items w = (Ret (l, None), w')
          ∧ files w' = files w
          ∧ (∀ l', hd NoFault (faults w) = NoFault →
                   json_load text = Some (JList l') → l = l')
          ∧ ((∀ l', json_load text ≠ Some (JList l')) → l = []).
Proof.
  intros Hlocal Hf. unfold load_items, read_store. rewrite Hlocal.
  unfold bind. rewrite (local_read_existing ITEMS_PATH (JList []) text w Hf).
  cbn [fst snd ret].
  eexists _, _. split; [reflexivity|]. split; [by destruct w|]. split.
  - intros l' -> ->. done.
  - intros Hno. destruct (hd NoFault (faults w)); [|done].
    destruct (json_load text) as [[]|]; try done. by destruct (Hno l).
Qed.

(** *** The loops on a collection with a bad entry *)

Lemma upvote_loop_skip rid pre rest w :
  Forall (other_id rid) pre →
  upvote_loop rid (pre ++ rest) w
  = bind (upvote_loop rid rest) (fun rest' => ret (pre ++ rest')) w.
Proof.
  induction 1 as [|it items (d0 & v & -> & Hv & Hne) _ IH].
  - cbn. unfold bind, ret. by destruct (upvote_loop rid rest w) as [[]].
  - cbn [app upvote_loop]. unfold bind at 1. cbn [Py.getitem]. rewrite Hv.
    cbn [ret]. rewrite Hne. unfold bind at 1. rewrite IH.
    unfold bind, ret. by destruct (upvote_loop rid rest w) as [[]].
Qed.

Lemma add_link_loop_skip rid url note user pre rest w :
  Forall (other_id rid) pre →
  add_link_loop rid url note user (pre ++ rest) w
  = bind (add_link_loop rid url note user rest) (fun rest' => ret (pre ++ rest')) w.
Proof.
  induction 1 as [|it items (d0 & v & -> & Hv & Hne) _ IH].
  - cbn. unfold bind, ret.
    by destruct (add_link_loop rid url note user rest w) as [[]].
  - cbn [app add_link_loop]. unfold bind at 1. cbn [Py.getitem]. rewrite Hv.
    cbn [ret]. rewrite Hne. unfold bind at 1. rewrite IH.
    unfold bind, ret.
    by destruct (add_link_loop rid url note user rest w) as [[]].
Qed.

Lemma reply_loop_skip tid reply user pre rest w :
  Forall (other_id tid) pre →
  reply_loop tid reply user (pre ++ rest) w
  = bind (reply_loop tid reply user rest) (fun rest' => ret (pre ++ rest')) w.
Proof.
  induction 1 as [|it items (d0 & v & -> & Hv & Hne) _ IH].
  - cbn. unfold bind, ret.
    by destruct (reply_loop tid reply user rest w) as [[]].
  - cbn [app reply_loop]. unfold bind at 1. cbn [Py.getitem]. rewrite Hv.
    cbn [ret]. rewrite Hne. unfold bind at 1. rewrite IH.
    unfold bind, ret.
    by destruct (reply_loop tid reply user rest w) as [[]].
Qed.

(** X11.  A vote stops at the first entry that is not a dictionary or has
    no [id]: when the entries before it have other identifiers, the handler
    raises [TypeError], respectively [KeyError] for [id], even if the item
    voted for comes later in the collection; the world is exactly as before
    (nothing is written, nothing is shown). *)
Theorem vote_raises_on_entry_without_id rid pre post sha w :
  Forall (other_id rid) pre →
  (∀ d, Dict.get "id" d = None →
        upvote_handler rid (pre ++ JObj d :: post) sha w
        = (Raise (KeyError "id"), w))
  ∧ (∀ it, (∀ d, it ≠ JObj d) →
           upvote_handler rid (pre ++ it :: post) sha w = (Raise TypeError, w)).
Proof.
  intros Hpre. split.
  - intros d Hd. unfold upvote_handler, bind at 1.
    rewrite upvote_loop_skip by done. unfold bind at 1.
    cbn [upvote_loop]. unfold bind at 1. cbn [Py.getitem]. by rewrite Hd.
  - intros it Hit. unfold upvote_handler, bind at 1.
    rewrite upvote_loop_skip by done. unfold bind at 1.
    cbn [upvote_loop]. unfold bind at 1.
    destruct it; try done. by destruct (Hit kvs).
Qed.

(** X12.  A vote on an item whose upvotes are not a number raises before
    anything is read from the clock or written: [TypeError] when they are
    null, a list or a dictionary, [ValueError] when they are an ASCII text
    that [int] does not read as an integer; the world is exactly as
    before. *)
Theorem vote_raises_on_bad_upvotes rid pre d post sha w v :
  Forall (other_id rid) pre →
  Dict.get "id" d = Some (JStr rid) →
  Dict.get "upvotes" d = Some v →
  (v = JNull ∨ (∃ l, v = JList l) ∨ (∃ o, v = JObj o) →
   upvote_handler rid (pre ++ JObj d :: post) sha w = (Raise TypeError, w))
  ∧ (∀ s, v = JStr s → PyStr.is_ascii s = true → Py.parse_int s = None →
          upvote_handler rid (pre ++ JObj d :: post) sha w = (Raise ValueError, w)).
Proof.
  intros Hpre Hid Hv.
  assert (E : ∀ e, Py.int v w = (Raise e, w) →
                   upvote_handler rid (pre ++ JObj d :: post) sha w = (Raise e, w)).
  { intros e He. unfold upvote_handler, bind at 1.
    rewrite upvote_loop_skip by done. unfold bind at 1.
    cbn [upvote_loop]. unfold bind at 1. cbn [Py.getitem]. rewrite Hid.
    cbn [ret]. rewrite eq_str_refl. unfold bind at 1. cbn [Py.get].
    rewrite Hv. cbn [from_option id ret]. unfold bind at 1. by rewrite He. }
  split.
  - intros [->|[(l & ->)|(o & ->)]]; by apply E.
  - intros s -> _ Hs. apply E. cbn [Py.int]. by rewrite Hs.
Qed.

(** X13.  Saving a link on an item whose [links] are present but are not a
    list, and replying to a thread whose [posts] are present but are not a
    list (null, for one), raise [AttributeError] before anything is read from
    the clock or written; the world is exactly as before. *)
Theorem append_raises_on_non_list rid pre d post sha w v :
  Forall (other_id rid) pre →
  Dict.get "id" d = Some (JStr rid) →
  (∀ l, v ≠ JList l) →
  (∀ url note user,
     url ≠ "" → Dict.get "links" d = Some v →
     save_link_handler rid url note user (pre ++ JObj d :: post) sha w
     = (Raise AttributeError, w))
  ∧ (∀ reply user,
       Dict.get "posts" d = Some v →
       reply_handler rid reply user (pre ++ JObj d :: post) sha w
       = (Raise AttributeError, w)).
Proof.
  intros Hpre Hid Hv. split.
  - intros url note user Hurl Hl. unfold save_link_handler.
    destruct url; [done|]. cbn [PyStr.truthy]. unfold bind at 1.
    rewrite add_link_loop_skip by done. unfold bind at 1.
    cbn [add_link_loop]. unfold bind at 1. cbn [Py.getitem]. rewrite Hid.
    cbn [ret]. rewrite eq_str_refl. unfold bind at 1.
    unfold Py.setdefault_append. rewrite Hl. cbn [from_option id].
    destruct v; try done. by destruct (Hv l).
  - intros reply user Hl. unfold reply_handler, bind at 1.
    rewrite reply_loop_skip by done. unfold bind at 1.
    cbn [reply_loop]. unfold bind at 1. cbn [Py.getitem]. rewrite Hid.
    cbn [ret]. rewrite eq_str_refl. unfold bind at 1.
    unfold Py.setdefault_append. rewrite Hl. cbn [from_option id].
    destruct v; try done. by destruct (Hv l).
Qed.

(** *** What the loops keep *)

Lemma item_id_set k v d :
  k ≠ "id" → item_id (JObj (Dict.set k v d)) = item_id (JObj d).
Proof. intros Hk. unfold item_id. by rewrite dict_get_set_ne. Qed.

Lemma setitem_inv it k x w it' w' :
  Py.setitem it k x w = (Ret it', w') →
  w' = w ∧ ∃ d, it = JObj d ∧ it' = JObj (Dict.set k x d).
Proof.
  destruct it; cbn; intros H; try (by inversion H).
  inversion H; subst. eauto.
Qed.

Lemma setdefault_append_inv it k (x : M json) w it' w' :
  Py.setdefault_append it k x w = (Ret it', w') →
  ∃ d v, it = JObj d ∧ it' = JObj (Dict.set k v d).
Proof.
  unfold Py.setdefault_append. destruct it; try (by inversion 1).
  destruct (default (JList []) (Dict.get k kvs)); try (by inversion 1).
  intros H. apply bind_inv in H as [(e & w1 & _ & H)|(e & _ & [=])].
  inversion H; subst. eauto.
Qed.

Lemma upvote_loop_keeps rid items w items' w' :
  upvote_loop rid items w = (Ret items', w') →
  length items' = length items ∧ item_id <$> items' = item_id <$> items.
Proof.
  revert w items' w'. induction items as [|it rest IH]; intros w items' w' H.
  - inversion H; subst. done.
  - cbn [upvote_loop] in H.
    apply bind_inv in H as [(idv & w1 & _ & H)|(e & _ & [=])].
    destruct (Py.eq_str idv rid).
    + apply bind_inv in H as [(up & w2 & _ & H)|(e & _ & [=])].
      apply bind_inv in H as [(n & w3 & _ & H)|(e & _ & [=])].
      apply bind_inv in H as [(it1 & w4 & H1 & H)|(e & _ & [=])].
      apply bind_inv in H as [(now & w5 & _ & H)|(e & _ & [=])].
      apply bind_inv in H as [(it2 & w6 & H2 & H)|(e & _ & [=])].
      inversion H; subst.
      apply setitem_inv in H1 as (_ & d & -> & ->).
      apply setitem_inv in H2 as (_ & d' & [= <-] & ->).
      cbn [length fmap list_fmap]. split; [done|].
      by rewrite !item_id_set.
    + apply bind_inv in H as [(rest' & w2 & Hr & H)|(e & _ & [=])].
      inversion H; subst. apply IH in Hr as [Hl Hi].
      cbn [length fmap list_fmap]. split; [by rewrite Hl|].
      cbn [fmap] in Hi. by rewrite Hi.
Qed.

Lemma add_link_loop_keeps rid url note user items w items' w' :
  add_link_loop rid url note user items w = (Ret items', w') →
  length items' = length items ∧ item_id <$> items' = item_id <$> items.
Proof.
  revert w items' w'. induction items as [|it rest IH]; intros w items' w' H.
  - inversion H; subst. done.
  - cbn [add_link_loop] in H.
    apply bind_inv in H as [(idv & w1 & _ & H)|(e & _ & [=])].
    destruct (Py.eq_str idv rid).
    + apply bind_inv in H as [(it1 & w4 & H1 & H)|(e & _ & [=])].
      apply bind_inv in H as [(now & w5 & _ & H)|(e & _ & [=])].
      apply bind_inv in H as [(it2 & w6 & H2 & H)|(e & _ & [=])].
      inversion H; subst.
      apply setdefault_append_inv in H1 as (d & v & -> & ->).
      apply setitem_inv in H2 as (_ & d' & [= <-] & ->).
      cbn [length fmap list_fmap]. split; [done|].
      by rewrite !item_id_set.
    + apply bind_inv in H as [(rest' & w2 & Hr & H)|(e & _ & [=])].
      inversion H; subst. apply IH in Hr as [Hl Hi].
      cbn [length fmap list_fmap]. split; [by rewrite Hl|].
      cbn [fmap] in Hi. by rewrite Hi.
Qed.

Lemma reply_loop_keeps tid reply user threads w threads' w' :
  reply_loop tid reply user threads w = (Ret threads', w') →
  length threads' = length threads ∧ item_id <$> threads' = item_id <$> threads.
Proof.
  revert w threads' w'.
  induction threads as [|it rest IH]; intros w threads' w' H.
  - inversion H; subst. done.
  - cbn [reply_loop] in H.
    apply bind_inv in H as [(idv & w1 & _ & H)|(e & _ & [=])].
    destruct (Py.eq_str idv tid).
    + apply bind_inv in H as [(it1 & w4 & H1 & H)|(e & _ & [=])].
      inversion H; subst.
      apply setdefault_append_inv in H1 as (d & v & -> & ->).
      cbn [length fmap list_fmap]. split; [done|].
      by rewrite !item_id_set.
    + apply bind_inv in H as [(rest' & w2 & Hr & H)|(e & _ & [=])].
      inversion H; subst. apply IH in Hr as [Hl Hi].
      cbn [length fmap list_fmap]. split; [by rewrite Hl|].
      cbn [fmap] in Hi. by rewrite Hi.
Qed.

(** X14.  Whatever the collection holds, a vote, a saved link or a reply
    that gets as far as writing writes a collection with as many entries as
    before, carrying the same identifiers in the same order: these three
    operations never add, drop, reorder or rename an entry. *)
Theorem mutations_keep_length_and_ids rid items sha w w' :
  GITHUB_ENABLED = false →
  (upvote_handler rid items sha w = (Raise RerunException, w') →
   ∃ items', files w' !! ITEMS_PATH = Some (json_dump_indent (JList items'))
             ∧ length items' = length items
             ∧ item_id <$> items' = item_id <$> items)
  ∧ (∀ url note user,
       save_link_handler rid url note user items sha w = (Raise RerunException, w') →
       ∃ items', files w' !! ITEMS_PATH = Some (json_dump_indent (JList items'))
                 ∧ length items' = length items
                 ∧ item_id <$> items' = item_id <$> items)
  ∧ (∀ reply user,
       reply_handler rid reply user items sha w = (Raise RerunException, w') →
       ∃ items', files w' !! THREADS_PATH = Some (json_dump_indent (JList items'))
                 ∧ length items' = length items
                 ∧ item_id <$> items' = item_id <$> items).
Proof.
  intros Hlocal. split; [|split].
  - intros H.
    apply (handler_success (upvote_loop rid items) ITEMS_PATH JList sha
             (fun _ => ("upvote item " ++ rid)%string) _ Hlocal
             (quiet_upvote_loop _ _)) in H as (x & w1 & Hc & Hf & _).
    exists x. split; [rewrite Hf; apply lookup_insert_eq|].
    by eapply upvote_loop_keeps.
  - intros url note user H. unfold save_link_handler in H.
    destruct (PyStr.truthy url); [|by inversion H].
    apply (handler_success _ ITEMS_PATH JList sha
             (fun _ => ("add link to item " ++ rid)%string) _ Hlocal
             (quiet_add_link_loop _ _ _ _ _)) in H as (x & w1 & Hc & Hf & _).
    exists x. split; [rewrite Hf; apply lookup_insert_eq|].
    by eapply add_link_loop_keeps.
  - intros reply user H.
    apply (handler_success _ THREADS_PATH JList sha
             (fun _ => ("reply thread " ++ rid)%string) _ Hlocal
             (quiet_reply_loop _ _ _ _)) in H as (x & w1 & Hc & Hf & _).
    exists x. split; [rewrite Hf; apply lookup_insert_eq|].
    by eapply reply_loop_keeps.
Qed.

(** *** One document per handler *)

Section HandlerFrame.
Context {A : Type} (compute : M A) (path : string) (doc : A → json)
        (sha : option string) (message : A → string) (done_msg : string).
Hypothesis local : GITHUB_ENABLED = false.
Hypothesis compute_quiet : quiet compute.

Lemma handler_frame w r w' :
  (x <- compute ;;
   ok <- write_store path (doc x) sha (message x) ;;
   if ok then st_success done_msg ;;; st_experimental_rerun else ret tt) w
  = (r, w') →
  ∀ p, p ≠ path → files w' !! p = files w !! p.
Proof using local compute_quiet.
  unfold write_store. rewrite local. intros H p Hp.
  apply bind_inv in H as [(x & w1 & Hc & H)|(e & Hc & _)].
  - apply compute_quiet in Hc as (Hf1 & _).
    apply bind_inv in H as [(ok & w2 & Hw & H)|(e & Hw & _)];
      [|by apply local_write_no_raise in Hw].
    pose proof (local_write_frame _ _ _ _ _ _ Hw) as Hfr.
    apply after_write_inv in H as [(_ & _ & ->)|(_ & _ & ->)];
      cbn [files add_ui]; by rewrite Hfr, Hf1.
  - apply compute_quiet in Hc as (Hf1 & _). by rewrite Hf1.
Qed.
End HandlerFrame.

(** X15.  However they end (rerun, failed write, validation message or
    exception), the three handlers of the directory leave every file other
    than the items document as it was, and the two handlers of the forum
    every file other than the threads document. *)
Theorem handlers_touch_one_document p sha w r w' :
  GITHUB_ENABLED = false →
  (p ≠ ITEMS_PATH →
   (∀ rid items, upvote_handler rid items sha w = (r, w') →
                 files w' !! p = files w !! p)
   ∧ (∀ rid url note user items,
        save_link_handler rid url note user items sha w = (r, w') →
        files w' !! p = files w !! p)
   ∧ (∀ title code wt tags link note user items,
        create_item_handler title code wt tags link note user items sha w = (r, w') →
        files w' !! p = files w !! p))
  ∧ (p ≠ THREADS_PATH →
     (∀ title tags first user threads,
        create_thread_handler title tags first user threads sha w = (r, w') →
        files w' !! p = files w !! p)
     ∧ (∀ tid reply user threads,
          reply_handler tid reply user threads sha w = (r, w') →
          files w' !! p = files w !! p)).
Proof.
  intros Hlocal. split; intros Hp.
  - split; [|split].
    + intros rid items H.
      by eapply (handler_frame _ ITEMS_PATH JList sha
                   (fun _ => ("upvote item " ++ rid)%string) _ Hlocal
                   (quiet_upvote_loop _ _)).
    + intros rid url note user items H. unfold save_link_handler in H.
      destruct (PyStr.truthy url); [|by inversion H].
      by eapply (handler_frame _ ITEMS_PATH JList sha
                   (fun _ => ("add link to item " ++ rid)%string) _ Hlocal
                   (quiet_add_link_loop _ _ _ _ _)).
    + intros title code wt tags link note user items H.
      unfold create_item_handler in H.
      destruct (negb (PyStr.truthy title) || negb (PyStr.truthy code)
                || negb (PyStr.truthy wt)); [by inversion H|].
      by eapply (handler_frame _ ITEMS_PATH (fun it => JList (items ++ [it])) sha
                   (fun it => ("create item " ++ item_id it)%string) _ Hlocal
                   (quiet_new_item _ _ _ _ _ _ _)).
  - split.
    + intros title tags first user threads H.
      unfold create_thread_handler in H.
      destruct (negb (PyStr.truthy title) || negb (PyStr.truthy first));
        [by inversion H|].
      by eapply (handler_frame _ THREADS_PATH (fun th => JList (th :: threads)) sha
                   (fun th => ("create thread " ++ item_id th)%string) _ Hlocal
                   (quiet_new_thread _ _ _ _)).
    + intros tid reply user threads H.
      by eapply (handler_frame _ THREADS_PATH JList sha
                   (fun _ => ("reply thread " ++ tid)%string) _ Hlocal
                   (quiet_reply_loop _ _ _ _)).
Qed.

(** *** Two sessions *)

(** X16.  Two sessions loaded the same collection, in which [da] (identifier
    [ra]) comes before [db] (identifier [rb]).  The first votes for [ra] and
    reaches the rerun, then the second votes for [rb] with the collection it
    loaded, and reaches the rerun too.  The store then holds the collection
    of the second session: [db] with one vote more and [da] as it was when
    loaded, although the store held [da] with the vote of the first session
    in between.  Nothing tells either session. *)
Theorem second_session_overwrites_first ra rb pre da mid db post sha sha' w w1 w2 :
  GITHUB_ENABLED = false →
  Forall (other_id ra) pre →
  Dict.get "id" da = Some (JStr ra) →
  int_upvotes da →
  Forall (other_id rb) (pre ++ JObj da :: mid) →
  Dict.get "id" db = Some (JStr rb) →
  int_upvotes db →
  let stale := pre ++ JObj da :: mid ++ JObj db :: post in
  upvote_handler ra stale sha w = (Raise RerunException, w1) →
  upvote_handler rb stale sha' w1 = (Raise RerunException, w2) →
  files w1 !! ITEMS_PATH
  = Some (json_dump_indent
            (JList (pre ++ JObj (voted (clock w (ticks w)) da)
                        :: mid ++ JObj db :: post)))
  ∧ files w2 !! ITEMS_PATH
    = Some (json_dump_indent
              (JList (pre ++ JObj da
                          :: mid ++ JObj (voted (clock w1 (ticks w1)) db) :: post)))
  ∧ ui w2 = ui w ++ [StSuccess "Voto registrado."; StSuccess "Voto registrado."].
Proof.
  intros Hlocal Hpa Hia Hua Hpb Hib Hub stale H1 H2.
  apply (handler_success (upvote_loop ra stale) ITEMS_PATH JList sha
           (fun _ => ("upvote item " ++ ra)%string) _ Hlocal
           (quiet_upvote_loop _ _)) in H1 as (x1 & wa & Hc1 & Hf1 & Hu1).
  apply (handler_success (upvote_loop rb stale) ITEMS_PATH JList sha'
           (fun _ => ("upvote item " ++ rb)%string) _ Hlocal
           (quiet_upvote_loop _ _)) in H2 as (x2 & wb & Hc2 & Hf2 & Hu2).
  unfold stale in Hc1. rewrite upvote_loop_hit in Hc1 by done.
  unfold stale in Hc2.
  replace (pre ++ JObj da :: mid ++ JObj db :: post)
    with ((pre ++ JObj da :: mid) ++ JObj db :: post) in Hc2
    by (by rewrite <- app_assoc).
  rewrite upvote_loop_hit in Hc2 by done.
  simplify_eq. split; [rewrite Hf1; apply lookup_insert_eq|]. split.
  - rewrite Hf2, lookup_insert_eq. by rewrite <- app_assoc.
  - rewrite Hu2, Hu1, <- app_assoc. done.
Qed.

(** *** Inputs of white space *)

(** X17.  The three required fields of a new item are checked before they
    are stripped: a title made of white space only (and not empty) passes the
    check, and on a disk where the write can go through the creation reaches
    the rerun with an item whose stored title is the empty string. *)
Theorem blank_title_is_stored_empty
        title project_code work_type tags_raw first_link note user items sha w :
  GITHUB_ENABLED = false →
  title ≠ "" → blank title = true →
  project_code ≠ "" → work_type ≠ "" →
  calm 3 w = true →
  is_file "data" w = false →
  is_dir ITEMS_PATH w = false →
  ∃ w' it,
    create_item_handler title project_code work_type tags_raw first_link note
      user items sha w = (Raise RerunException, w')
    ∧ files w' !! ITEMS_PATH = Some (json_dump_indent (JList (items ++ [JObj it])))
    ∧ Dict.get "title" it = Some (JStr "").
Proof.
  intros Hlocal Ht Hb Hc Hw Hcalm Hf Hd.
  destruct (new_item_eq title project_code work_type tags_raw first_link note
              user w) as (w1 & E).
  assert (Hrun : ∃ w', create_item_handler title project_code work_type tags_raw
                         first_link note user items sha w
                       = (Raise RerunException, w')).
  { unfold create_item_handler.
    destruct title; [done|]. destruct project_code; [done|].
    destruct work_type; [done|]. cbn [PyStr.truthy negb orb].
    by eapply (handler_completes _ ITEMS_PATH (fun it => JList (items ++ [it])) sha
                 (fun it => ("create item " ++ item_id it)%string) _ Hlocal
                 (quiet_new_item _ _ _ _ _ _ _) w _ w1 E). }
  destruct Hrun as (w' & Hrun). exists w'. eexists. split; [exact Hrun|].
  split.
  - unfold create_item_handler in Hrun.
    destruct (negb (PyStr.truthy title) || negb (PyStr.truthy project_code)
              || negb (PyStr.truthy work_type)); [done|].
    apply (handler_success _ ITEMS_PATH (fun it => JList (items ++ [it])) sha
             (fun it => ("create item " ++ item_id it)%string) _ Hlocal
             (quiet_new_item _ _ _ _ _ _ _)) in Hrun as (x & w2 & Hx & Hfl & _).
    rewrite E in Hx. injection Hx as <- <-. rewrite Hfl. apply lookup_insert_eq.
  - cbn. by rewrite (strip_blank title Hb).
Qed.

(** X18.  The handler of the reply button does not check the reply: on a
    disk with no fault to come (where [data] is not a file nor the threads
    document a directory), a reply that is empty or made of white space only
    ends in the rerun like any other, with the success message shown and, in
    the stored thread, one post more whose text is the empty string. *)
Theorem blank_reply_is_appended tid reply user pre d post sha w :
  GITHUB_ENABLED = false →
  Forall (other_id tid) pre →
  Dict.get "id" d = Some (JStr tid) →
  list_or_missing "posts" d →
  blank reply = true →
  calm 3 w = true →
  is_file "data" w = false →
  is_dir THREADS_PATH w = false →
  ∃ w' d',
    reply_handler tid reply user (pre ++ JObj d :: post) sha w
    = (Raise RerunException, w')
    ∧ files w' !! THREADS_PATH
      = Some (json_dump_indent (JList (pre ++ JObj d' :: post)))
    ∧ ui w' = ui w ++ [StSuccess "Resposta publicada."]
    ∧ list_of "posts" d'
      = list_of "posts" d
        ++ [JObj [("id", JStr (uuid_src w (drawn w)));
                  ("by", JStr user);
                  ("at", JStr (clock w (ticks w)));
                  ("text", JStr "")]].
Proof.
  intros Hlocal Hpre Hid Hl Hb Hcalm Hf Hd.
  pose proof (reply_loop_hit tid reply user pre d post w Hpre Hid Hl) as Hloop.
  destruct (handler_stores _ THREADS_PATH JList sha
              (fun _ => ("reply thread " ++ tid)%string)
              "Resposta publicada." Hlocal
              (quiet_reply_loop tid reply user (pre ++ JObj d :: post))
              w _ _ Hloop Hcalm) as (w' & H & Hfl & Hu); try done.
  exists w'. eexists. split; [exact H|].
  split; [rewrite Hfl; apply lookup_insert_eq|]. split; [exact Hu|].
  rewrite list_of_replied. unfold Py.post. by rewrite (strip_blank reply Hb).
Qed.

(** X19.  The handler that saves a link checks the URL before it strips
    it: on a disk with no fault to come (where [data] is not a file nor the
    items document a directory), a URL made of white space only (and not
    empty) passes the check, the handler ends in the rerun with the success
    message shown, and the link added to the stored item has the empty
    string as its URL. *)
Theorem blank_url_is_stored_empty rid url note user pre d post sha w :
  GITHUB_ENABLED = false →
  Forall (other_id rid) pre →
  Dict.get "id" d = Some (JStr rid) →
  list_or_missing "links" d →
  url ≠ "" → blank url = true →
  calm 3 w = true →
  is_file "data" w = false →
  is_dir ITEMS_PATH w = false →
  ∃ w' d' lk,
    save_link_handler rid url note user (pre ++ JObj d :: post) sha w
    = (Raise RerunException, w')
    ∧ files w' !! ITEMS_PATH
      = Some (json_dump_indent (JList (pre ++ JObj d' :: post)))
    ∧ ui w' = ui w ++ [StSuccess "Link adicionado."]
    ∧ list_of "links" d' = list_of "links" d ++ [JObj lk]
    ∧ Dict.get "url" lk = Some (JStr "").
Proof.
  intros Hlocal Hpre Hid Hl Hu Hb Hcalm Hf Hd.
  pose proof (add_link_loop_hit rid url note user pre d post w Hpre Hid Hl)
    as Hloop.
  destruct (handler_stores _ ITEMS_PATH JList sha
              (fun _ => ("add link to item " ++ rid)%string)
              "Link adicionado." Hlocal
              (quiet_add_link_loop rid url note user (pre ++ JObj d :: post))
              w _ _ Hloop Hcalm) as (w' & H & Hfl & Hui); try done.
  exists w'. eexists _, _. split.
  { unfold save_link_handler. destruct url; [done|]. exact H. }
  split; [rewrite Hfl; apply lookup_insert_eq|]. split; [exact Hui|].
  split; [by rewrite list_of_linked|].
  cbn. by rewrite (strip_blank url Hb).
Qed.

(** *** More on the search of the directory *)

Lemma select_all (rows : list row) : select rows ((fun _ => true) <$> rows) = rows.
Proof.
  rewrite (select_map (fun _ => true)).
  induction rows as [|r rows IH]; [done|]. cbn. by rewrite IH.
Qed.

Lemma select_sublist (rows : list row) mask : sublist (select rows mask) rows.
Proof.
  unfold select. revert mask. induction rows as [|r rows IH]; intros mask.
  - cbn. constructor.
  - destruct mask as [|b mask].
    + cbn. apply sublist_nil_l.
    + cbn [zip zip_with]. rewrite filter_cons. cbn [snd].
      destruct (decide (Is_true b)).
      * cbn. apply sublist_skip, IH.
      * apply sublist_cons, IH.
Qed.

(** X20.  With no query and no filter, the filtering step of the directory
    ([df = df[mask]], before the sort) keeps every row of a non-empty frame,
    in the order of the collection, without looking into any of them (so
    whatever they hold); an empty frame is not filtered at all. *)
Theorem no_filter_keeps_all rows :
  directory_filter "" "" "" rows = Ret (if df_empty rows then [] else rows).
Proof.
  unfold directory_filter. destruct (df_empty rows); [done|].
  unfold directory_mask. cbn [PyStr.truthy Pure.bind]. by rewrite select_all.
Qed.

(** X21.  Whenever the search of the directory returns, the rows it shows
    are rows of the collection, each as it was and in the order of the
    collection: filtering never invents, alters, repeats or reorders a
    row. *)
Theorem filter_shows_a_sublist q code work_type rows shown :
  directory_filter q code work_type rows = Ret shown →
  sublist shown rows.
Proof.
  unfold directory_filter. destruct (df_empty rows).
  - intros [= <-]. apply sublist_nil_l.
  - destruct (directory_mask q code work_type rows); [|done].
    cbn. intros [= <-]. apply select_sublist.
Qed.

Lemma is_ascii_lower s : PyStr.is_ascii (PyStr.lower s) = PyStr.is_ascii s.
Proof.
  induction s as [|c s IH]; [done|]. cbn [PyStr.lower PyStr.is_ascii].
  rewrite IH. f_equal.
  destruct c as [[] [] [] [] [] [] [] []]; reflexivity.
Qed.

Lemma free_text_plain q rows :
  q ≠ "" →
  (∀ s, PyStr.is_ascii s = true →
        re_search (PyStr.lower q) s = Some (PyStr.contains (PyStr.lower q) s)) →
  Forall schema_row rows →
  Forall (fun d => ascii_row d = true) rows →
  rows ≠ [] →
  free_text_series q rows = Ret (spec_matches q <$> rows).
Proof.
  intros Hq Hre Hrows Hasc Hne. unfold free_text_series.
  assert (Hboth : Forall (fun d => schema_row d ∧ ascii_row d = true) rows).
  { apply Forall_forall. intros d Hd. rewrite Forall_forall in Hrows, Hasc. auto. }
  assert (Htitle : col_present "title" rows = true
                   ∧ str_accessor (Dict.get "title" <$> rows) = true).
  { destruct rows as [|d rows]; [done|].
    apply Forall_cons in Hrows as [((t & Ht) & _) _]. split.
    - eapply col_present_here; [|exact Ht]. by left.
    - eapply str_accessor_here; [|exact Ht]. by left. }
  destruct Htitle as [-> ->]. cbn [negb].
  rewrite (series_map _ (fun d => PyStr.contains (PyStr.lower q)
                                   (PyStr.lower (text_of "title" d)))).
  2:{ eapply Forall_impl; [exact Hboth|].
      intros d [((t & Ht) & _) [[[Ha _]%andb_true_iff _]%andb_true_iff _]%andb_true_iff].
      unfold lower_contains, text_of in *. rewrite Ht in *.
      rewrite (Hre "") by done. by rewrite Hre by (by rewrite is_ascii_lower). }
  cbn [Pure.bind].
  rewrite (series_map _ (fun d => PyStr.contains (PyStr.lower q)
                                   (PyStr.lower (text_of "project_code" d)))).
  2:{ eapply Forall_impl; [exact Hboth|].
      intros d [(_ & (t & Ht) & _) [[[_ Ha]%andb_true_iff _]%andb_true_iff _]%andb_true_iff].
      unfold str_lower_contains, astype_str, text_of in *. rewrite Ht in *.
      cbn [py_str]. by rewrite Hre by (by rewrite is_ascii_lower). }
  cbn [Pure.bind].
  rewrite (series_map _ (fun d => PyStr.contains (PyStr.lower q)
                                   (PyStr.lower (text_of "work_type" d)))).
  2:{ eapply Forall_impl; [exact Hboth|].
      intros d [(_ & _ & (t & Ht) & _) [[_ Ha]%andb_true_iff _]%andb_true_iff].
      unfold str_lower_contains, astype_str, text_of in *. rewrite Ht in *.
      cbn [py_str]. by rewrite Hre by (by rewrite is_ascii_lower). }
  cbn [Pure.bind].
  rewrite (series_map _ (fun d =>
             existsb (fun t => match t with
                               | JStr s => PyStr.contains (PyStr.lower q) (PyStr.lower s)
                               | _ => false
                               end) (list_of "tags" d))).
  2:{ eapply Forall_impl; [exact Hrows|]. intros d (_ & _ & _ & (l & Hl & Hstr)).
      unfold tags_contain, or_empty, list_of. rewrite Hl. cbn [Pure.bind].
      f_equal. clear Hl. induction Hstr as [|t l (s & ->) _ IH]; [done|].
      cbn [existsb py_str]. by rewrite IH. }
  cbn [Pure.bind]. by rewrite !zip_with_map.
Qed.

Lemma icase_series_plain k pat rows :
  (∀ s, PyStr.is_ascii s = true →
        re_search_icase pat s
        = Some (PyStr.contains (PyStr.lower pat) (PyStr.lower s))) →
  Forall (fun d => ∃ s, Dict.get k d = Some (JStr s) ∧ PyStr.is_ascii s = true)
    rows →
  Pure.series (fun d => str_contains_icase pat (col_present k rows) (Dict.get k d))
    rows
  = Ret ((fun d => PyStr.contains (PyStr.lower pat) (PyStr.lower (text_of k d)))
           <$> rows).
Proof.
  intros Hre Hrows. apply series_map.
  eapply Forall_impl; [exact Hrows|]. intros d (t & Ht & Ha).
  unfold str_contains_icase, astype_str, text_of. rewrite Ht. cbn [py_str].
  by rewrite Hre.
Qed.

Lemma filter_filter_same (P : row → bool) (rows : list row) :
  List.filter P (List.filter P rows) = List.filter P rows.
Proof.
  induction rows as [|r rows IH]; [done|]. cbn.
  destruct (P r) eqn:E; [|done]. cbn. by rewrite E, IH.
Qed.

Lemma Forall_filter_bool {A} (Q : A → Prop) (P : A → bool) (l : list A) :
  Forall Q l → Forall Q (List.filter P l).
Proof.
  induction 1 as [|r rows Hr _ IH]; [constructor|]. cbn.
  destruct (P r); [by constructor|done].
Qed.

Lemma directory_filter_on_schema q code work_type rows :
  (q ≠ "" → ∀ s, PyStr.is_ascii s = true →
                 re_search (PyStr.lower q) s
                 = Some (PyStr.contains (PyStr.lower q) s)) →
  (code ≠ "" → ∀ s, PyStr.is_ascii s = true →
                    re_search_icase code s
                    = Some (PyStr.contains (PyStr.lower code) (PyStr.lower s))) →
  (work_type ≠ "" →
   ∀ s, PyStr.is_ascii s = true →
        re_search_icase work_type s
        = Some (PyStr.contains (PyStr.lower work_type) (PyStr.lower s))) →
  Forall schema_row rows →
  Forall (fun d => ascii_row d = true) rows →
  directory_filter q code work_type rows
  = Ret (List.filter (row_matches q code work_type) rows).
Proof.
  intros Hq Hc Hw Hrows Hasc. unfold directory_filter.
  destruct (df_empty rows) eqn:Hemp.
  { f_equal. destruct rows as [|d rows]; [done|]. exfalso.
    apply Forall_cons in Hrows as [((t & Ht) & _) _].
    cbn in Hemp. by destruct d. }
  assert (Hne : rows ≠ []) by (by intros ->).
  assert (Hboth : Forall (fun d => schema_row d ∧ ascii_row d = true) rows).
  { apply Forall_forall. intros d Hd. rewrite Forall_forall in Hrows, Hasc. auto. }
  unfold directory_mask.
  assert (H1 : (if PyStr.truthy q
                then Pure.bind (free_text_series q rows)
                       (fun m => Ret (zip_with andb ((fun _ => true) <$> rows) m))
                else Ret ((fun _ => true) <$> rows))
               = Ret ((fun d => negb (PyStr.truthy q) || spec_matches q d) <$> rows)).
  { destruct q as [|a q]; [done|]. cbn [PyStr.truthy negb orb].
    rewrite free_text_plain by (done || by apply Hq). cbn [Pure.bind].
    by rewrite zip_with_map. }
  rewrite H1. cbn [Pure.bind].
  assert (H2 : ∀ mask1 : row → bool,
             (if PyStr.truthy code
              then Pure.bind
                     (Pure.series
                        (fun d => str_contains_icase code
                                    (col_present "project_code" rows)
                                    (Dict.get "project_code" d)) rows)
                     (fun m => Ret (zip_with andb (mask1 <$> rows) m))
              else Ret (mask1 <$> rows))
             = Ret ((fun d => mask1 d
                              && (negb (PyStr.truthy code)
                                  || PyStr.contains (PyStr.lower code)
                                       (PyStr.lower (text_of "project_code" d))))
                      <$> rows)).
  { intros mask1. destruct code as [|a code].
    - cbn [PyStr.truthy negb orb]. f_equal. apply list_fmap_ext.
      intros _ d _. by rewrite andb_true_r.
    - cbn [PyStr.truthy negb orb].
      rewrite icase_series_plain; [|by apply Hc|].
      + cbn [Pure.bind]. by rewrite zip_with_map.
      + eapply Forall_impl; [exact Hboth|].
        intros d [(_ & (t & Ht) & _)
                    [[[_ Ha]%andb_true_iff _]%andb_true_iff _]%andb_true_iff].
        unfold text_of in Ha. rewrite Ht in Ha. eauto. }
  rewrite H2. cbn [Pure.bind].
  assert (H3 : ∀ mask2 : row → bool,
             (if PyStr.truthy work_type
              then Pure.bind
                     (Pure.series
                        (fun d => str_contains_icase work_type
                                    (col_present "work_type" rows)
                                    (Dict.get "work_type" d)) rows)
                     (fun m => Ret (zip_with andb (mask2 <$> rows) m))
              else Ret (mask2 <$> rows))
             = Ret ((fun d => mask2 d
                              && (negb (PyStr.truthy work_type)
                                  || PyStr.contains (PyStr.lower work_type)
                                       (PyStr.lower (text_of "work_type" d))))
                      <$> rows)).
  { intros mask2. destruct work_type as [|a wt].
    - cbn [PyStr.truthy negb orb]. f_equal. apply list_fmap_ext.
      intros _ d _. by rewrite andb_true_r.
    - cbn [PyStr.truthy negb orb].
      rewrite icase_series_plain; [|by apply Hw|].
      + cbn [Pure.bind]. by rewrite zip_with_map.
      + eapply Forall_impl; [exact Hboth|].
        intros d [(_ & _ & (t & Ht) & _)
                    [[_ Ha]%andb_true_iff _]%andb_true_iff].
        unfold text_of in Ha. rewrite Ht in Ha. eauto. }
  rewrite H3. cbn [Pure.bind]. by rewrite select_map.
Qed.

(** X22.  On rows as the script stores them, and where the texts are ASCII
    (the query, the filters and what the rows hold) and the query and the
    filters, read as patterns, find in an ASCII text exactly what contains
    them, the three filters of the directory are joined by "and": the rows
    kept by the filtering step are those in which the query (if any) is a
    substring, case ignored, of the title, the project code, the work type
    or a tag, and the project-code filter (if any) a substring of the
    project code, and the work-type filter (if any) a substring of the work
    type.  Filtering is then idempotent: the same filters over the rows kept
    keep them all. *)
Theorem directory_filter_joins_filters q code work_type rows :
  PyStr.is_ascii q = true →
  PyStr.is_ascii code = true →
  PyStr.is_ascii work_type = true →
  (q ≠ "" → ∀ s, PyStr.is_ascii s = true →
                 re_search (PyStr.lower q) s
                 = Some (PyStr.contains (PyStr.lower q) s)) →
  (code ≠ "" → ∀ s, PyStr.is_ascii s = true →
                    re_search_icase code s
                    = Some (PyStr.contains (PyStr.lower code) (PyStr.lower s))) →
  (work_type ≠ "" →
   ∀ s, PyStr.is_ascii s = true →
        re_search_icase work_type s
        = Some (PyStr.contains (PyStr.lower work_type) (PyStr.lower s))) →
  Forall schema_row rows →
  Forall (fun d => ascii_row d = true) rows →
  let shown := List.filter (row_matches q code work_type) rows in
  directory_filter q code work_type rows = Ret shown
  ∧ directory_filter q code work_type shown = Ret shown.
Proof.
  intros _ _ _ Hq Hc Hw Hrows Hasc shown.
  split; [by apply directory_filter_on_schema|].
  rewrite directory_filter_on_schema by (done || by apply Forall_filter_bool).
  unfold shown. by rewrite filter_filter_same.
Qed.

(** X23.  A non-empty ASCII query on a non-empty frame makes the search of
    the directory raise instead of keeping rows in three cases: [KeyError]
    for [title] when no row has a title; [AttributeError] when every row has
    an integer as its title (such a column has no [.str]); and the error of
    the regular-expression compiler when some row has a string as its title
    and the query, in lower case, is not a valid pattern. *)
Theorem search_raises q code work_type rows :
  q ≠ "" →
  PyStr.is_ascii q = true →
  df_empty rows = false →
  (col_present "title" rows = false →
   directory_filter q code work_type rows = Raise (KeyError "title"))
  ∧ (Forall (fun d => ∃ n, Dict.get "title" d = Some (JInt n)) rows →
     directory_filter q code work_type rows = Raise AttributeError)
  ∧ ((∃ d t, d ∈ rows ∧ Dict.get "title" d = Some (JStr t)) →
     re_search (PyStr.lower q) "" = None →
     directory_filter q code work_type rows = Raise ReError).
Proof.
  intros Hq _ Hemp. unfold directory_filter, directory_mask, free_text_series.
  rewrite Hemp. destruct q as [|a q]; [done|]. cbn [PyStr.truthy].
  split; [|split].
  - intros ->. done.
  - intros Hint. destruct rows as [|d rows]; [done|].
    assert (Hc : col_present "title" (d :: rows) = true).
    { apply Forall_cons in Hint as [(n & Hn) _].
      eapply col_present_here; [|exact Hn]. by left. }
    assert (Ha : str_accessor (Dict.get "title" <$> d :: rows) = false).
    { unfold str_accessor. apply orb_false_iff. split.
      - clear Hc Hemp. induction Hint as [|r l (n & Hn) _ IH]; [done|].
        cbn. by rewrite Hn.
      - apply Forall_cons in Hint as [(n & Hn) _]. cbn. by rewrite Hn. }
    by rewrite Hc, Ha.
  - intros (d & t & Hd & Ht) Hbad.
    rewrite (col_present_here _ _ _ _ Hd Ht), (str_accessor_here _ _ _ _ Hd Ht).
    cbn [negb]. destruct rows as [|d0 rows]; [done|].
    cbn [Pure.series]. unfold lower_contains at 1. rewrite Hbad. done.
Qed.

(** *** The search of the forum *)

Lemma contains_empty s : PyStr.contains "" s = true.
Proof. by destruct s. Qed.

Lemma filter_all {A} (P : A → bool) (l : list A) :
  (∀ x, P x = true) → List.filter P l = l.
Proof.
  intros HP. induction l as [|x l IH]; [done|]. cbn. by rewrite HP, IH.
Qed.

Lemma any_post_schema tq_l ps :
  Forall is_post ps →
  any_post tq_l ps
  = Ret (existsb (fun p => PyStr.contains tq_l (PyStr.lower (post_text p))) ps).
Proof.
  induction 1 as [|p ps (pd & s & -> & Hs) _ IH]; [done|].
  cbn [any_post existsb post_text]. unfold text_of. rewrite Hs.
  cbn [from_option id]. destruct (PyStr.contains tq_l (PyStr.lower s)); [done|].
  by rewrite IH.
Qed.

Lemma existsb_tags tq_l ts :
  Forall is_str ts →
  existsb (fun t => PyStr.contains tq_l (PyStr.lower (py_str t))) ts
  = existsb (fun t => match t with
                      | JStr s => PyStr.contains tq_l (PyStr.lower s)
                      | _ => false
                      end) ts.
Proof.
  induction 1 as [|t ts (s & ->) _ IH]; [done|]. cbn [existsb py_str]. by rewrite IH.
Qed.

Lemma match_schema tq threads d :
  schema_thread d →
  _match (PyStr.lower tq) threads d = Ret (thread_matches tq d).
Proof.
  intros ((t & Ht) & (ps & Hps & Hposts) & (ts & Hts & Htags)).
  unfold _match, thread_matches, text_of, list_of.
  rewrite Ht, Hps, Hts. cbn [title_lower Pure.bind or_empty from_option id].
  destruct (PyStr.contains (PyStr.lower tq) (PyStr.lower t)); [done|].
  rewrite any_post_schema by done. cbn [Pure.bind orb].
  destruct (existsb _ ps); [done|]. cbn [orb]. by rewrite existsb_tags.
Qed.

Lemma series_raise {A B} (f : A → outcome B) pre d post e :
  Forall (fun r => ∃ b, f r = Ret b) pre →
  f d = Raise e →
  Pure.series f (pre ++ d :: post) = Raise e.
Proof.
  intros Hpre Hd. induction Hpre as [|r pre (b & Hr) _ IH].
  - cbn. by rewrite Hd.
  - cbn [app Pure.series]. rewrite Hr. cbn [Pure.bind]. by rewrite IH.
Qed.

(** X24.  On threads as the script stores them, with ASCII texts (the
    query and what the threads hold), the filtering step of the forum
    returns for every query, whatever characters it holds: the query is
    taken literally, never as a pattern, and the threads kept (before the
    sort) are those in which it is a substring, case ignored, of the title,
    of the text of a post, or of a tag.  The empty query keeps every
    thread. *)
Theorem forum_filter_is_literal tq threads :
  PyStr.is_ascii tq = true →
  Forall schema_thread threads →
  Forall (fun d => ascii_thread d = true) threads →
  forum_filter tq threads = Ret (List.filter (thread_matches tq) threads)
  ∧ List.filter (thread_matches "") threads = threads.
Proof.
  intros _ Hs _.
  assert (Hall : List.filter (thread_matches "") threads = threads).
  { apply filter_all. intros d. unfold thread_matches. cbn [PyStr.lower].
    by rewrite contains_empty. }
  split; [|done]. unfold forum_filter.
  destruct (PyStr.truthy tq) eqn:Htq.
  - rewrite (series_map _ (thread_matches tq)).
    + cbn [Pure.bind]. by rewrite select_map.
    + eapply Forall_impl; [exact Hs|]. intros d Hd. by apply match_schema.
  - destruct tq; [|done]. by rewrite Hall.
Qed.

(** X25.  One thread that is not as the script stores them makes the whole
    search of the forum raise [AttributeError] for every non-empty query,
    also when the threads before it match: a thread whose title is stored
    but is not a string, or a thread that has no title while another thread
    has one. *)
Theorem forum_search_raises tq pre d post :
  tq ≠ "" →
  Forall schema_thread pre →
  match Dict.get "title" d with
  | Some v => ¬ is_str v
  | None => col_present "title" (pre ++ d :: post) = true
  end →
  forum_filter tq (pre ++ d :: post) = Raise AttributeError.
Proof.
  intros Htq Hpre Hd. unfold forum_filter.
  destruct tq; [done|]. cbn [PyStr.truthy].
  rewrite (series_raise _ pre d post AttributeError); [done| |].
  - eapply Forall_impl; [exact Hpre|]. intros r Hr.
    eexists. by apply match_schema.
  - unfold _match. destruct (Dict.get "title" d) as [v|].
    + destruct v; try done. exfalso. apply Hd. by eexists.
    + by rewrite Hd.
Qed.

(** *** What the script writes, its searches can read *)

Lemma split_tags_strings raw : Forall is_str (Py.split_tags raw).
Proof.
  unfold Py.split_tags. apply Forall_fmap, Forall_forall. intros s _.
  by exists s.
Qed.

Lemma schema_row_set k v d :
  k ≠ "title" → k ≠ "project_code" → k ≠ "work_type" → k ≠ "tags" →
  schema_row d → schema_row (Dict.set k v d).
Proof.
  intros H1 H2 H3 H4 Hd. unfold schema_row.
  by rewrite !dict_get_set_ne.
Qed.

Lemma setdefault_append_posts it (x : M json) w it' w' :
  Py.setdefault_append it "posts" x w = (Ret it', w') →
  ∃ d l p w1, it = JObj d
              ∧ default (JList []) (Dict.get "posts" d) = JList l
              ∧ x w = (Ret p, w1)
              ∧ it' = JObj (Dict.set "posts" (JList (l ++ [p])) d).
Proof.
  unfold Py.setdefault_append. destruct it; try (by inversion 1).
  destruct (default (JList []) (Dict.get "posts" kvs)) eqn:E; try (by inversion 1).
  intros H. apply bind_inv in H as [(e & w1 & Hx & H)|(e & _ & [=])].
  inversion H; subst. eauto 10.
Qed.

Lemma upvote_loop_schema rid items w items' w' :
  stored_as schema_row items →
  upvote_loop rid items w = (Ret items', w') →
  stored_as schema_row items'.
Proof.
  intros Hs. revert w items' w'.
  induction Hs as [|it rest Hit Hrest IH]; intros w items' w' H.
  - inversion H; subst. constructor.
  - cbn [upvote_loop] in H.
    apply bind_inv in H as [(idv & w1 & _ & H)|(e & _ & [=])].
    destruct (Py.eq_str idv rid).
    + apply bind_inv in H as [(up & w2 & _ & H)|(e & _ & [=])].
      apply bind_inv in H as [(n & w3 & _ & H)|(e & _ & [=])].
      apply bind_inv in H as [(it1 & w4 & H1 & H)|(e & _ & [=])].
      apply bind_inv in H as [(now & w5 & _ & H)|(e & _ & [=])].
      apply bind_inv in H as [(it2 & w6 & H2 & H)|(e & _ & [=])].
      inversion H; subst.
      apply setitem_inv in H1 as (_ & d & -> & ->).
      apply setitem_inv in H2 as (_ & d' & [= <-] & ->).
      destruct Hit as (d0 & [= <-] & Hd).
      constructor; [|done]. eexists. split; [done|].
      by do 2 (apply schema_row_set; [done..|]).
    + apply bind_inv in H as [(rest' & w2 & Hr & H)|(e & _ & [=])].
      inversion H; subst. constructor; [done|]. by eapply IH.
Qed.

Lemma add_link_loop_schema rid url note user items w items' w' :
  stored_as schema_row items →
  add_link_loop rid url note user items w = (Ret items', w') →
  stored_as schema_row items'.
Proof.
  intros Hs. revert w items' w'.
  induction Hs as [|it rest Hit Hrest IH]; intros w items' w' H.
  - inversion H; subst. constructor.
  - cbn [add_link_loop] in H.
    apply bind_inv in H as [(idv & w1 & _ & H)|(e & _ & [=])].
    destruct (Py.eq_str idv rid).
    + apply bind_inv in H as [(it1 & w4 & H1 & H)|(e & _ & [=])].
      apply bind_inv in H as [(now & w5 & _ & H)|(e & _ & [=])].
      apply bind_inv in H as [(it2 & w6 & H2 & H)|(e & _ & [=])].
      inversion H; subst.
      apply setdefault_append_inv in H1 as (d & v & -> & ->).
      apply setitem_inv in H2 as (_ & d' & [= <-] & ->).
      destruct Hit as (d0 & [= <-] & Hd).
      constructor; [|done]. eexists. split; [done|].
      by do 2 (apply schema_row_set; [done..|]).
    + apply bind_inv in H as [(rest' & w2 & Hr & H)|(e & _ & [=])].
      inversion H; subst. constructor; [done|]. by eapply IH.
Qed.

Lemma reply_loop_schema tid reply user threads w threads' w' :
  stored_as schema_thread threads →
  reply_loop tid reply user threads w = (Ret threads', w') →
  stored_as schema_thread threads'.
Proof.
  intros Hs. revert w threads' w'.
  induction Hs as [|it rest Hit Hrest IH]; intros w threads' w' H.
  - inversion H; subst. constructor.
  - cbn [reply_loop] in H.
    apply bind_inv in H as [(idv & w1 & _ & H)|(e & _ & [=])].
    destruct (Py.eq_str idv tid).
    + apply bind_inv in H as [(it1 & w4 & H1 & H)|(e & _ & [=])].
      inversion H; subst.
      apply setdefault_append_posts in H1 as (d & l & p & w2 & -> & Hl & Hp & ->).
      destruct Hit as (d0 & [= <-] & (Ht & (ps & Hps & Hposts) & Htags)).
      rewrite Hps in Hl. injection Hl as <-.
      cbv [bind uuid4_str ts ret] in Hp. injection Hp as <- _.
      constructor; [|done]. eexists. split; [done|].
      unfold schema_thread. rewrite dict_get_set_eq, !dict_get_set_ne by done.
      split; [done|]. split; [|done].
      eexists. split; [done|]. apply Forall_app. split; [done|].
      constructor; [|constructor]. unfold is_post, Py.post. eauto.
    + apply bind_inv in H as [(rest' & w2 & Hr & H)|(e & _ & [=])].
      inversion H; subst. constructor; [done|]. by eapply IH.
Qed.

(** X26.  The items the script writes are items its search can read.  If
    every item of the collection is a dictionary whose title, project code
    and work type are strings and whose tags are a list of strings, so is
    every item of the collection after an item was created and appended,
    after a vote and after a link was saved, whatever was typed in the
    form. *)
Theorem items_stay_searchable items :
  stored_as schema_row items →
  (∀ title project_code work_type tags_raw first_link note user w it w1,
     new_item title project_code work_type tags_raw first_link note user w
     = (Ret it, w1) →
     stored_as schema_row (items ++ [it]))
  ∧ (∀ rid w items' w1,
       upvote_loop rid items w = (Ret items', w1) → stored_as schema_row items')
  ∧ (∀ rid url note user w items' w1,
       add_link_loop rid url note user items w = (Ret items', w1) →
       stored_as schema_row items').
Proof.
  intros Hs. split; [|split].
  - intros title project_code work_type tags_raw first_link note user w it w1 H.
    destruct (new_item_eq title project_code work_type tags_raw first_link note
                user w) as (w2 & E).
    rewrite E in H. injection H as <- _.
    apply Forall_app. split; [done|]. constructor; [|constructor].
    eexists. split; [done|]. unfold schema_row. cbn.
    repeat split; eauto using split_tags_strings.
  - intros. by eapply upvote_loop_schema.
  - intros. by eapply add_link_loop_schema.
Qed.

(** X27.  The threads the script writes are threads its search can read.
    If every thread of the collection is a dictionary whose title is a
    string, whose posts are a list of dictionaries with a string as text and
    whose tags are a list of strings, so is every thread of the collection
    after a thread was created and put in front, and after a reply. *)
Theorem threads_stay_searchable threads :
  stored_as schema_thread threads →
  (∀ t_title t_tags t_first user w th w1,
     new_thread t_title t_tags t_first user w = (Ret th, w1) →
     stored_as schema_thread (th :: threads))
  ∧ (∀ tid reply user w threads' w1,
       reply_loop tid reply user threads w = (Ret threads', w1) →
       stored_as schema_thread threads').
Proof.
  intros Hs. split.
  - intros t_title t_tags t_first user w th w1 H.
    cbv [new_thread bind uuid4_str ts ret] in H. injection H as <- _.
    constructor; [|done]. eexists. split; [done|]. unfold schema_thread. cbn.
    repeat split; eauto using split_tags_strings.
    eexists. split; [done|]. constructor; [|constructor].
    unfold is_post, Py.post. eauto.
  - intros. by eapply reply_loop_schema.
Qed.

End App.

(** * The theorems at work on the sample documents *)

Local Open Scope list_scope.

(** A creation with an empty title, on the sample world. *)
Lemma create_item_requires_fields_witness :
  create_item_handler JsonText.dump_indent false Demo.gh_write
    "" "FT02" "drenagem" "carta, status" "" "" "ana" [JObj Demo.planta] None Demo.w0
  = (Ret tt, add_ui (StError "Preencha título, código do projeto e tipo de obra.")
               Demo.w0).
Proof.
  refine (proj1 (create_item_requires_fields JsonText.dump_indent false Demo.gh_write
                   "" "FT02" "drenagem" "carta, status" "" "" "ana"
                   [JObj Demo.planta] None Demo.w0 _)).
  left. reflexivity.
Defined.

(** The sample item [planta] is not the one with the identifier 7c1e. *)
Lemma other_id_planta : Forall (other_id "7c1e") [JObj Demo.planta].
Proof.
  repeat constructor. exists Demo.planta, (JStr "a2f0"). repeat split; reflexivity.
Defined.

(** Three votes on the sample item [carta], stored after [planta]. *)
Lemma upvote_adds_one_witness :
  ∃ d', upvote_times 3 "7c1e" ([JObj Demo.planta] ++ JObj Demo.carta :: []) Demo.w0
        = (Ret ([JObj Demo.planta] ++ JObj d' :: []), set_ticks 3 Demo.w0)
        ∧ upvotes_of d' = (upvotes_of Demo.carta + 3)%Z
        ∧ (upvotes_of Demo.carta ≤ upvotes_of d')%Z.
Proof.
  refine (proj2 (proj2 (proj2
            (upvote_adds_one JsonText.dump_indent false Demo.gh_write "7c1e"
               [JObj Demo.planta] Demo.carta [] eq_refl other_id_planta _ _)))
            3%nat Demo.w0).
  - reflexivity.
  - right. exists 0%Z. reflexivity.
Defined.

(** Saving a link on the sample item [carta], stored after [planta], on the
    empty disk: with an empty URL the warning and nothing else; with a URL
    the handler ends in the rerun, with the item and its new link stored. *)
Lemma add_link_validates_and_appends_witness :
  save_link_handler JsonText.dump_indent false Demo.gh_write "7c1e" "" "minuta" "rui"
    ([JObj Demo.planta] ++ JObj Demo.carta :: []) None Demo.w0
  = (Ret tt, add_ui (StWarning "Informe a URL.") Demo.w0)
  ∧ ∃ w',
      save_link_handler JsonText.dump_indent false Demo.gh_write "7c1e"
        " https://dropbox.example/minuta" "minuta" "rui"
        ([JObj Demo.planta] ++ JObj Demo.carta :: []) None Demo.w0
      = (Raise RerunException, w')
      ∧ files w'
        = <[ITEMS_PATH :=
              JsonText.dump_indent
                (JList ([JObj Demo.planta]
                        ++ JObj (linked
                                   (JObj [("url", JStr "https://dropbox.example/minuta");
                                          ("by", JStr "rui");
                                          ("at", JStr (Demo.clock 0));
                                          ("note", JStr "minuta")])
                                   (Demo.clock 1) Demo.carta) :: []))]>
            (files Demo.w0)
      ∧ ui w' = ui Demo.w0 ++ [StSuccess "Link adicionado."].
Proof.
  pose proof (add_link_validates_and_appends JsonText.dump_indent false
                Demo.gh_write "7c1e" "minuta" "rui" [JObj Demo.planta]
                Demo.carta [] None Demo.w0 eq_refl other_id_planta eq_refl
                (or_intror (ex_intro _ [] eq_refl))) as [Hempty Hurl].
  split; [exact Hempty|].
  destruct (Hurl " https://dropbox.example/minuta") as (_ & _ & _ & _ & _ & Hrun).
  - discriminate.
  - apply Hrun.
    + reflexivity.
    + vm_compute. reflexivity.
    + vm_compute. reflexivity.
Defined.

(** The sample thread [contrato] is not the one with the identifier 51bd. *)
Lemma other_id_contrato : Forall (other_id "51bd") [JObj Demo.contrato].
Proof.
  repeat constructor. exists Demo.contrato, (JStr "c4d2"). repeat split; reflexivity.
Defined.

(** A reply [ok] to the sample thread [atraso], stored after [contrato], on
    the empty disk: the handler ends in the rerun with the thread and its new
    post stored; the thread has one post more. *)
Lemma reply_appends_one_post_witness :
  length (list_of "posts"
            (replied (Py.post (Demo.uuid 0) "rui" (Demo.clock 0) "ok") Demo.atraso))
  = S (length (list_of "posts" Demo.atraso))
  ∧ ∃ w',
      reply_handler JsonText.dump_indent false Demo.gh_write "51bd" "ok" "rui"
        ([JObj Demo.contrato] ++ JObj Demo.atraso :: []) None Demo.w0
      = (Raise RerunException, w')
      ∧ files w'
        = <[THREADS_PATH :=
              JsonText.dump_indent
                (JList ([JObj Demo.contrato]
                        ++ JObj (replied
                                   (Py.post (Demo.uuid 0) "rui" (Demo.clock 0) "ok")
                                   Demo.atraso) :: []))]>
            (files Demo.w0)
      ∧ ui w' = ui Demo.w0 ++ [StSuccess "Resposta publicada."].
Proof.
  pose proof (reply_appends_one_post JsonText.dump_indent false Demo.gh_write
                "51bd" "ok" "rui" [JObj Demo.contrato] Demo.atraso [] None
                Demo.w0 eq_refl other_id_contrato eq_refl
                (or_intror (ex_intro _ _ eq_refl)))
    as (_ & _ & Hlen & _ & _ & _ & Hrun).
  split; [exact Hlen|].
  apply Hrun.
  - reflexivity.
  - vm_compute. reflexivity.
  - vm_compute. reflexivity.
Defined.


(** A creation with an initial link, on the sample world: the document it
    stores. *)
Lemma create_item_stamps_witness :
  files (create_item_handler JsonText.dump_indent false Demo.gh_write
           " Carta Status" "FT02" "drenagem" "carta, status"
           "https://dropbox.example/carta" "" "ana" [JObj Demo.planta] None Demo.w0).2
  = <[ITEMS_PATH :=
        JsonText.dump_indent
          (JList [JObj Demo.planta;
                  JObj [("id", JStr "0f3a-0");
                        ("title", JStr "Carta Status");
                        ("project_code", JStr "FT02");
                        ("work_type", JStr "drenagem");
                        ("links",
                         JList [JObj [("url", JStr "https://dropbox.example/carta");
                                      ("by", JStr "ana");
                                      ("at", JStr "2025-01-01T10:00:00.000002Z");
                                      ("note", JStr "")]]);
                        ("tags", JList [JStr "carta"; JStr "status"]);
                        ("created_by", JStr "ana");
                        ("created_at", JStr "2025-01-01T10:00:00.000000Z");
                        ("updated_at", JStr "2025-01-01T10:00:00.000001Z");
                        ("upvotes", JInt 0)]])]> (files Demo.w0).
Proof.
  refine (proj1 (create_item_stamps JsonText.dump_indent false Demo.gh_write
                   " Carta Status" "FT02" "drenagem" "carta, status"
                   "https://dropbox.example/carta" "" "ana" [JObj Demo.planta] None
                   Demo.w0 _ eq_refl _)).
  vm_compute. reflexivity.
Defined.

(** C3, as the specification words it, fails on the sample world: the item
    that a creation stores there has an [updated_at] one microsecond after
    its [created_at]. *)
Lemma create_item_two_readings :
  (create_item_handler JsonText.dump_indent false Demo.gh_write
     "Carta Status" "FT02" "drenagem" "" "" "" "ana" [] None Demo.w0).1
  = Raise RerunException
  ∧ ∃ it,
      JsonText.load
        <$> files (create_item_handler JsonText.dump_indent false Demo.gh_write
                     "Carta Status" "FT02" "drenagem" "" "" "" "ana" [] None
                     Demo.w0).2 !! ITEMS_PATH
      = Some (Some (JList [JObj it]))
      ∧ Dict.get "created_at" it = Some (JStr "2025-01-01T10:00:00.000000Z")
      ∧ Dict.get "updated_at" it = Some (JStr "2025-01-01T10:00:00.000001Z")
      ∧ Dict.get "updated_at" it ≠ Dict.get "created_at" it.
Proof.
  split; [vm_compute; reflexivity|].
  eexists. split; [vm_compute; reflexivity|].
  split; [reflexivity|]. split; [reflexivity|]. discriminate.
Qed.

(** The thread of the specification's scenario, created before the sample
    thread [contrato]: the document it stores. *)
Lemma create_thread_prepends_witness :
  files (create_thread_handler JsonText.dump_indent false Demo.gh_write
           "Drenagem atraso" "FT02" "Precisamos de revisao" "ana"
           [JObj Demo.contrato] None Demo.w0).2
  = <[THREADS_PATH :=
        JsonText.dump_indent
          (JList [JObj [("id", JStr "0f3a-0");
                        ("title", JStr "Drenagem atraso");
                        ("created_by", JStr "ana");
                        ("created_at", JStr "2025-01-01T10:00:00.000000Z");
                        ("tags", JList [JStr "FT02"]);
                        ("posts",
                         JList [JObj [("id", JStr "0f3a-1");
                                      ("by", JStr "ana");
                                      ("at", JStr "2025-01-01T10:00:00.000001Z");
                                      ("text", JStr "Precisamos de revisao")]])];
                  JObj Demo.contrato])]> (files Demo.w0).
Proof.
  refine (proj1 (create_thread_prepends JsonText.dump_indent false Demo.gh_write
                   "Drenagem atraso" "FT02" "Precisamos de revisao" "ana"
                   [JObj Demo.contrato] None Demo.w0 _ eq_refl _ _ _)).
  - discriminate.
  - discriminate.
  - vm_compute. reflexivity.
Defined.

(** C1, as the specification words it, fails on the sample disk: the item
    is stored, the vote's write fails while the text is being written (no
    byte of it reached the file), and the stored document, which held the
    collection, is left empty; the next load finds no item. *)
Lemma failed_write_empties_the_file :
  files (Demo.stored [JObj Demo.carta] [NoFault; NoFault; Fault 0]) !! ITEMS_PATH
  = Some (JsonText.dump_indent (JList [JObj Demo.carta]))
  ∧ upvote_handler JsonText.dump_indent false Demo.gh_write "7c1e" [JObj Demo.carta]
      None (Demo.stored [JObj Demo.carta] [NoFault; NoFault; Fault 0])
    = (Ret tt,
       add_ui write_failure
         (set_ticks 1 (set_files (insert ITEMS_PATH "") (Demo.stored [JObj Demo.carta] []))))
  ∧ (load_items JsonText.dump JsonText.load false Demo.gh_read
       (set_files (insert ITEMS_PATH "") (Demo.stored [JObj Demo.carta] []))).1
    = Ret ([], None).
Proof. split; [|split]; vm_compute; reflexivity. Qed.

(** Two votes on the sample item, the second of which cannot open the file:
    the store holds the collection of the first vote. *)
Lemma failed_write_keeps_files_witness :
  files (upvote_handler JsonText.dump_indent false Demo.gh_write "7c1e"
           [JObj Demo.carta] None
           (upvote_handler JsonText.dump_indent false Demo.gh_write "7c1e"
              [JObj Demo.carta] None
              (Demo.stored [JObj Demo.carta]
                 [NoFault; NoFault; NoFault; NoFault; Fault 0])).2).2
    !! ITEMS_PATH
  = Some (JsonText.dump_indent
            (JList ([] ++ JObj (voted (Demo.clock 0) Demo.carta) :: [])))
  ∧ upvotes_of (voted (Demo.clock 0) Demo.carta) = (upvotes_of Demo.carta + 1)%Z.
Proof.
  refine (proj2 (proj2 (failed_write_keeps_files JsonText.dump_indent false
                          Demo.gh_write eq_refl) "7c1e" [] Demo.carta [] None
                   [JObj Demo.carta] None
                   (Demo.stored [JObj Demo.carta]
                      [NoFault; NoFault; NoFault; NoFault; Fault 0])
                   _ _ _ _ _ _ _ _)).
  - constructor.
  - reflexivity.
  - right. exists 0%Z. reflexivity.
  - vm_compute. reflexivity.
  - vm_compute. reflexivity.
  - intros n fs. vm_compute. discriminate.
Defined.

(** The two sample items written to the empty disk and read back. *)
Lemma write_then_read_roundtrip_witness :
  read_store JsonText.dump JsonText.load false Demo.gh_read ITEMS_PATH (JList [])
    (write_store JsonText.dump_indent false Demo.gh_write ITEMS_PATH
       (JList [JObj Demo.planta; JObj Demo.carta]) None "update" Demo.w0).2
  = (Ret (JList [JObj Demo.planta; JObj Demo.carta], None),
     set_faults
       (tl (faults (write_store JsonText.dump_indent false Demo.gh_write ITEMS_PATH
                      (JList [JObj Demo.planta; JObj Demo.carta]) None "update"
                      Demo.w0).2))
       (write_store JsonText.dump_indent false Demo.gh_write ITEMS_PATH
          (JList [JObj Demo.planta; JObj Demo.carta]) None "update" Demo.w0).2).
Proof.
  refine (write_then_read_roundtrip JsonText.dump JsonText.dump_indent JsonText.load
            false Demo.gh_read Demo.gh_write ITEMS_PATH
            (JList [JObj Demo.planta; JObj Demo.carta]) None "update" (JList [])
            Demo.w0 _ eq_refl _ _ _).
  - vm_compute. reflexivity.
  - reflexivity.
  - vm_compute. reflexivity.
Defined.

(** The first read of the items on the empty disk. *)
Lemma read_of_missing_file_creates_it_witness :
  ∃ w1, read_store JsonText.dump JsonText.load false Demo.gh_read ITEMS_PATH
          (JList []) Demo.w0 = (Ret (JList [], None), w1)
        ∧ files Demo.w0 !! ITEMS_PATH = None
        ∧ files w1 = <[ITEMS_PATH := JsonText.dump (JList [])]> (files Demo.w0)
        ∧ files w1 !! ITEMS_PATH = Some (JsonText.dump (JList []))
        ∧ PyStr.dirname ITEMS_PATH ∈ dirs w1
        ∧ ∀ other,
            hd NoFault (faults w1) = NoFault →
            ∃ w2, read_store JsonText.dump JsonText.load false Demo.gh_read
                    ITEMS_PATH other w1 = (Ret (JList [], None), w2)
                  ∧ files w2 = files w1.
Proof.
  refine (read_of_missing_file_creates_it JsonText.dump JsonText.load false
            Demo.gh_read ITEMS_PATH (JList []) Demo.w0 eq_refl _ _ _ _ _ _ _).
  - vm_compute. reflexivity.
  - vm_compute. reflexivity.
  - reflexivity.
  - reflexivity.
  - vm_compute. discriminate.
  - vm_compute. reflexivity.
  - vm_compute. reflexivity.
Defined.

(** The search for [ft.2] with the matcher for plain patterns. *)
Lemma search_reads_query_as_pattern_witness :
  directory_filter PlainRe.search PlainRe.search_icase JsonText.dump "ft.2" "" ""
    [Demo.carta] = Ret [Demo.carta]
  ∧ spec_matches "ft.2" Demo.carta = false.
Proof.
  refine (search_reads_query_as_pattern PlainRe.search PlainRe.search_icase
            JsonText.dump _ _).
  - intros s. eexists. reflexivity.
  - vm_compute. reflexivity.
Defined.

(** Two runs of the script on the sample disk, a vote on the sample item in
    each.  When no fault comes, the item read back after them has two
    upvotes. *)
Example two_votes_stored :
  let run := upvote_run JsonText.dump JsonText.dump_indent JsonText.load false
               Demo.gh_read Demo.gh_write "7c1e" in
  let w2 := (run (run (Demo.stored [JObj Demo.carta] [])).2).2 in
  ∃ d, (load_items JsonText.dump JsonText.load false Demo.gh_read w2).1
       = Ret ([JObj d], None)
       ∧ upvotes_of d = 2%Z.
Proof. eexists. split; [vm_compute; reflexivity|reflexivity]. Qed.

(** The same two runs when the file cannot be opened for the second write
    (the seventeenth file operation): the second run shows the failure, and
    the item read back has the one upvote of the first run. *)
Example two_votes_second_write_fails :
  let run := upvote_run JsonText.dump JsonText.dump_indent JsonText.load false
               Demo.gh_read Demo.gh_write "7c1e" in
  let w2 := (run (run (Demo.stored [JObj Demo.carta]
                         (replicate 16 NoFault ++ [Fault 0]))).2).2 in
  ui w2 = [StSuccess "Voto registrado."; write_failure]
  ∧ ∃ d, (load_items JsonText.dump JsonText.load false Demo.gh_read w2).1
         = Ret ([JObj d], None)
         ∧ upvotes_of d = 1%Z.
Proof.
  split; [vm_compute; reflexivity|].
  eexists. split; [vm_compute; reflexivity|reflexivity].
Qed.


(** * More of the script at work on the sample documents *)

(** A name typed with spaces around it wins over the session's user. *)
Lemma current_user_typed_witness :
  get_current_user None (Some "rui@exxata.com.br") (Some "  ana@exxata.com.br ")
  = "ana@exxata.com.br"
  ∧ get_current_user None (Some "ana@exxata.com.br") None = "ana@exxata.com.br".
Proof.
  refine (let H := current_user_typed None (Some "rui@exxata.com.br")
                     "  ana@exxata.com.br " _ _ in
          conj (proj1 H) (proj2 (proj2 (proj2 H)))).
  - reflexivity.
  - reflexivity.
Defined.

(** Three spaces typed over the session's user: the user is the default. *)
Lemma current_user_blank_witness :
  get_current_user (Some "forum@exxata.com.br") (Some "rui@exxata.com.br")
    (Some "   ")
  = "forum@exxata.com.br".
Proof.
  refine (current_user_blank (Some "forum@exxata.com.br") (Some "rui@exxata.com.br")
            "   " _).
  reflexivity.
Defined.

(** Two writes of the items on the empty disk. *)
Lemma last_write_wins_witness :
  files (write_store JsonText.dump_indent false Demo.gh_write ITEMS_PATH
           (JList [JObj Demo.planta]) None "second"
           (write_store JsonText.dump_indent false Demo.gh_write ITEMS_PATH
              (JList [JObj Demo.carta]) (Some "3f2a") "first" Demo.w0).2).2
  = <[ITEMS_PATH := JsonText.dump_indent (JList [JObj Demo.planta])]> (files Demo.w0).
Proof.
  refine (last_write_wins JsonText.dump_indent false Demo.gh_write ITEMS_PATH
            (JList [JObj Demo.carta]) (Some "3f2a") "first"
            (JList [JObj Demo.planta]) None "second" Demo.w0 _ _ eq_refl _ _).
  - vm_compute. reflexivity.
  - vm_compute. reflexivity.
Defined.

(** Reading the items of the sample disk. *)
Lemma read_of_existing_file_witness :
  ∃ v w',
    read_store JsonText.dump JsonText.load false Demo.gh_read ITEMS_PATH (JList [])
      (Demo.stored [JObj Demo.carta] []) = (Ret (v, None), w')
    ∧ files w' = files (Demo.stored [JObj Demo.carta] [])
    ∧ dirs w' = dirs (Demo.stored [JObj Demo.carta] [])
    ∧ ui w' = ui (Demo.stored [JObj Demo.carta] []).
Proof.
  destruct (read_of_existing_file JsonText.dump JsonText.load false Demo.gh_read
              ITEMS_PATH (JList [])
              (JsonText.dump_indent (JList [JObj Demo.carta]))
              (Demo.stored [JObj Demo.carta] []) eq_refl)
    as (v & w' & H & Hf & Hd & Hu & _).
  - vm_compute. reflexivity.
  - exists v, w'. repeat split; assumption.
Defined.

(** The first read of the items on an empty disk whose first file operation
    fails. *)
Lemma read_of_missing_file_can_raise_witness :
  ∃ w', read_store JsonText.dump JsonText.load false Demo.gh_read ITEMS_PATH
          (JList []) (set_faults [Fault 0] Demo.w0) = (Raise OSError, w')
        ∧ ∀ p, p ≠ ITEMS_PATH → files w' !! p = files (set_faults [Fault 0] Demo.w0) !! p.
Proof.
  refine (read_of_missing_file_can_raise JsonText.dump JsonText.load false
            Demo.gh_read ITEMS_PATH (JList []) (set_faults [Fault 0] Demo.w0)
            eq_refl _ _ _).
  - vm_compute. reflexivity.
  - vm_compute. reflexivity.
  - vm_compute. reflexivity.
Defined.

(** A write of the sample item that stops after the first character. *)
Lemma truncated_write_reads_as_default_witness :
  ∃ w1 w2,
    write_store JsonText.dump_indent false Demo.gh_write ITEMS_PATH
      (JList [JObj Demo.carta]) None "update"
      (set_faults [NoFault; NoFault; Fault 1] Demo.w0) = (Ret false, w1)
    ∧ files w1
      = <[ITEMS_PATH := PyStr.take 1 (JsonText.dump_indent (JList [JObj Demo.carta]))]>
          (files (set_faults [NoFault; NoFault; Fault 1] Demo.w0))
    ∧ read_store JsonText.dump JsonText.load false Demo.gh_read ITEMS_PATH (JList [])
        w1 = (Ret (JList [], None), w2)
    ∧ files w2 = files w1.
Proof.
  refine (truncated_write_reads_as_default JsonText.dump JsonText.dump_indent
            JsonText.load false Demo.gh_read Demo.gh_write ITEMS_PATH
            (JList [JObj Demo.carta]) None "update" (JList []) 1 []
            (set_faults [NoFault; NoFault; Fault 1] Demo.w0)
            eq_refl eq_refl _ _ _ _ _).
  - vm_compute. reflexivity.
  - vm_compute. discriminate.
  - vm_compute. reflexivity.
  - vm_compute. reflexivity.
  - vm_compute. reflexivity.
Defined.

(** Loading the items of the sample disk. *)
Lemma load_items_gives_a_list_witness :
  ∃ l w', load_items JsonText.dump JsonText.load false Demo.gh_read
            (Demo.stored [JObj Demo.carta] []) = (Ret (l, None), w')
          ∧ files w' = files (Demo.stored [JObj Demo.carta] []).
Proof.
  destruct (load_items_gives_a_list JsonText.dump JsonText.load false Demo.gh_read
              (JsonText.dump_indent (JList [JObj Demo.carta]))
              (Demo.stored [JObj Demo.carta] []) eq_refl)
    as (l & w' & H & Hf & _).
  - vm_compute. reflexivity.
  - exists l, w'. split; assumption.
Defined.

(** A vote for [carta] when an entry without identifier is stored before
    it. *)
Lemma vote_raises_on_entry_without_id_witness :
  upvote_handler JsonText.dump_indent false Demo.gh_write "7c1e"
    ([JObj Demo.planta] ++ JObj [("title", JStr "Sem id")] :: [JObj Demo.carta])
    None Demo.w0
  = (Raise (KeyError "id"), Demo.w0).
Proof.
  refine (proj1 (vote_raises_on_entry_without_id JsonText.dump_indent false
                   Demo.gh_write "7c1e" [JObj Demo.planta] [JObj Demo.carta] None
                   Demo.w0 other_id_planta)
            [("title", JStr "Sem id")] eq_refl).
Defined.

(** A vote for an item whose upvotes are the text 1.5. *)
Lemma vote_raises_on_bad_upvotes_witness :
  upvote_handler JsonText.dump_indent false Demo.gh_write "7c1e"
    ([JObj Demo.planta] ++ JObj [("id", JStr "7c1e"); ("upvotes", JStr "1.5")] :: [])
    None Demo.w0
  = (Raise ValueError, Demo.w0).
Proof.
  refine (proj2 (vote_raises_on_bad_upvotes JsonText.dump_indent false Demo.gh_write
                   "7c1e" [JObj Demo.planta]
                   [("id", JStr "7c1e"); ("upvotes", JStr "1.5")] [] None Demo.w0
                   (JStr "1.5") other_id_planta eq_refl eq_refl)
            "1.5" eq_refl eq_refl eq_refl).
Defined.

(** A link saved on an item whose links are null. *)
Lemma append_raises_on_non_list_witness :
  save_link_handler JsonText.dump_indent false Demo.gh_write "7c1e"
    "https://dropbox.example/minuta" "" "rui"
    ([JObj Demo.planta] ++ JObj [("id", JStr "7c1e"); ("links", JNull)] :: [])
    None Demo.w0
  = (Raise AttributeError, Demo.w0).
Proof.
  refine (proj1 (append_raises_on_non_list JsonText.dump_indent false Demo.gh_write
                   "7c1e" [JObj Demo.planta]
                   [("id", JStr "7c1e"); ("links", JNull)] [] None Demo.w0 JNull
                   other_id_planta eq_refl _)
            "https://dropbox.example/minuta" "" "rui" _ eq_refl).
  - intros l. discriminate.
  - discriminate.
Defined.

(** A vote for [carta] on the empty disk: the stored collection. *)
Lemma mutations_keep_length_and_ids_witness :
  ∃ items',
    files (upvote_handler JsonText.dump_indent false Demo.gh_write "7c1e"
             [JObj Demo.planta; JObj Demo.carta] None Demo.w0).2 !! ITEMS_PATH
    = Some (JsonText.dump_indent (JList items'))
    ∧ length items' = length [JObj Demo.planta; JObj Demo.carta]
    ∧ item_id <$> items' = item_id <$> [JObj Demo.planta; JObj Demo.carta].
Proof.
  refine (proj1 (mutations_keep_length_and_ids JsonText.dump_indent false
                   Demo.gh_write "7c1e" [JObj Demo.planta; JObj Demo.carta] None
                   Demo.w0 _ eq_refl) _).
  vm_compute. reflexivity.
Defined.

(** A vote on the sample disk leaves the document of the threads alone. *)
Lemma handlers_touch_one_document_witness :
  files (upvote_handler JsonText.dump_indent false Demo.gh_write "7c1e"
           [JObj Demo.carta] None (Demo.stored [JObj Demo.carta] [])).2
    !! THREADS_PATH
  = files (Demo.stored [JObj Demo.carta] []) !! THREADS_PATH.
Proof.
  refine (proj1 (proj1 (handlers_touch_one_document JsonText.dump_indent false
                          Demo.gh_write THREADS_PATH None
                          (Demo.stored [JObj Demo.carta] []) _ _ eq_refl) _)
            "7c1e" [JObj Demo.carta] (surjective_pairing _)).
  discriminate.
Defined.

(** The sample item [carta] is not the one with the identifier a2f0. *)
Lemma other_id_carta : Forall (other_id "a2f0") ([] ++ [JObj Demo.carta]).
Proof.
  repeat constructor. exists Demo.carta, (JStr "7c1e"). repeat split; reflexivity.
Defined.

(** Two sessions that loaded [carta] and [planta]: one votes for [carta], then
    the other for [planta]; the stored [carta] has its upvotes of before. *)
Lemma second_session_overwrites_first_witness :
  let stale := [] ++ JObj Demo.carta :: [] ++ JObj Demo.planta :: [] in
  let w1 := (upvote_handler JsonText.dump_indent false Demo.gh_write "7c1e" stale
               None Demo.w0).2 in
  let w2 := (upvote_handler JsonText.dump_indent false Demo.gh_write "a2f0" stale
               None w1).2 in
  files w1 !! ITEMS_PATH
  = Some (JsonText.dump_indent
            (JList ([] ++ JObj (voted (Demo.clock 0) Demo.carta)
                       :: [] ++ JObj Demo.planta :: [])))
  ∧ files w2 !! ITEMS_PATH
    = Some (JsonText.dump_indent
              (JList ([] ++ JObj Demo.carta
                         :: [] ++ JObj (voted (Demo.clock 1) Demo.planta) :: []))).
Proof.
  refine (let H := second_session_overwrites_first JsonText.dump_indent false
                     Demo.gh_write "7c1e" "a2f0" [] Demo.carta [] Demo.planta []
                     None None Demo.w0 _ _ eq_refl _ eq_refl _
                     other_id_carta eq_refl _ _ _ in
          conj (proj1 H) (proj1 (proj2 H))).
  - constructor.
  - right. exists 0%Z. reflexivity.
  - right. exists 4%Z. reflexivity.
  - vm_compute. reflexivity.
  - vm_compute. reflexivity.
Defined.

(** An item created on the empty disk with one space as its title. *)
Lemma blank_title_is_stored_empty_witness :
  ∃ w' it,
    create_item_handler JsonText.dump_indent false Demo.gh_write
      " " "FT02" "drenagem" "" "" "" "ana" [JObj Demo.planta] None Demo.w0
    = (Raise RerunException, w')
    ∧ files w' !! ITEMS_PATH
      = Some (JsonText.dump_indent (JList ([JObj Demo.planta] ++ [JObj it])))
    ∧ Dict.get "title" it = Some (JStr "").
Proof.
  refine (blank_title_is_stored_empty JsonText.dump_indent false Demo.gh_write
            " " "FT02" "drenagem" "" "" "" "ana" [JObj Demo.planta] None Demo.w0
            eq_refl _ eq_refl _ _ _ _ _).
  - discriminate.
  - discriminate.
  - discriminate.
  - reflexivity.
  - vm_compute. reflexivity.
  - vm_compute. reflexivity.
Defined.

(** A reply of two spaces to the sample thread [atraso], on the empty
    disk. *)
Lemma blank_reply_is_appended_witness :
  ∃ w' d',
    reply_handler JsonText.dump_indent false Demo.gh_write "51bd" "  " "rui"
      ([JObj Demo.contrato] ++ JObj Demo.atraso :: []) None Demo.w0
    = (Raise RerunException, w')
    ∧ files w' !! THREADS_PATH
      = Some (JsonText.dump_indent
                (JList ([JObj Demo.contrato] ++ JObj d' :: [])))
    ∧ ui w' = ui Demo.w0 ++ [StSuccess "Resposta publicada."]
    ∧ list_of "posts" d'
      = list_of "posts" Demo.atraso
        ++ [JObj [("id", JStr (Demo.uuid 0)); ("by", JStr "rui");
                  ("at", JStr (Demo.clock 0)); ("text", JStr "")]].
Proof.
  refine (blank_reply_is_appended JsonText.dump_indent false Demo.gh_write
            "51bd" "  " "rui" [JObj Demo.contrato] Demo.atraso [] None Demo.w0
            eq_refl other_id_contrato eq_refl _ eq_refl _ _ _).
  - right. eexists. reflexivity.
  - reflexivity.
  - vm_compute. reflexivity.
  - vm_compute. reflexivity.
Defined.

(** A link of one space saved on the sample item [carta], on the empty
    disk. *)
Lemma blank_url_is_stored_empty_witness :
  ∃ w' d' lk,
    save_link_handler JsonText.dump_indent false Demo.gh_write "7c1e" " " "" "rui"
      ([JObj Demo.planta] ++ JObj Demo.carta :: []) None Demo.w0
    = (Raise RerunException, w')
    ∧ files w' !! ITEMS_PATH
      = Some (JsonText.dump_indent (JList ([JObj Demo.planta] ++ JObj d' :: [])))
    ∧ ui w' = ui Demo.w0 ++ [StSuccess "Link adicionado."]
    ∧ list_of "links" d' = list_of "links" Demo.carta ++ [JObj lk]
    ∧ Dict.get "url" lk = Some (JStr "").
Proof.
  refine (blank_url_is_stored_empty JsonText.dump_indent false Demo.gh_write
            "7c1e" " " "" "rui" [JObj Demo.planta] Demo.carta [] None Demo.w0
            eq_refl other_id_planta eq_refl _ _ eq_refl _ _ _).
  - right. eexists. reflexivity.
  - discriminate.
  - reflexivity.
  - vm_compute. reflexivity.
  - vm_compute. reflexivity.
Defined.

(** The search for [carta] among the two sample items. *)
Lemma filter_shows_a_sublist_witness :
  sublist [Demo.carta] [Demo.carta; Demo.planta].
Proof.
  refine (filter_shows_a_sublist PlainRe.search PlainRe.search_icase JsonText.dump
            "carta" "" "" [Demo.carta; Demo.planta] [Demo.carta] _).
  vm_compute. reflexivity.
Defined.

(** The matcher for plain patterns finds a pattern without a dot exactly in
    the texts that contain it. *)
Lemma match_here_prefix pat s :
  occurs "." pat = false → PlainRe.match_here pat s = String.prefix pat s.
Proof.
  revert s. induction pat as [|p pat IH]; intros s H; [by destruct s|].
  change (occurs "." (String p pat))
    with (Ascii.eqb "." p || occurs "." pat) in H.
  apply orb_false_iff in H as [Hp H].
  destruct s as [|c s]; [done|]. cbn [PlainRe.match_here String.prefix].
  rewrite Ascii.eqb_sym in Hp. rewrite Hp, (IH s H).
  destruct (Ascii.eqb_spec p c) as [->|Hne].
  - destruct (ascii_dec c c); [done|congruence].
  - destruct (ascii_dec p c); [congruence|done].
Qed.

Lemma find_contains pat s :
  occurs "." pat = false → PlainRe.find pat s = PyStr.contains pat s.
Proof.
  intros H. induction s as [|c s IH].
  - cbn. by rewrite match_here_prefix.
  - cbn [PlainRe.find PyStr.contains]. by rewrite match_here_prefix, IH.
Qed.

Lemma schema_carta_planta : Forall schema_row [Demo.carta; Demo.planta].
Proof.
  repeat constructor; try (eexists; reflexivity).
  - eexists. split; [reflexivity|]. repeat constructor; eexists; reflexivity.
  - eexists. split; [reflexivity|]. constructor.
Qed.

Lemma ascii_carta_planta :
  Forall (fun d => ascii_row d = true) [Demo.carta; Demo.planta].
Proof. repeat constructor. Qed.

(** The search for [Carta] with the project-code filter [ft] among the two
    sample items. *)
Lemma directory_filter_joins_filters_witness :
  directory_filter PlainRe.search PlainRe.search_icase JsonText.dump "Carta" "ft" ""
    [Demo.carta; Demo.planta]
  = Ret (List.filter (row_matches "Carta" "ft" "") [Demo.carta; Demo.planta])
  ∧ directory_filter PlainRe.search PlainRe.search_icase JsonText.dump "Carta" "ft" ""
      (List.filter (row_matches "Carta" "ft" "") [Demo.carta; Demo.planta])
    = Ret (List.filter (row_matches "Carta" "ft" "") [Demo.carta; Demo.planta]).
Proof.
  refine (directory_filter_joins_filters PlainRe.search PlainRe.search_icase
            JsonText.dump "Carta" "ft" "" [Demo.carta; Demo.planta]
            eq_refl eq_refl eq_refl _ _ _ schema_carta_planta ascii_carta_planta).
  - intros _ s _. unfold PlainRe.search.
    change (PlainRe.plain (PyStr.lower "Carta")) with true.
    cbv iota. f_equal. by apply find_contains.
  - intros _ s _. unfold PlainRe.search_icase.
    change (PlainRe.plain "ft") with true.
    cbv iota. f_equal. by apply find_contains.
  - intros H. by destruct H.
Defined.

(** The search for an open parenthesis among the sample items. *)
Lemma search_raises_witness :
  directory_filter PlainRe.search PlainRe.search_icase JsonText.dump "(" "" ""
    [Demo.carta; Demo.planta]
  = Raise ReError.
Proof.
  refine (proj2 (proj2 (search_raises PlainRe.search PlainRe.search_icase
                          JsonText.dump "(" "" "" [Demo.carta; Demo.planta]
                          _ eq_refl eq_refl)) _ eq_refl).
  - discriminate.
  - exists Demo.carta, "Carta Status". split; [by left|reflexivity].
Defined.

Lemma schema_atraso_contrato : Forall schema_thread [Demo.atraso; Demo.contrato].
Proof.
  repeat constructor; try (eexists; reflexivity).
  - eexists. split; [reflexivity|]. repeat constructor. eexists _, _.
    split; reflexivity.
  - eexists. split; [reflexivity|]. constructor.
  - eexists. split; [reflexivity|]. constructor.
  - eexists. split; [reflexivity|]. constructor.
Qed.

Lemma ascii_atraso_contrato :
  Forall (fun d => ascii_thread d = true) [Demo.atraso; Demo.contrato].
Proof. repeat constructor. Qed.

(** The search of the forum for an open parenthesis among the two sample
    threads. *)
Lemma forum_filter_is_literal_witness :
  forum_filter JsonText.dump "(" [Demo.atraso; Demo.contrato]
  = Ret (List.filter (thread_matches "(") [Demo.atraso; Demo.contrato]).
Proof.
  refine (proj1 (forum_filter_is_literal JsonText.dump "("
                   [Demo.atraso; Demo.contrato] eq_refl schema_atraso_contrato
                   ascii_atraso_contrato)).
Defined.

Lemma schema_atraso : Forall schema_thread [Demo.atraso].
Proof.
  repeat constructor; try (eexists; reflexivity).
  - eexists. split; [reflexivity|]. repeat constructor. eexists _, _.
    split; reflexivity.
  - eexists. split; [reflexivity|]. constructor.
Qed.

(** The search of the forum for [atraso] when a thread whose title is null
    is stored after the sample thread [atraso]. *)
Lemma forum_search_raises_witness :
  forum_filter JsonText.dump "atraso"
    ([Demo.atraso] ++ [("id", JStr "e7b3"); ("title", JNull)] :: [])
  = Raise AttributeError.
Proof.
  refine (forum_search_raises JsonText.dump "atraso" [Demo.atraso]
            [("id", JStr "e7b3"); ("title", JNull)] [] _ schema_atraso _).
  - discriminate.
  - cbn. intros (s & Hs). discriminate Hs.
Defined.

Lemma stored_planta : stored_as schema_row [JObj Demo.planta].
Proof.
  repeat constructor. exists Demo.planta. split; [reflexivity|].
  repeat split; try (eexists; reflexivity).
  eexists. split; [reflexivity|]. constructor.
Qed.

(** An item created after the sample item [planta]. *)
Lemma items_stay_searchable_witness :
  ∃ it w1,
    new_item "Carta Status" "FT02" "drenagem" "carta, status" "" "" "ana" Demo.w0
    = (Ret it, w1)
    ∧ stored_as schema_row ([JObj Demo.planta] ++ [it]).
Proof.
  eexists _, _. split; [vm_compute; reflexivity|].
  refine (proj1 (items_stay_searchable [JObj Demo.planta] stored_planta)
            "Carta Status" "FT02" "drenagem" "carta, status" "" "" "ana" Demo.w0
            _ _ _).
  vm_compute. reflexivity.
Defined.

Lemma stored_contrato : stored_as schema_thread [JObj Demo.contrato].
Proof.
  repeat constructor. exists Demo.contrato. split; [reflexivity|].
  repeat split; try (eexists; reflexivity).
  - eexists. split; [reflexivity|]. constructor.
  - eexists. split; [reflexivity|]. constructor.
Qed.

(** A thread created before the sample thread [contrato]. *)
Lemma threads_stay_searchable_witness :
  ∃ th w1,
    new_thread "Drenagem atraso" "FT02" "Precisamos de revisao" "ana" Demo.w0
    = (Ret th, w1)
    ∧ stored_as schema_thread (th :: [JObj Demo.contrato]).
Proof.
  eexists _, _. split; [vm_compute; reflexivity|].
  refine (proj1 (threads_stay_searchable [JObj Demo.contrato] stored_contrato)
            "Drenagem atraso" "FT02" "Precisamos de revisao" "ana" Demo.w0 _ _ _).
  vm_compute. reflexivity.
Defined.
